(** * US-Census assistant: response post-processing and dataset routing

    A shallow embedding of [src/src/data_handler.py] and
    [src/src/response_handler.py], with the submit handler of
    [src/streamlit_app.py] and the manager of
    [src/src/big_query_manager.py].  A Python [str] is a list of characters
    (the code points below 256), the patterns given to [re.sub] and
    [re.search] are run by a backtracking matcher, and the functions that
    talk to the language model, the vector store, the warehouse, the file
    system and [exec] live in a state-and-exception monad over an abstract
    outside world.  The embedding comes first, then the vocabulary of the
    statements and the sample inputs, then the facts and the claims. *)

From Stdlib Require Import String Ascii List Bool Arith ZArith Lia PrimFloat.
From Stdlib Require Import Floats DecimalString.
Import ListNotations.

Set Implicit Arguments.

(** ** Python strings *)

Module Str.

Definition str := list ascii.

(** A literal of the source. *)
Definition lit (s : string) : str := list_ascii_of_string s.

Definition newline : ascii := ascii_of_nat 10.

(** [str.isspace] on the characters below 256: tab, line feed, vertical
    tab, form feed, carriage return, the four separators 28..31, space,
    NEL and the no-break space. *)
Definition isspace (c : ascii) : bool :=
  let n := nat_of_ascii c in
  ((9 <=? n) && (n <=? 13)) || ((28 <=? n) && (n <=? 32))
  || (n =? 133) || (n =? 160).

(** [\s] of the [regex] module on a [str] pattern: the characters with the
    Unicode White_Space property. *)
Definition re_space (c : ascii) : bool :=
  let n := nat_of_ascii c in
  ((9 <=? n) && (n <=? 13)) || (n =? 32) || (n =? 133) || (n =? 160).

(** [\w]: letters, decimal digits and the underscore. *)
Definition re_word (c : ascii) : bool :=
  let n := nat_of_ascii c in
  ((48 <=? n) && (n <=? 57)) || ((65 <=? n) && (n <=? 90)) || (n =? 95)
  || ((97 <=? n) && (n <=? 122))
  || (n =? 170) || (n =? 181) || (n =? 186)
  || ((192 <=? n) && (n <=? 214)) || ((216 <=? n) && (n <=? 246))
  || (248 <=? n).

Fixpoint lstrip (s : str) : str :=
  match s with
  | c :: s' => if isspace c then lstrip s' else s
  | [] => []
  end.

Definition rstrip (s : str) : str := rev (lstrip (rev s)).

(** [s.strip()] *)
Definition strip (s : str) : str := rstrip (lstrip s).

Fixpoint startswith (p s : str) : bool :=
  match p, s with
  | [], _ => true
  | a :: p', b :: s' => Ascii.eqb a b && startswith p' s'
  | _ :: _, [] => false
  end.

Definition endswith (p s : str) : bool := startswith (rev p) (rev s).

(** [needle in hay] *)
Fixpoint contains (needle hay : str) : bool :=
  startswith needle hay ||
  match hay with
  | _ :: hay' => contains needle hay'
  | [] => false
  end.

(** [sep.join(parts)] *)
Fixpoint join (sep : str) (parts : list str) : str :=
  match parts with
  | [] => []
  | [p] => p
  | p :: rest => p ++ sep ++ join sep rest
  end.

End Str.
Import Str.

(** ** Regular expressions

    The patterns of the source only repeat single characters, so a pattern
    is a sequence of atoms.  The matcher backtracks the way Python's does:
    a greedy repetition first takes as much as it can, a lazy one as
    little. *)

Module Re.

Inductive atom : Type :=
| Bos                                  (* ^  without MULTILINE *)
| Eos                                  (* $  without MULTILINE *)
| Chr (c : ascii)                      (* a literal character *)
| Star (p : ascii -> bool) (greedy : bool)   (* p*  and  p*? *)
| Plus (p : ascii -> bool)             (* p+ *)
| WordB                                (* \b *)
| GOpen                                (* (  of group 1 *)
| GClose.                              (* )  of group 1 *)

Definition regex := list atom.

Definition chars (s : string) : regex := map Chr (lit s).

(** [.] with and without [re.DOTALL]. *)
Definition dot (dotall : bool) (c : ascii) : bool :=
  dotall || negb (Ascii.eqb c newline).

(** The subject text left at the opening and at the closing of group 1. *)
Record caps := { g_open : option str; g_close : option str }.

Definition no_caps : caps := {| g_open := None; g_close := None |}.

(** Whether the character next to a position, if any, is a word character. *)
Definition is_word_opt (c : option ascii) : bool :=
  match c with Some a => re_word a | None => false end.

(** Where [$] matches: at the end of the text, or just before a newline
    that ends it. *)
Definition at_eos (s : str) : bool :=
  match s with
  | [] => true
  | [c] => Ascii.eqb c newline
  | _ => false
  end.

(** A repeated character class followed by the rest of the pattern [k]:
    the greedy form tries the longest run first and gives characters back
    one at a time, the lazy form tries the rest of the pattern first. *)
Section Repeat.

Variable R : Type.
Variable p : ascii -> bool.
Variable k : option ascii -> str -> option R.

Fixpoint star_greedy (prev : option ascii) (s : str) : option R :=
  match s with
  | a :: s' =>
      if p a then
        match star_greedy (Some a) s' with
        | Some x => Some x
        | None => k prev s
        end
      else k prev s
  | [] => k prev s
  end.

Fixpoint star_lazy (prev : option ascii) (s : str) : option R :=
  match k prev s with
  | Some x => Some x
  | None =>
      match s with
      | a :: s' => if p a then star_lazy (Some a) s' else None
      | [] => None
      end
  end.

End Repeat.

(** [match_at r prev s g]: match [r] at a position whose previous character
    is [prev] and whose remaining text is [s]; the result is the text left
    after the match. *)
Fixpoint match_at (r : regex) (prev : option ascii) (s : str) (g : caps)
  : option (str * caps) :=
  match r with
  | [] => Some (s, g)
  | Bos :: r' =>
      match prev with None => match_at r' prev s g | Some _ => None end
  | Eos :: r' => if at_eos s then match_at r' prev s g else None
  | Chr c :: r' =>
      match s with
      | a :: s' => if Ascii.eqb a c then match_at r' (Some a) s' g else None
      | [] => None
      end
  | Star p true :: r' =>
      star_greedy p (fun prev s => match_at r' prev s g) prev s
  | Star p false :: r' =>
      star_lazy p (fun prev s => match_at r' prev s g) prev s
  | Plus p :: r' =>
      match s with
      | a :: s' =>
          if p a
          then star_greedy p (fun prev s => match_at r' prev s g) (Some a) s'
          else None
      | [] => None
      end
  | WordB :: r' =>
      if xorb (is_word_opt prev) (is_word_opt (hd_error s))
      then match_at r' prev s g else None
  | GOpen :: r' =>
      match_at r' prev s {| g_open := Some s; g_close := g_close g |}
  | GClose :: r' =>
      match_at r' prev s {| g_open := g_open g; g_close := Some s |}
  end.

(** The text between two positions given by what is left after them. *)
Definition between (from to : str) : str :=
  firstn (length from - length to) from.

(** [m.group(1)] *)
Definition group1 (g : caps) : str :=
  match g_open g, g_close g with
  | Some o, Some c => between o c
  | _, _ => []
  end.

(** A replacement template: the empty text or the text of group 1. *)
Inductive repl := Empty | Group1.

Definition expand (t : repl) (g : caps) : str :=
  match t with Empty => [] | Group1 => group1 g end.

(** [re.sub(r, t, s)]: every leftmost non-overlapping match is replaced.
    [skip] counts the characters of the current match still to pass. *)
Fixpoint sub_from (r : regex) (t : repl) (prev : option ascii) (s : str)
  (skip : nat) : str :=
  match skip with
  | S n =>
      match s with
      | a :: s' => sub_from r t (Some a) s' n
      | [] => []
      end
  | 0 =>
      match match_at r prev s no_caps with
      | Some (rest, g) =>
          expand t g ++
          match s with
          | a :: s' =>
              match length s - length rest with
              | 0 => a :: sub_from r t (Some a) s' 0
              | S n => sub_from r t (Some a) s' n
              end
          | [] => []
          end
      | None =>
          match s with
          | a :: s' => a :: sub_from r t (Some a) s' 0
          | [] => []
          end
      end
  end.

Definition sub (r : regex) (t : repl) (s : str) : str :=
  sub_from r t None s 0.

(** [re.search(r, s)]: the leftmost match, as the captures. *)
Fixpoint search_from (r : regex) (prev : option ascii) (s : str)
  : option caps :=
  match match_at r prev s no_caps with
  | Some (_, g) => Some g
  | None =>
      match s with
      | a :: s' => search_from r (Some a) s'
      | [] => None
      end
  end.

Definition search (r : regex) (s : str) : option caps :=
  search_from r None s.

End Re.
Import Re.

(** ** Python values and exceptions *)

Module Py.

(** Exception classes: the three that derive from [BaseException] only,
    and the subclasses of [Exception], by name. *)
Inductive exc_class : Type :=
| SystemExit
| KeyboardInterrupt
| GeneratorExit
| Error (name : string).

(** A raised exception with its [str(e)]. *)
Record exn := { exn_class : exc_class; exn_str : str }.

(** [isinstance(e, Exception)]: what [except Exception] catches. *)
Definition is_Exception (e : exn) : bool :=
  match exn_class e with
  | Error _ => true
  | _ => false
  end.

Inductive result (A : Type) : Type :=
| Ok (a : A)
| Raise (e : exn).

Arguments Ok {A} a.
Arguments Raise {A} e.

End Py.
Import Py.

(** ** Tables

    A [pd.DataFrame]: column labels, row labels and the rows of cells. *)

Module Frame.

Inductive cell : Type :=
| Null                       (* None, NaN of an object column, NaT *)
| Int (z : Z)
| Float (f : float)          (* NaN is the missing value of a float column *)
| Flag (b : bool)
| Text (s : str).

Record DataFrame := {
  columns : list str;
  index : list Z;
  rows : list (list cell)
}.

(** [len(data)] *)
Definition len (d : DataFrame) : nat := length (rows d).

(** [pd.isna] on a cell. *)
Definition isna (c : cell) : bool :=
  match c with
  | Null => true
  | Float f => PrimFloat.is_nan f
  | _ => false
  end.

(** [x != 0], cell by cell: a number or a flag is compared by value (so
    [-0.0] and [False] equal 0), anything else differs from 0. *)
Definition ne_zero (c : cell) : bool :=
  match c with
  | Null => true
  | Int z => negb (Z.eqb z 0)
  | Float f => negb (PrimFloat.eqb f PrimFloat.zero)
  | Flag b => b
  | Text _ => true
  end.

(** [range(n)] as row labels. *)
Definition range_index (n : nat) : list Z := map Z.of_nat (seq 0 n).

End Frame.
Import Frame.

(** ** Values the functions receive and return *)

#[warnings="-register-all"]
Inductive pyval : Type :=
| PyNone
| PyStr (s : str)
| PyBytes (b : str)
| PyInt (z : Z)
| PyFrame (d : DataFrame)
| PyModule (name : string)
| PyObject (cls : string) (id : nat)   (* an object of another class, such as a chart *)
| PyTuple (items : list pyval).

(** [type(v).__name__] *)
Definition class_name (v : pyval) : str :=
  match v with
  | PyNone => lit "NoneType"
  | PyStr _ => lit "str"
  | PyBytes _ => lit "bytes"
  | PyInt _ => lit "int"
  | PyFrame _ => lit "DataFrame"
  | PyModule _ => lit "module"
  | PyObject cls _ => lit cls
  | PyTuple _ => lit "tuple"
  end.

(** The message of the [AttributeError] for a missing attribute; a module
    is named, any other value is described by its class. *)
Definition no_attribute (v : pyval) (attr : string) : str :=
  match v with
  | PyModule name =>
      lit "module '" ++ lit name ++ lit "' has no attribute '" ++ lit attr
        ++ lit "'"
  | _ =>
      lit "'" ++ class_name v ++ lit "' object has no attribute '" ++ lit attr
        ++ lit "'"
  end.

(** [re.sub(pattern, repl, string)] needs a [str] subject for a [str]
    pattern and raises [TypeError] otherwise; for a subject that is not
    [bytes] either the message names the class of the subject. *)
Definition re_sub (r : regex) (t : repl) (v : pyval) : result pyval :=
  match v with
  | PyStr s => Ok (PyStr (sub r t s))
  | PyBytes _ =>
      Raise {| exn_class := Error "TypeError";
               exn_str := lit "cannot use a string pattern on a bytes-like object" |}
  | _ =>
      Raise {| exn_class := Error "TypeError";
               exn_str := lit "expected string or bytes-like object, got '"
                            ++ class_name v ++ lit "'" |}
  end.

(** Whitespace of [bytes.strip]: space, tab, line feed, carriage return,
    vertical tab, form feed. *)
Definition bytes_isspace (c : ascii) : bool :=
  let n := nat_of_ascii c in ((9 <=? n) && (n <=? 13)) || (n =? 32).

Fixpoint bytes_lstrip (s : str) : str :=
  match s with
  | c :: s' => if bytes_isspace c then bytes_lstrip s' else s
  | [] => []
  end.

(** [v.strip()]: [str] and [bytes] have the method, the other values
    raise [AttributeError]. *)
Definition method_strip (v : pyval) : result pyval :=
  match v with
  | PyStr s => Ok (PyStr (strip s))
  | PyBytes b => Ok (PyBytes (rev (bytes_lstrip (rev (bytes_lstrip b)))))
  | _ =>
      Raise {| exn_class := Error "AttributeError";
               exn_str := no_attribute v "strip" |}
  end.

(** ** The outside world

    The language model, the vector store, the warehouse, the file system
    and [exec] are collaborators: each call may change the state [X] of the
    outside world and may raise.  Every call and every log line is
    recorded, in order, in the trace. *)

Inductive level := INFO | ERROR | CRITICAL.

Inductive message : Type :=
| SystemMessage (content : str)
| HumanMessage (content : str).

(** What [llm.invoke] is given: a list of messages or one prompt text. *)
Inductive prompt : Type :=
| Messages (ms : list message)
| PromptText (text : str).

(** The namespace handed to [exec], a [dict] from names to values. *)
Definition namespace := list (string * pyval).

Fixpoint ns_lookup (k : string) (ns : namespace) : option pyval :=
  match ns with
  | (k', v) :: ns' => if String.eqb k k' then Some v else ns_lookup k ns'
  | [] => None
  end.

Inductive event : Type :=
| EvLog (l : level) (msg : str)                 (* logger.info / error / critical *)
| EvPrint (msg : str)                           (* print *)
| EvSearch (query : str) (k : nat)              (* vector_store.similarity_search *)
| EvInvoke (p : prompt)                         (* llm.invoke *)
| EvQuery (sql : str)                           (* bq_manager.execute_query *)
| EvWrite (filename : str) (content : str)      (* DataFrame.to_json(filename) *)
| EvExec (code : str) (ns : namespace).         (* exec *)

Record collaborators (X : Type) := {
  similarity_search : str -> nat -> X -> result (list str) * X;
  llm_invoke : prompt -> X -> result str * X;
  execute_query : str -> X -> result pyval * X;
  write_file : str -> str -> X -> result unit * X;
  py_exec : str -> namespace -> X -> result namespace * X;
  (** [DataFrame.to_json] with orient records and indent 4, as text *)
  to_json : DataFrame -> str
}.

Module Effects.
Section Monad.

Variable X : Type.

Record state := { world : X; trace : list event }.

Definition io (A : Type) : Type := state -> result A * state.

Definition ret {A} (a : A) : io A := fun st => (Ok a, st).

Definition raise {A} (e : exn) : io A := fun st => (Raise e, st).

Definition bind {A B} (m : io A) (f : A -> io B) : io B :=
  fun st =>
    match m st with
    | (Ok a, st') => f a st'
    | (Raise e, st') => (Raise e, st')
    end.

Definition lift {A} (r : result A) : io A := fun st => (r, st).

(** [try: body  except <classes>: handler]; [catches] says which
    exceptions the clause takes. *)
Definition try_except {A} (body : io A) (catches : exn -> bool)
  (handler : exn -> io A) : io A :=
  fun st =>
    match body st with
    | (Ok a, st') => (Ok a, st')
    | (Raise e, st') => if catches e then handler e st' else (Raise e, st')
    end.

Definition emit (ev : event) : io unit :=
  fun st => (Ok tt, {| world := world st; trace := trace st ++ [ev] |}).

(** A call to a collaborator: recorded, then run on the outside world. *)
Definition call {A} (ev : event) (f : X -> result A * X) : io A :=
  fun st =>
    let (r, w) := f (world st) in
    (r, {| world := w; trace := trace st ++ [ev] |}).

End Monad.
End Effects.
Import Effects.

Arguments ret {X A} a _.
Arguments raise {X A} e _.
Arguments bind {X A B} m f _.
Arguments lift {X A} r _.
Arguments try_except {X A} body catches handler _.
Arguments emit {X} ev _.
Arguments call {X A} ev f _.

Declare Scope py_scope.
Delimit Scope py_scope with py.
Notation "x <- m ;; k" := (bind m (fun x => k))
  (at level 100, m at next level, right associativity) : py_scope.
Notation "m ;; k" := (bind m (fun _ => k))
  (at level 100, right associativity) : py_scope.
Open Scope py_scope.

(** The clause [except Exception]. *)
Definition except_Exception : exn -> bool := is_Exception.

Definition logger_info {X} (msg : string) : io X unit := emit (EvLog INFO (lit msg)).
Definition logger_error {X} (msg : string) : io X unit := emit (EvLog ERROR (lit msg)).
Definition logger_critical {X} (msg : string) : io X unit :=
  emit (EvLog CRITICAL (lit msg)).

(** ** The response sanitizer ([refine_response]) *)

Module Sanitizer.

(** The pattern  ^sql\s*  *)
Definition sql_tag : regex := Bos :: chars "sql" ++ [Star re_space true].

(** The pattern  ^```sql(G)```$  with G the greedy  .*  under re.DOTALL *)
Definition sql_fence : regex :=
  Bos :: chars "```sql" ++ [GOpen; Star (dot true) true; GClose]
      ++ chars "```" ++ [Eos].

(** The pattern  ^```(G)```$  with G the greedy  .*  under re.DOTALL *)
Definition fence : regex :=
  Bos :: chars "```" ++ [GOpen; Star (dot true) true; GClose]
      ++ chars "```" ++ [Eos].

(** The pattern  ^`(G)`$  with G the greedy  .*  under re.DOTALL *)
Definition tick : regex :=
  Bos :: chars "`" ++ [GOpen; Star (dot true) true; GClose]
      ++ chars "`" ++ [Eos].

(** The assignments [response = re.sub(...)] of the [try] block, run on the
    variable [response]: the first one that raises leaves the variable as
    it was and ends the block.  The bare [except] takes whatever was
    raised. *)
Fixpoint assignments (steps : list (pyval -> result pyval)) (response : pyval)
  : pyval * option exn :=
  match steps with
  | [] => (response, None)
  | f :: rest =>
      match f response with
      | Ok response' => assignments rest response'
      | Raise e => (response, Some e)
      end
  end.

Definition substitutions : list (pyval -> result pyval) :=
  [ re_sub sql_tag Empty;
    re_sub sql_fence Group1;
    re_sub fence Group1;
    re_sub tick Group1 ].

(** [refine_response] of [src/src/data_handler.py]. *)
Definition refine_response {X} (response : pyval) : io X pyval :=
  logger_info "Refining Resonse..." ;;
  let (response, failure) := assignments substitutions response in
  match failure with
  | Some _ => logger_error "Error in refine_response."
  | None => ret tt
  end ;;
  lift (method_strip response).

(** The copy in [src/main.py]: the same substitutions, without the [try]
    and without logging. *)
Module MainPy.

Definition refine_response {X} (response : pyval) : io X pyval :=
  response <- lift (re_sub sql_tag Empty response) ;;
  response <- lift (re_sub sql_fence Group1 response) ;;
  response <- lift (re_sub fence Group1 response) ;;
  response <- lift (re_sub tick Group1 response) ;;
  lift (method_strip response).

End MainPy.

(** What the sanitizer computes on a [str]. *)
Definition refine_str (s : str) : str :=
  strip (sub tick Group1 (sub fence Group1 (sub sql_fence Group1
    (sub sql_tag Empty s)))).

End Sanitizer.
Import Sanitizer.


(** ** The cleaning step and the two serialisations *)

Module Cleaning.

(** [fillna(0)] on a cell. *)
Definition fill_cell (c : cell) : cell :=
  match c with
  | Null => Int 0
  | Float f => if PrimFloat.is_nan f then Float PrimFloat.zero else Float f
  | _ => c
  end.

(** [data.fillna(0, inplace=True)]: the frame the caller passed, after the
    call. *)
Definition fillna0 (d : DataFrame) : DataFrame :=
  {| columns := columns d; index := index d;
     rows := map (map fill_cell) (rows d) |}.

(** [(data != 0).any(axis=1)] on one row. *)
Definition any_ne_zero (row : list cell) : bool := existsb ne_zero row.

(** [data[mask].reset_index(drop=True)] *)
Definition select_reset (mask : list cell -> bool) (d : DataFrame) : DataFrame :=
  let kept := filter mask (rows d) in
  {| columns := columns d; index := range_index (length kept); rows := kept |}.

(** [data.head(rows)] *)
Definition head (n : nat) (d : DataFrame) : DataFrame :=
  {| columns := columns d; index := firstn n (index d);
     rows := firstn n (rows d) |}.

End Cleaning.
Import Cleaning.

(** The fixed prompt texts; each f-string is a function of its holes. *)
Record prompts := {
  SYSTEM_PROMPT : str;
  (** the f-string of [trigger_fallback_logic]: user_input, context *)
  SYSTEM_PROMPT_2 : str -> str -> str;
  (** system_prompt of [short_data]: data_json, user_input *)
  short_prompt : str -> str -> str;
  (** system_prompt of [large_data]: json_filename, data_preview, user_input *)
  large_prompt : str -> str -> str -> str
}.

Module Pipeline.
Section WithCollaborators.

Variable X : Type.
Variable C : collaborators X.
Variable P : prompts.

(** *** [src/src/data_handler.py] *)

Definition get_data (reg : str) : io X pyval :=
  try_except
    (logger_info "Hitting BigQuery..." ;;
     data <- call (EvQuery reg) (execute_query C reg) ;;
     ret data)
    except_Exception
    (fun e =>
       emit (EvLog ERROR (lit "SQL Query Problem: " ++ exn_str e)) ;;
       logger_critical "TERMINATED" ;;
       ret PyNone).

Definition preprocess_data (data : DataFrame) : io X DataFrame :=
  logger_info "Preporcessing Data..." ;;
  let data := fillna0 data in
  let data := select_reset any_ne_zero data in
  ret data.

Definition save_json (data : DataFrame) (filename : str) : io X str :=
  logger_info "Saving to Json..." ;;
  call (EvWrite filename (to_json C data))
       (write_file C filename (to_json C data)) ;;
  ret filename.

Definition get_head (data : DataFrame) (rows : nat) : io X str :=
  logger_info "Fetching Head..." ;;
  ret (to_json C (head rows data)).

Definition short_data (data : DataFrame) (user_input : str) : io X (str * str) :=
  logger_info "Fucntion short_data." ;;
  preprocessed_data <- preprocess_data data ;;
  let data_json := to_json C preprocessed_data in
  let system_prompt := short_prompt P data_json user_input in
  result <- call (EvInvoke (PromptText system_prompt))
                 (llm_invoke C (PromptText system_prompt)) ;;
  ret (strip result, data_json).

Definition large_data (data : DataFrame) (user_input : str) (filename : str)
  (rows : nat) : io X (str * DataFrame) :=
  logger_info "Function large_data" ;;
  preprocessed_data <- preprocess_data data ;;
  json_filename <- save_json preprocessed_data filename ;;
  data_preview <- get_head preprocessed_data rows ;;
  let system_prompt := large_prompt P json_filename data_preview user_input in
  result <- call (EvInvoke (PromptText system_prompt))
                 (llm_invoke C (PromptText system_prompt)) ;;
  ret (strip result, preprocessed_data).

(** The patterns of [process_llm_response].  The first is  ```python(G)```
    with G the lazy repetition of any character under re.DOTALL; the
    second is  ```(G)```  with G lazy and no flag, so G stays on one line. *)
Definition code_pattern : regex :=
  chars "```python" ++ [GOpen; Star (dot true) false; GClose] ++ chars "```".
Definition nocode_pattern : regex :=
  chars "```" ++ [GOpen; Star (dot false) false; GClose] ++ chars "```".
Definition pattern : regex := chars "Python Code:" ++ [Star re_space true].
Definition png_pattern : regex := [WordB; Plus re_word] ++ chars ".png" ++ [WordB].
Definition html_pattern : regex := [WordB; Plus re_word] ++ chars ".html" ++ [WordB].
Definition json_pattern : regex := [WordB; Plus re_word] ++ chars ".json" ++ [WordB].

(** Step 4: the prose with code blocks and file references removed. *)
Definition clean_prose (response_text : str) : str :=
  let response_text := strip (sub code_pattern Empty response_text) in
  let response_text := strip (sub png_pattern Empty response_text) in
  let response_text := strip (sub pattern Empty response_text) in
  let response_text := strip (sub html_pattern Empty response_text) in
  let response_text := strip (sub json_pattern Empty response_text) in
  let response_text := strip (sub nocode_pattern Empty response_text) in
  response_text.

(** The second cleaning, after the code has run. *)
Definition clean_again (response_text : str) : str :=
  let response_text := strip (sub code_pattern Empty response_text) in
  let response_text := strip (sub png_pattern Empty response_text) in
  let response_text := strip (sub html_pattern Empty response_text) in
  let response_text := strip (sub json_pattern Empty response_text) in
  let response_text := strip (sub nocode_pattern Empty response_text) in
  let response_text := strip (sub pattern Empty response_text) in
  response_text.

Definition error_note (e : exn) : str :=
  newline :: lit "Error generating visualization: " ++ exn_str e.

Definition process_llm_response (response_text : str) (data : pyval)
  : io X (str * pyval) :=
  logger_info "Function process_llm_response" ;;
  let code_match := search code_pattern response_text in
  let response_text := clean_prose response_text in
  let chart := PyNone in
  match code_match with
  | Some m =>
      try_except
        (logger_info "Python Code found in the response." ;;
         let code := strip (group1 m) in
         let local_vars :=
           [("pd", PyModule "pandas"); ("alt", PyModule "altair");
            ("data", data)]%string in
         local_vars <- call (EvExec code local_vars)
                            (py_exec C code local_vars) ;;
         chart <- match ns_lookup "chart" local_vars with
                  | Some c =>
                      logger_info "Chart found in the local_vars." ;;
                      logger_critical "TERMINATED" ;;
                      ret c
                  | None => ret chart
                  end ;;
         ret (clean_again response_text, chart))
        except_Exception
        (fun e =>
           logger_error "Failed to Generate Chart." ;;
           logger_critical "TERMINATED" ;;
           ret (response_text ++ error_note e, chart))
  | None => ret (response_text, chart)
  end.

(** [data_handle]; both branches pass the literals [data.json] and 10 on,
    whatever [filename] and [rows] are.  A call that takes neither branch
    falls off the end and returns [None]. *)
Definition data_handle (data : DataFrame) (user_input : str) (filename : str)
  (rows : nat) : io X pyval :=
  let data_rows := len data in
  if 100 <? data_rows then
    logger_info "Function called for large dataset" ;;
    r <- large_data data user_input (lit "data.json") 10 ;;
    let (response, preprocessed_data) := r in
    r <- process_llm_response response (PyFrame preprocessed_data) ;;
    let (response_text, chart) := r in
    ret (PyTuple [PyStr response_text; chart])
  else if data_rows <=? 100 then
    logger_info "Function Called for short dataset" ;;
    r <- short_data data user_input ;;
    let (response, data_json) := r in
    r <- process_llm_response response (PyStr data_json) ;;
    let (response_text, chart) := r in
    ret (PyTuple [PyInt (Z.of_nat data_rows); PyStr response_text; chart])
  else ret PyNone.

(** [summary_text, chart = data_handle(...)] of [streamlit_app.py]:
    unpacking into two names. *)
Definition unpack2 (v : pyval) : result (pyval * pyval) :=
  match v with
  | PyTuple [a; b] => Ok (a, b)
  | PyTuple (_ :: _ :: _ :: _) =>
      Raise {| exn_class := Error "ValueError";
               exn_str := lit "too many values to unpack (expected 2)" |}
  | PyTuple _ =>
      Raise {| exn_class := Error "ValueError";
               exn_str := lit "not enough values to unpack" |}
  | PyStr [a; b] => Ok (PyStr [a], PyStr [b])
  | PyStr (_ :: _ :: _ :: _) =>
      Raise {| exn_class := Error "ValueError";
               exn_str := lit "too many values to unpack (expected 2)" |}
  | PyStr _ =>
      Raise {| exn_class := Error "ValueError";
               exn_str := lit "not enough values to unpack" |}
  | _ =>
      Raise {| exn_class := Error "TypeError";
               exn_str := lit "cannot unpack non-iterable object" |}
  end.

Definition summarize_and_unpack (data : DataFrame) (user_query : str)
  : io X (pyval * pyval) :=
  r <- data_handle data user_query (lit "data.json") 10 ;;
  lift (unpack2 r).

(** *** [src/src/response_handler.py] *)

Definition sentinel : str :=
  lit "I cannot generate a SQL query for this request based on the provided schema.".

Definition apology : str :=
  lit "An error occurred while processing your request. Please try again later.".

Definition fallback_apology : str :=
  lit "An error occurred while processing the fallback logic. Please try again later.".

Definition generate_initial_response (user_input : str) (k : nat) : io X str :=
  try_except
    (logger_info "Function generate_initial_response." ;;
     results <- call (EvSearch user_input k) (similarity_search C user_input k) ;;
     let flattened_context := results in
     let context := join [newline] flattened_context in
     let system_message :=
       SystemMessage (SYSTEM_PROMPT P ++ newline :: lit "Schema Context:"
                        ++ newline :: context) in
     let human_message := HumanMessage user_input in
     response <- call (EvInvoke (Messages [system_message; human_message]))
                      (llm_invoke C (Messages [system_message; human_message])) ;;
     emit (EvLog INFO (strip response)) ;;
     ret (strip response))
    except_Exception
    (fun e =>
       logger_error "Error generating response..." ;;
       emit (EvPrint (lit "Error generating response: " ++ exn_str e)) ;;
       ret apology).

Definition trigger_fallback_logic (user_input : str) (context : str)
  (human_message : message) : io X str :=
  try_except
    (logger_info "Fallback Logic triggered." ;;
     let refined_system_message :=
       SystemMessage (SYSTEM_PROMPT_2 P user_input context) in
     refined_response <-
       call (EvInvoke (Messages [refined_system_message; human_message]))
            (llm_invoke C (Messages [refined_system_message; human_message])) ;;
     logger_info "Improved Prompts Generated." ;;
     logger_critical "TERMINATED" ;;
     ret (strip refined_response))
    except_Exception
    (fun e =>
       emit (EvPrint (lit "Error triggering fallback logic: " ++ exn_str e)) ;;
       logger_error "Error triggering fallback logic." ;;
       ret fallback_apology).

Definition get_response (user_input : str) (k : nat) : io X str :=
  try_except
    (logger_info "Function get_response..." ;;
     response <- generate_initial_response user_input k ;;
     if contains sentinel response then
       logger_info "Fallback triggered" ;;
       results <- call (EvSearch user_input k) (similarity_search C user_input k) ;;
       let flattened_context := results in
       let context := join [newline] flattened_context in
       trigger_fallback_logic user_input context (HumanMessage user_input)
     else
       logger_critical "TERMINATED" ;;
       ret response)
    except_Exception
    (fun e =>
       emit (EvPrint (lit "Error in get_response: " ++ exn_str e)) ;;
       logger_error "An error occurred while processing your request" ;;
       logger_critical "TERMINATED" ;;
       ret apology).

End WithCollaborators.
End Pipeline.
Import Pipeline.

(** ** Vocabulary of the statements *)

Module Shape.

(** The longest prefix of characters in [p] removed. *)
Fixpoint drop_while (p : ascii -> bool) (s : str) : str :=
  match s with
  | c :: s' => if p c then drop_while p s' else s
  | [] => []
  end.

(** [s] without its final newline, when it has one. *)
Definition chomp (s : str) : str :=
  match rev s with
  | c :: r => if Ascii.eqb c newline then rev r else s
  | [] => []
  end.

(** [s] opens with the fence [q] and closes with another copy of it. *)
Definition wrapped (q s : str) : bool :=
  startswith q s && endswith q s && (2 * length q <=? length s).

(** No leading sql tag, no wrapping triple-backtick fence, no wrapping
    single-backtick fence. *)
Definition undecorated (s : str) : bool :=
  negb (startswith (lit "sql") s)
  && negb (wrapped (lit "```") s)
  && negb (wrapped (lit "`") s).

(** The tag [sql] in any letter case. *)
Definition is_sql_tag (t : str) : bool :=
  match t with
  | [a; b; c] =>
      (Ascii.eqb a "s" || Ascii.eqb a "S")
      && (Ascii.eqb b "q" || Ascii.eqb b "Q")
      && (Ascii.eqb c "l" || Ascii.eqb c "L")
  | _ => false
  end.

(** [rest] does not open with a character that [\s] takes. *)
Definition no_leading_space (rest : str) : bool :=
  match rest with
  | c :: _ => negb (re_space c)
  | [] => true
  end.

(** The character before the position reached after reading [l]. *)
Definition prev_after (l : str) (prev : option ascii) : option ascii :=
  fold_left (fun _ c => Some c) l prev.

(** The pattern  ^P(G)S$  with G the greedy repetition of any character:
    the three fence patterns of the sanitizer are instances. *)
Definition wrap (P S : str) : regex :=
  Bos :: map Chr P ++ [GOpen; Star (dot true) true; GClose]
      ++ map Chr S ++ [Eos].

(** What is left of [wrap P S] once G has stopped. *)
Definition closing (S body : str) (prev : option ascii) (t : str)
  : option (str * caps) :=
  match_at (GClose :: map Chr S ++ [Eos]) prev t
    {| g_open := Some body; g_close := None |}.

(** The state after the events [evs] have been recorded. *)
Definition logged {X} (st : state X) (evs : list event) : state X :=
  {| world := world st; trace := trace st ++ evs |}.

(** What a computation records when started from an empty trace. *)
Definition events_of {X A} (m : io X A) (w : X) : list event :=
  trace (snd (m {| world := w; trace := [] |})).

(** Every event [m] records satisfies [Q]; nothing recorded before is
    touched. *)
Definition emits {X A} (Q : event -> Prop) (m : io X A) : Prop :=
  forall st, exists evs,
    trace (snd (m st)) = trace st ++ evs /\ Forall Q evs.

(** Neither a warehouse query, nor a file write, nor an [exec]. *)
Definition talk_only (ev : event) : Prop :=
  match ev with
  | EvQuery _ | EvWrite _ _ | EvExec _ _ => False
  | _ => True
  end.

Definition no_write (ev : event) : Prop :=
  match ev with EvWrite _ _ => False | _ => True end.

(** The table [preprocess_data] returns. *)
Definition cleaned (data : DataFrame) : DataFrame :=
  select_reset any_ne_zero (fillna0 data).

(** A cell that is missing or equal to 0. *)
Definition zero_or_missing (c : cell) : bool := isna c || negb (ne_zero c).

(** The namespace [process_llm_response] gives to [exec]. *)
Definition local_vars0 (data : pyval) : namespace :=
  [("pd", PyModule "pandas"); ("alt", PyModule "altair"); ("data", data)]%string.

End Shape.
Import Shape.

(** ** Sample inputs *)

Module Samples.

(** An outside world with nothing in it, and nothing recorded yet. *)
Definition quiet : state unit := {| world := tt; trace := [] |}.

(** Collaborators whose model always answers [answer] and whose [exec]
    ends the way [outcome] says; the vector store has one snippet, the
    warehouse returns nothing and writing succeeds. *)
Definition scripted (answer : str) (outcome : namespace -> result namespace)
  : collaborators unit :=
  {| similarity_search := fun _ _ w => (Ok [lit "demographics(State, TotalPop)"], w);
     llm_invoke := fun _ w => (Ok answer, w);
     execute_query := fun _ w => (Ok PyNone, w);
     write_file := fun _ _ w => (Ok tt, w);
     py_exec := fun _ ns w => (outcome ns, w);
     to_json := fun d => lit "[]" |}.

Definition plain_prompts : prompts :=
  {| SYSTEM_PROMPT := lit "You are a SQL assistant.";
     SYSTEM_PROMPT_2 := fun user_input context => user_input ++ context;
     short_prompt := fun data_json user_input => data_json ++ user_input;
     large_prompt := fun json_filename data_preview user_input =>
                       json_filename ++ data_preview ++ user_input |}.

(** An answer of the model made of prose only. *)
Definition prose : str := lit "Alabama has the largest share.".

Definition steady : collaborators unit := scripted prose (fun ns => Ok ns).

(** A table of [n] rows with one column of ones. *)
Definition ones (n : nat) : DataFrame :=
  {| columns := [lit "TotalPop"]; index := range_index n;
     rows := repeat [Int 1] n |}.

(** A table of 101 rows whose first row has only a missing value. *)
Definition sparse : DataFrame :=
  {| columns := [lit "TotalPop"]; index := range_index 101;
     rows := [Null] :: repeat [Int 1] 100 |}.

(** A query between the sql fence and the plain fence, on lines of its own. *)
Definition select_all : str := newline :: lit "SELECT * FROM t" ++ [newline].

(** A bare query with blanks around it and a quoted column inside. *)
Definition padded_query : str :=
  lit "  SELECT `State` FROM demographics " ++ [newline].

(** A summary whose code block names an undefined variable. *)
Definition summary_undefined : str :=
  lit "Top states by population." ++ newline :: lit "```python" ++ newline
    :: lit "chart = alt.Chart(df)" ++ newline :: lit "```".

(** A summary whose code block ends the interpreter. *)
Definition summary_exit : str :=
  lit "```python" ++ newline :: lit "raise SystemExit(1)" ++ newline
    :: lit "```".

Definition name_error : exn :=
  {| exn_class := Error "NameError"; exn_str := lit "name 'df' is not defined" |}.

Definition system_exit : exn :=
  {| exn_class := SystemExit; exn_str := lit "1" |}.

(** A translator that first refuses, with the sentinel at the end of a
    longer message, and then, asked again, suggests a rewording.  The
    outside world counts the calls to the model. *)
Definition refusal : str := lit "I am sorry. " ++ sentinel.

Definition suggestion : str := lit "Ask for the unemployment rate by state.".

Definition two_step : collaborators nat :=
  {| similarity_search := fun _ _ n => (Ok [lit "demographics(State, Unemployment)"], n);
     llm_invoke := fun _ n => (Ok (if n =? 0 then refusal else suggestion), S n);
     execute_query := fun _ n => (Ok PyNone, n);
     write_file := fun _ _ n => (Ok tt, n);
     py_exec := fun _ ns n => (Ok ns, n);
     to_json := fun _ => lit "[]" |}.

Definition fresh : state nat := {| world := 0; trace := [] |}.

End Samples.
Import Samples.

(** ** The JSON documents of the large path

    [DataFrame.to_json] with [orient] records, as pandas documents it: a
    list with one object per row, in row order, whose keys are the column
    labels.  [None] and NaN become [null], and a floating point value is
    written with [double_precision] decimal places, 10 by default.  The
    encoder switches to that many significant digits for a value above
    1e16 or below 1e-15, and writes an infinite value as [null] too.  The
    text itself (indentation, escapes) is left to the collaborator
    [to_json]; what is modelled is the document the text holds. *)

Module Json.

(** A number as written: the value is the digits times a power of ten,
    with the sign, and the digits end in no zero. *)
Record decimal := { negative : bool; digits : Z; exponent : Z }.

Inductive value : Type :=
| JNull
| JBool (b : bool)
| JInt (z : Z)
| JNumber (d : decimal)
| JString (s : str).

(** An object, its keys in column order. *)
Definition record := list (str * value).

Definition document := list record.

(** The integer nearest to [a / b], the even one of two that are equally
    near; [a] is not negative and [b] is positive. *)
Definition round_half_even (a b : Z) : Z :=
  let q := (a / b)%Z in
  let r := (a mod b)%Z in
  match (2 * r ?= b)%Z with
  | Lt => q
  | Gt => (q + 1)%Z
  | Eq => if Z.even q then q else (q + 1)%Z
  end.

(** The trailing zeros of the digits moved into the exponent. *)
Fixpoint trim (fuel : nat) (d e : Z) : Z * Z :=
  match fuel with
  | O => (d, e)
  | S k =>
      if (d =? 0)%Z then (0%Z, 0%Z)
      else if (d mod 10 =? 0)%Z then trim k (d / 10)%Z (e + 1)%Z
      else (d, e)
  end.

(** The value of the mantissa [m] at the binary exponent [e], as a
    fraction. *)
Definition fraction (m : positive) (e : Z) : Z * Z :=
  if (0 <=? e)%Z then ((Zpos m * 2 ^ e)%Z, 1%Z) else (Zpos m, (2 ^ (- e))%Z).

(** The number of decimal digits of a positive integer. *)
Fixpoint count_digits (fuel : nat) (n : Z) : Z :=
  match fuel with
  | O => 0%Z
  | S k => if (n <? 10)%Z then 1%Z else (1 + count_digits k (n / 10))%Z
  end.

(** The place of the first digit of a fraction below 1: the least [j]
    from [j] on with [num * 10 ^ j >= den]. *)
Fixpoint first_digit (fuel : nat) (j : Z) (num den : Z) : Z :=
  match fuel with
  | O => j
  | S k =>
      if (den <=? num * 10 ^ j)%Z then j
      else first_digit k (j + 1)%Z num den
  end.

(** [num / den] at 10 decimal places. *)
Definition fixed10 (num den : Z) : Z * Z :=
  trim 40 (round_half_even (num * 10 ^ 10) den) (-10)%Z.

(** [num / den] at 10 significant digits. *)
Definition significant10 (num den : Z) : Z * Z :=
  if (den <=? num)%Z then
    let k := (count_digits 400 (num / den) - 1)%Z in
    if (9 <=? k)%Z
    then trim 40 (round_half_even num (den * 10 ^ (k - 9))) (k - 9)%Z
    else trim 40 (round_half_even (num * 10 ^ (9 - k)) den) (k - 9)%Z
  else
    let j := first_digit 400 1%Z num den in
    trim 40 (round_half_even (num * 10 ^ (9 + j)) den) (- j - 9)%Z.

(** The bounds beyond which the encoder counts significant digits. *)
Definition thres_max : float := (1e16 - 1)%float.

#[warnings="-inexact-float"]
Definition thres_min : float := 1e-15%float.

(** A floating point value as written; [None] stands for [null]. *)
Definition written (f : float) : option decimal :=
  match Prim2SF f with
  | S754_nan => None
  | S754_infinity _ => None
  | S754_zero s => Some {| negative := s; digits := 0; exponent := 0 |}
  | S754_finite s m e =>
      let (num, den) := fraction m e in
      let a := PrimFloat.abs f in
      let (d, x) :=
        if (thres_max <? a)%float || (a <? thres_min)%float
        then significant10 num den
        else fixed10 num den in
      Some {| negative := s; digits := d; exponent := x |}
  end.

(** A cell as written. *)
Definition encode (c : cell) : value :=
  match c with
  | Null => JNull
  | Int z => JInt z
  | Float f =>
      match written f with
      | Some d => JNumber d
      | None => JNull
      end
  | Flag b => JBool b
  | Text s => JString s
  end.

(** The document of a table: one record per row. *)
Definition records_of (d : DataFrame) : document :=
  map (fun row => combine (columns d) (map encode row)) (rows d).

End Json.
Import Json.

Module JsonShape.

(** A cell whose value the document gives back as it is: an integer, a
    flag or a text. *)
Definition exact (c : cell) : bool :=
  match c with
  | Int _ | Flag _ | Text _ => true
  | _ => false
  end.

(** Two cells the document cannot tell apart: the same integer, flag or
    text, two floating point values written as the same number, or two
    cells written as [null]. *)
Definition alike (c c' : cell) : Prop :=
  match c, c' with
  | Int z, Int z' => z = z'
  | Flag b, Flag b' => b = b'
  | Text s, Text s' => s = s'
  | Float f, Float f' => written f = written f'
  | Null, Null => True
  | Null, Float f => written f = None
  | Float f, Null => written f = None
  | _, _ => False
  end.

(** The first rows of what a reader made of a file. *)
Definition first_rows (n : nat) (read_back : option DataFrame)
  : option (list (list cell)) :=
  option_map (fun t => firstn n (rows t)) read_back.

End JsonShape.
Import JsonShape.

Module JsonSamples.

(** Two tables of 101 rows that differ in the first cell only: one half,
    and one half plus 2 ^ -40, which is 0.5000000000009095 in decimal. *)
Definition settled : DataFrame :=
  {| columns := [lit "WorkAtHome"]; index := range_index 101;
     rows := [Float 0.5%float] :: repeat [Float 1%float] 100 |}.

Definition drifted : DataFrame :=
  {| columns := [lit "WorkAtHome"]; index := range_index 101;
     rows := [Float 0x1.0000000002p-1%float] :: repeat [Float 1%float] 100 |}.

(** A rendering of documents for the examples, compact and without
    escapes; the layout pandas prints is not modelled. *)
Definition show_Z (z : Z) : str :=
  lit (DecimalString.NilZero.string_of_int (Z.to_int z)).

Definition show_value (v : value) : str :=
  match v with
  | JNull => lit "null"
  | JBool true => lit "true"
  | JBool false => lit "false"
  | JInt z => show_Z z
  | JNumber d =>
      (if negative d then lit "-" else []) ++ show_Z (digits d) ++ lit "e"
        ++ show_Z (exponent d)
  | JString s => ascii_of_nat 34 :: s ++ [ascii_of_nat 34]
  end.

Definition show_record (r : record) : str :=
  lit "{"
    ++ join (lit ",")
         (map (fun kv : str * value =>
                 ascii_of_nat 34 :: fst kv ++ ascii_of_nat 34 :: lit ":"
                   ++ show_value (snd kv)) r)
    ++ lit "}".

Definition compact (doc : document) : str :=
  lit "[" ++ join (lit ",") (map show_record doc) ++ lit "]".

(** Collaborators that serialise with [compact]. *)
Definition writing : collaborators unit :=
  {| similarity_search := similarity_search steady;
     llm_invoke := llm_invoke steady;
     execute_query := execute_query steady;
     write_file := write_file steady;
     py_exec := py_exec steady;
     to_json := fun d => compact (records_of d) |}.

End JsonSamples.
Import JsonSamples.

(** ** More vocabulary and sample inputs *)

Module Behaviour.

(** [m] lets no exception of class [Exception] out. *)
Definition contained {X A} (m : io X A) : Prop :=
  forall st e st', m st = (Raise e, st') -> is_Exception e = false.

(** [m] always returns. *)
Definition succeeds {X A} (m : io X A) : Prop :=
  forall st, exists a st', m st = (Ok a, st').

(** A log line or an [exec], nothing else. *)
Definition log_or_exec (ev : event) : Prop :=
  match ev with
  | EvLog _ _ | EvExec _ _ => True
  | _ => False
  end.

(** The events that are calls of [exec]. *)
Definition is_exec (ev : event) : bool :=
  match ev with EvExec _ _ => true | _ => false end.

Definition not_backtick (c : ascii) : bool := negb (Ascii.eqb c "`").

(** The messages of the first call of the model. *)
Definition first_prompt (P : prompts) (user_input : str) (results : list str)
  : prompt :=
  Messages
    [SystemMessage (SYSTEM_PROMPT P ++ newline :: lit "Schema Context:"
                      ++ newline :: join [newline] results);
     HumanMessage user_input].

(** The messages of the fallback call. *)
Definition second_prompt (P : prompts) (user_input context : str)
  (hm : message) : prompt :=
  Messages [SystemMessage (SYSTEM_PROMPT_2 P user_input context); hm].

End Behaviour.
Import Behaviour.

Module MoreSamples.

Definition timeout_error : exn :=
  {| exn_class := Error "TimeoutError"; exn_str := lit "deadline exceeded" |}.

Definition disk_error : exn :=
  {| exn_class := Error "OSError"; exn_str := lit "No space left on device" |}.

(** Collaborators of which one is out of order: the warehouse, the vector
    store, the model or the disk. *)
Definition down_warehouse : collaborators unit :=
  {| similarity_search := similarity_search steady;
     llm_invoke := llm_invoke steady;
     execute_query := fun _ w => (Raise timeout_error, w);
     write_file := write_file steady;
     py_exec := py_exec steady;
     to_json := to_json steady |}.

Definition down_store : collaborators unit :=
  {| similarity_search := fun _ _ w => (Raise timeout_error, w);
     llm_invoke := llm_invoke steady;
     execute_query := execute_query steady;
     write_file := write_file steady;
     py_exec := py_exec steady;
     to_json := to_json steady |}.

Definition down_model : collaborators unit :=
  {| similarity_search := similarity_search steady;
     llm_invoke := fun _ w => (Raise timeout_error, w);
     execute_query := execute_query steady;
     write_file := write_file steady;
     py_exec := py_exec steady;
     to_json := to_json steady |}.

Definition full_disk : collaborators unit :=
  {| similarity_search := similarity_search steady;
     llm_invoke := llm_invoke steady;
     execute_query := execute_query steady;
     write_file := fun _ _ w => (Raise disk_error, w);
     py_exec := py_exec steady;
     to_json := to_json steady |}.

(** A summary with a code block that draws a chart, and the namespace the
    block leaves behind. *)
Definition summary_chart : str :=
  lit "Income by state." ++ newline :: lit "```python" ++ newline
    :: lit "chart = alt.Chart(data).mark_bar()" ++ newline :: lit "```".

Definition draws (ns : namespace) : result namespace :=
  Ok (("chart", PyObject "Chart" 1) :: ns)%string.

(** A model that refuses the translation and is out of order when asked
    again; the outside world counts the calls. *)
Definition refuses_then_fails : collaborators nat :=
  {| similarity_search := similarity_search two_step;
     llm_invoke := fun _ n =>
       (if n =? 0 then Ok refusal else Raise timeout_error, S n);
     execute_query := execute_query two_step;
     write_file := write_file two_step;
     py_exec := py_exec two_step;
     to_json := to_json two_step |}.

End MoreSamples.
Import MoreSamples.

(** ** The page of [src/streamlit_app.py] *)

Module App.

(** What the submit handler puts on the page. *)
#[warnings="-register-all"]
Inductive widget : Type :=
| StWrite (v : pyval)                            (* st.write *)
| StExpander (label : str) (body : list widget)  (* with st.expander, expanded *)
| StAltairChart (chart : pyval)                  (* st.altair_chart, middle column *)
| StError (msg : str).                           (* st.error *)

(** The outside world together with the page being drawn. *)
Record session (X : Type) := { outside : X; page : list widget }.

Arguments outside {X} s.
Arguments page {X} s.

(** The literal of the fallback test of the page.  It is triple-quoted and
    runs over two source lines, so it holds the line break and the 28
    blanks that indent its second line. *)
Definition sentinel_literal : str :=
  lit "I cannot generate a SQL query"
    ++ newline :: repeat " "%char 28
    ++ lit "for this request based on the provided schema.".

(** [data.empty]: one of the two axes has no label. *)
Definition empty (d : DataFrame) : bool :=
  (len d =? 0) || (length (columns d) =? 0).

(** [bool(v)], as taken by [if summary_text:]. *)
Definition truth (v : pyval) : result bool :=
  match v with
  | PyNone => Ok false
  | PyStr s => Ok (negb (length s =? 0))
  | PyBytes b => Ok (negb (length b =? 0))
  | PyInt z => Ok (negb (Z.eqb z 0))
  | PyFrame _ =>
      Raise {| exn_class := Error "ValueError";
               exn_str := lit "The truth value of a DataFrame is ambiguous. Use a.empty, a.bool(), a.item(), a.any() or a.all()." |}
  | PyModule _ => Ok true
  | PyObject _ _ => Ok true
  | PyTuple items => Ok (negb (length items =? 0))
  end.

Section WithCollaborators.

Variable X : Type.
Variable C : collaborators X.
Variable P : prompts.

(** A call of a collaborator made while the page is drawn: it acts on the
    outside world and leaves the page alone. *)
Definition on_page {A} (f : X -> result A * X)
  : session X -> result A * session X :=
  fun s =>
    match f (outside s) with
    | (r, w) => (r, {| outside := w; page := page s |})
    end.

Definition paged : collaborators (session X) :=
  {| similarity_search := fun q k => on_page (similarity_search C q k);
     llm_invoke := fun p => on_page (llm_invoke C p);
     execute_query := fun q => on_page (execute_query C q);
     write_file := fun f c => on_page (write_file C f c);
     py_exec := fun code ns => on_page (py_exec C code ns);
     to_json := to_json C |}.

(** A Streamlit call that adds one element at the end of the page. *)
Definition render (w : widget) : io (session X) unit :=
  fun st =>
    (Ok tt,
     {| world := {| outside := outside (world st);
                    page := page (world st) ++ [w] |};
        trace := trace st |}).

(** The body of [if st.button(Submit):] in [main]: what one click on the
    button does, with [llm], [vector_store] and [bq_manager] initialized.
    The container and the spinner only frame the output.  The sanitizer
    is given a [str] and so returns one; the warehouse is not reached with
    anything else. *)
Definition on_submit (user_query : str) : io (session X) unit :=
  if negb (length user_query =? 0) then
    try_except
      (initial_response <- generate_initial_response paged P user_query 5 ;;
       if contains sentinel_literal initial_response then
         fallback_response <-
           trigger_fallback_logic paged P user_query []
             (HumanMessage user_query) ;;
         render (StWrite (PyStr fallback_response))
       else
         refined_response <- refine_response (PyStr initial_response) ;;
         data <- match refined_response with
                 | PyStr reg => get_data paged reg
                 | _ =>
                     raise {| exn_class := Error "TypeError";
                              exn_str := lit "query is not a str" |}
                 end ;;
         match data with
         | PyFrame d =>
             if negb (empty d) then
               r <- summarize_and_unpack paged P d user_query ;;
               let (summary_text, chart) := r in
               shown <- lift (truth summary_text) ;;
               if (shown : bool) then
                 render (StWrite (PyStr (lit "Data Summary:"))) ;;
                 render (StExpander (lit "Click to view the Data Summary")
                           [StWrite summary_text]) ;;
                 match chart with
                 | PyNone => ret tt
                 | _ => render (StAltairChart chart)
                 end
               else
                 render (StWrite (PyStr (lit "No relevant data found.")))
             else ret tt
         | _ => ret tt
         end)
      except_Exception
      (fun e => render (StError (lit "An error occurred: " ++ exn_str e)))
  else render (StWrite (PyStr (lit "Please enter a query."))).

End WithCollaborators.
End App.
Import App.

Module PageShape.

(** The state after the elements [ws] have been added to the page. *)
Definition drawn {X} (st : state (session X)) (ws : list widget)
  : state (session X) :=
  {| world := {| outside := outside (world st);
                 page := page (world st) ++ ws |};
     trace := trace st |}.

(** A text without a line break. *)
Definition single_line (s : str) : bool :=
  forallb (fun c => negb (Ascii.eqb c newline)) s.

(** [data] is no table, or a table without a row or without a column. *)
Definition no_table (data : pyval) : bool :=
  match data with
  | PyFrame d => empty d
  | _ => true
  end.

(** The elements that show the summary [s] and the chart [chart]. *)
Definition summary_widgets (s : str) (chart : pyval) : list widget :=
  if length s =? 0
  then [StWrite (PyStr (lit "No relevant data found."))]
  else [StWrite (PyStr (lit "Data Summary:"));
        StExpander (lit "Click to view the Data Summary") [StWrite (PyStr s)]]
       ++ match chart with
          | PyNone => []
          | _ => [StAltairChart chart]
          end.

End PageShape.
Import PageShape.

Module PageSamples.

(** A session on the outside world [w] that has drawn nothing yet. *)
Definition blank {X} (w : X) : state (session X) :=
  {| world := {| outside := w; page := [] |}; trace := [] |}.

(** Collaborators whose model answers [answer] to the translation and
    [summary] to the summarization, whose warehouse returns [table] and
    whose [exec] ends the way [outcome] says. *)
Definition serving (table : pyval) (answer summary : str)
  (outcome : namespace -> result namespace) : collaborators unit :=
  {| similarity_search := similarity_search steady;
     llm_invoke := fun p w =>
       (Ok match p with
           | Messages _ => answer
           | PromptText _ => summary
           end, w);
     execute_query := fun _ w => (Ok table, w);
     write_file := write_file steady;
     py_exec := fun _ ns w => (outcome ns, w);
     to_json := to_json steady |}.

Definition count_query : str := lit "SELECT COUNT(*) FROM demographics".

(** A translator that refuses in the words the page looks for and, asked
    again, suggests a rewording. *)
Definition coach : collaborators nat :=
  {| similarity_search := similarity_search two_step;
     llm_invoke := fun _ n =>
       (Ok (if n =? 0 then sentinel_literal else suggestion), S n);
     execute_query := execute_query two_step;
     write_file := write_file two_step;
     py_exec := py_exec two_step;
     to_json := to_json two_step |}.

End PageSamples.
Import PageSamples.

(** ** The warehouse of [src/src/big_query_manager.py] *)

Module BigQuery.

(** [bigquery.WriteDisposition] *)
Inductive WriteDisposition := WRITE_APPEND | WRITE_TRUNCATE | WRITE_EMPTY.

(** The two attributes of [bigquery.QueryJobConfig] the manager sets; a
    fresh configuration has neither. *)
Record QueryJobConfig := {
  destination : option str;
  write_disposition : option WriteDisposition
}.

(** [bigquery.QueryJobConfig()] *)
Definition fresh_config : QueryJobConfig :=
  {| destination := None; write_disposition := None |}.

(** [str.lower] on the characters below 256: the letters A to Z and the
    capital letters of Latin-1, which leaves out the multiplication sign. *)
Definition lower_char (c : ascii) : ascii :=
  let n := nat_of_ascii c in
  if ((65 <=? n) && (n <=? 90))
     || ((192 <=? n) && (n <=? 222) && negb (n =? 215))
  then ascii_of_nat (n + 32)
  else c.

Definition lower (s : str) : str := map lower_char s.

(** [s.startswith(prefixes)] with a tuple of prefixes. *)
Definition startswith_any (prefixes : list str) (s : str) : bool :=
  existsb (fun p => startswith p s) prefixes.

(** [bigquery.Client]: starting a job, waiting for its rows, and turning
    the rows into a table.  Jobs and row iterators are handles. *)
Module Client.

Record t (X : Type) := {
  query : str -> QueryJobConfig -> X -> result nat * X;
  result : nat -> X -> Py.result nat * X;
  to_dataframe : nat -> X -> Py.result DataFrame * X
}.

End Client.

Record BigQueryManager (X : Type) := {
  client : Client.t X;
  project_id : str;
  dataset_id : str
}.

(** [query_job = self.client.query(query, job_config=job_config)] followed
    by [result = query_job.result()]. *)
Definition submit {X} (c : Client.t X) (query : str)
  (job_config : QueryJobConfig) : X -> result nat * X :=
  fun w =>
    match Client.query c query job_config w with
    | (Ok query_job, w1) => Client.result c query_job w1
    | (Raise e, w1) => (Raise e, w1)
    end.

(** [BigQueryManager.execute_query]; [destination_table] is [None] or a
    [str], and counts as given when it is a [str] that is not empty.  A
    call with a destination falls off the end and returns [None]. *)
Definition execute_query {X} (self : BigQueryManager X) (query : str)
  (destination_table : option str) : X -> result pyval * X :=
  fun w =>
    let job_config := fresh_config in
    let job_config :=
      match destination_table with
      | Some (c :: t) =>
          if negb (startswith_any [lit "create"; lit "alter"]
                     (lower (strip query)))
          then
            let table_ref :=
              project_id self ++ lit "." ++ dataset_id self ++ lit "."
                ++ c :: t in
            {| destination := Some table_ref;
               write_disposition := Some WRITE_TRUNCATE |}
          else job_config
      | _ => job_config
      end in
    match submit (client self) query job_config w with
    | (Ok result, w1) =>
        match destination_table with
        | Some (_ :: _) => (Ok PyNone, w1)
        | _ =>
            match Client.to_dataframe (client self) result w1 with
            | (Ok df, w2) => (Ok (PyFrame df), w2)
            | (Raise e, w2) => (Raise e, w2)
            end
        end
    | (Raise e, w1) => (Raise e, w1)
    end.

End BigQuery.

(** The collaborators [C] with the manager [self] as warehouse:
    [get_data] calls [bq_manager.execute_query(reg)], without a
    destination. *)
Definition with_manager {X} (C : collaborators X)
  (self : BigQuery.BigQueryManager X)
  : collaborators X :=
  {| similarity_search := similarity_search C;
     llm_invoke := llm_invoke C;
     execute_query := fun reg => BigQuery.execute_query self reg None;
     write_file := write_file C;
     py_exec := py_exec C;
     to_json := to_json C |}.


Module BigQueryShape.

(** What [get_data] makes of an exception [e] raised while the query [reg],
    sent from the state [st], was answered, the outside world being left
    as [w]: an [Exception] is logged and becomes [None], anything else
    reaches the caller. *)
Definition query_failed {X} (reg : str) (st : state X) (e : exn) (w : X)
  : result pyval * state X :=
  if is_Exception e
  then
    (Ok PyNone,
     {| world := w;
        trace := trace st ++
          [EvLog INFO (lit "Hitting BigQuery...");
           EvQuery reg;
           EvLog ERROR (lit "SQL Query Problem: " ++ exn_str e);
           EvLog CRITICAL (lit "TERMINATED")] |})
  else
    (Raise e,
     {| world := w;
        trace := trace st ++
          [EvLog INFO (lit "Hitting BigQuery..."); EvQuery reg] |}).

End BigQueryShape.
Import BigQueryShape.

Module BigQuerySamples.
Import BigQuery.

(** A client whose jobs succeed and give three rows. *)
Definition three_rows : Client.t unit :=
  {| Client.query := fun _ _ w => (Ok 1, w);
     Client.result := fun job w => (Ok job, w);
     Client.to_dataframe := fun _ w => (Ok (ones 3), w) |}.

Definition census : BigQueryManager unit :=
  {| client := three_rows;
     project_id := lit "llm-testing-447813";
     dataset_id := lit "us_census" |}.

End BigQuerySamples.

(** ** The matcher on sample texts

    Each expected value is what CPython's [re] returns for the same call. *)

Module MatcherExamples.

Local Open Scope string_scope.

(** The lines of a text, joined by newlines. *)
Definition text (lines : list string) : str := join [newline] (map lit lines).

Example refine_nested_fences :
  refine_str (text ["```sql```"; "```"]) = lit "`".
Proof. reflexivity. Qed.

Example refine_two_newlines :
  refine_str (text ["`x`"; EmptyString; EmptyString]) = lit "`x`".
Proof. reflexivity. Qed.

Example refine_tag_twice : refine_str (lit "sqlsql x") = lit "sql x".
Proof. reflexivity. Qed.

Example refine_empty_ticks : refine_str (lit "``") = [].
Proof. reflexivity. Qed.

Example refine_fenced_query :
  refine_str (text ["```sql"; "SELECT * FROM t"; "```"; EmptyString])
  = lit "SELECT * FROM t".
Proof. reflexivity. Qed.

Example refine_backticked_query :
  refine_str (lit "`SELECT DISTINCT State FROM demographics WHERE Unemployment > 10.0;`")
  = lit "SELECT DISTINCT State FROM demographics WHERE Unemployment > 10.0;".
Proof. reflexivity. Qed.

Example clean_file_references :
  clean_prose (text ["See chart.png and report.html; data in data.json.";
                     "Python Code:   "; "```python"; "x=1"; "```";
                     "Done ```inline``` end."])
  = text ["See  and ; data in ."; "Done  end."].
Proof. reflexivity. Qed.

Example clean_word_boundaries :
  clean_prose (text ["a.png.b my_file.json x.jsonl ```multi";
                     "line``` ```python a``` ```python b```"])
  = text [".b  x.jsonl ```multi"; "line```"].
Proof. reflexivity. Qed.

Example search_first_block :
  option_map (fun m => strip (group1 m))
    (search code_pattern
       (text ["a.png.b my_file.json x.jsonl ```multi";
              "line``` ```python a``` ```python b```"]))
  = Some (lit "a").
Proof. reflexivity. Qed.

Example search_no_block : search code_pattern (lit "no code here") = None.
Proof. reflexivity. Qed.

End MatcherExamples.

(** ** Facts about strings and the matcher *)

Module ReFacts.

Lemma startswith_app (p s : str) : startswith p (p ++ s) = true.
Proof.
  induction p as [|a p IH]; simpl; [reflexivity|].
  now rewrite Ascii.eqb_refl.
Qed.

Lemma startswith_refl (p : str) : startswith p p = true.
Proof.
  induction p as [|a p IH]; simpl; [reflexivity|].
  now rewrite Ascii.eqb_refl.
Qed.

Lemma startswith_inv (p s : str) :
  startswith p s = true -> exists t, s = p ++ t.
Proof.
  revert s; induction p as [|a p IH]; intros s H; simpl in *.
  - now exists s.
  - destruct s as [|b s]; [discriminate|].
    apply andb_true_iff in H as [Hab Hps].
    apply Ascii.eqb_eq in Hab; subst b.
    destruct (IH _ Hps) as [t ->]. now exists t.
Qed.

Lemma startswith_length (p s : str) :
  startswith p s = true -> length p <= length s.
Proof.
  intros H. destruct (startswith_inv _ _ H) as [t ->].
  rewrite length_app. lia.
Qed.

Lemma endswith_app (p s : str) : endswith p (s ++ p) = true.
Proof. unfold endswith. rewrite rev_app_distr. apply startswith_app. Qed.

Lemma endswith_inv (p s : str) :
  endswith p s = true -> exists t, s = t ++ p.
Proof.
  unfold endswith; intros H.
  destruct (startswith_inv _ _ H) as [t Ht].
  exists (rev t).
  rewrite <- (rev_involutive s), Ht, rev_app_distr.
  now rewrite rev_involutive.
Qed.

Lemma drop_while_app (p : ascii -> bool) (ws rest : str) :
  forallb p ws = true ->
  drop_while p (ws ++ rest) = drop_while p rest.
Proof.
  induction ws as [|c ws IH]; simpl; [reflexivity|].
  intros H. apply andb_true_iff in H as [-> H]. auto.
Qed.

Lemma drop_while_stop (p : ascii -> bool) (s : str) :
  match s with c :: _ => p c = false | [] => True end ->
  drop_while p s = s.
Proof. destruct s as [|c s]; simpl; [reflexivity|]. now intros ->. Qed.

Lemma chomp_snoc_newline (s : str) : chomp (s ++ [newline]) = s.
Proof.
  unfold chomp. rewrite rev_app_distr. simpl.
  apply rev_involutive.
Qed.

Lemma chomp_snoc_other (s : str) (c : ascii) :
  Ascii.eqb c newline = false -> chomp (s ++ [c]) = s ++ [c].
Proof.
  intros H. unfold chomp. rewrite rev_app_distr. simpl. now rewrite H.
Qed.

Lemma wrapped_intro (q g : str) : wrapped q (q ++ g ++ q) = true.
Proof.
  unfold wrapped. rewrite startswith_app.
  rewrite app_assoc, endswith_app. simpl.
  apply Nat.leb_le. rewrite !length_app. lia.
Qed.

(** *** Literal characters *)

Lemma match_chars (l : str) (r : regex) (prev : option ascii) (s : str)
  (g : caps) :
  match_at (map Chr l ++ r) prev s g =
  if startswith l s
  then match_at r (prev_after l prev) (skipn (length l) s) g
  else None.
Proof.
  revert prev s; induction l as [|c l IH]; intros prev s; simpl.
  - reflexivity.
  - destruct s as [|a s]; [reflexivity|].
    destruct (Ascii.eqb_spec a c) as [->|Hne].
    + rewrite Ascii.eqb_refl. simpl. apply IH.
    + rewrite (proj2 (Ascii.eqb_neq c a)); [reflexivity|congruence].
Qed.

(** *** Greedy repetition *)

Section Greedy.

Variable R : Type.
Variable p : ascii -> bool.
Variable k : option ascii -> str -> option R.

Lemma star_greedy_sound (prev : option ascii) (s : str) (x : R) :
  star_greedy p k prev s = Some x ->
  exists u v pv, s = u ++ v /\ k pv v = Some x.
Proof.
  revert prev; induction s as [|a s IH]; intros prev H; simpl in H.
  - exists [], [], prev. auto.
  - destruct (p a).
    + destruct (star_greedy p k (Some a) s) eqn:E.
      * injection H as <-.
        destruct (IH _ E) as (u & v & pv & -> & Hk).
        exists (a :: u), v, pv. auto.
      * exists [], (a :: s), prev. auto.
    + exists [], (a :: s), prev. auto.
Qed.

Hypothesis p_all : forall c, p c = true.

Lemma star_greedy_short (prev : option ascii) (t : str) :
  (forall u v pv, t = u ++ v -> u <> [] -> k pv v = None) ->
  star_greedy p k prev t = k prev t.
Proof.
  revert prev; induction t as [|a t IH]; intros prev H; simpl.
  - reflexivity.
  - rewrite p_all, IH.
    + now rewrite (H [a] t (Some a) eq_refl).
    + intros u v pv -> Hu. apply (H (a :: u) v pv); [reflexivity|discriminate].
Qed.

Lemma star_greedy_hit (pre t : str) (prev : option ascii) (x : R) :
  (forall u v pv, t = u ++ v -> u <> [] -> k pv v = None) ->
  k (prev_after pre prev) t = Some x ->
  star_greedy p k prev (pre ++ t) = Some x.
Proof.
  intros Hshort. revert prev; induction pre as [|a pre IH]; intros prev Hk.
  - simpl in *. now rewrite star_greedy_short.
  - simpl. rewrite p_all. now rewrite (IH (Some a) Hk).
Qed.

End Greedy.

(** A repetition with nothing after it in the pattern takes the whole run. *)
Lemma star_greedy_last (p : ascii -> bool) (g : caps) (prev : option ascii)
  (s : str) :
  star_greedy p (fun _ s => Some (s, g)) prev s = Some (drop_while p s, g).
Proof.
  revert prev; induction s as [|a s IH]; intros prev; simpl; [reflexivity|].
  destruct (p a); [|reflexivity]. now rewrite IH.
Qed.

(** *** Patterns anchored at the start *)

Lemma sub_from_anchored (r : regex) (t : repl) (s : str) :
  forall n a, sub_from (Bos :: r) t (Some a) s n = skipn n s.
Proof.
  induction s as [|c s IH]; intros [|n] a; simpl; try reflexivity.
  - now rewrite IH.
  - apply IH.
Qed.

Lemma sub_anchored_miss (r : regex) (t : repl) (s : str) :
  match_at r None s no_caps = None -> sub (Bos :: r) t s = s.
Proof.
  intros H. unfold sub. destruct s as [|a s]; simpl; rewrite H.
  - reflexivity.
  - now rewrite sub_from_anchored.
Qed.

Lemma sub_anchored_hit (r : regex) (t : repl) (pre rest : str) (g : caps) :
  pre <> [] ->
  match_at r None (pre ++ rest) no_caps = Some (rest, g) ->
  sub (Bos :: r) t (pre ++ rest) = expand t g ++ rest.
Proof.
  intros Hpre H. destruct pre as [|a pre]; [congruence|].
  unfold sub. cbn [sub_from app].
  change (match_at (Bos :: r) None (a :: pre ++ rest) no_caps)
    with (match_at r None ((a :: pre) ++ rest) no_caps).
  rewrite H. f_equal.
  replace (length (a :: pre ++ rest) - length rest) with (S (length pre))
    by (cbn [length]; rewrite length_app; lia).
  rewrite sub_from_anchored.
  now rewrite skipn_app, skipn_all, Nat.sub_diag.
Qed.

(** *** The three fence patterns *)

Lemma closing_eq (S body : str) (prev : option ascii) (t : str) :
  closing S body prev t =
  if startswith S t && at_eos (skipn (length S) t)
  then Some (skipn (length S) t, {| g_open := Some body; g_close := Some t |})
  else None.
Proof.
  unfold closing. cbn [match_at g_open g_close]. rewrite match_chars.
  destruct (startswith S t); [|reflexivity]. cbn [match_at andb].
  now destruct (at_eos _).
Qed.

Lemma match_wrap (P S s : str) :
  match_at (wrap P S) None s no_caps =
  if startswith P s
  then star_greedy (dot true) (closing S (skipn (length P) s))
         (prev_after P None) (skipn (length P) s)
  else None.
Proof.
  unfold wrap. cbn [match_at]. rewrite match_chars.
  destruct (startswith P s); reflexivity.
Qed.

Lemma at_eos_inv (e : str) : at_eos e = true -> e = [] \/ e = [newline].
Proof.
  destruct e as [|c [|d e]]; simpl; intros H; try discriminate; auto.
  apply Ascii.eqb_eq in H. subst. auto.
Qed.

Lemma wrap_match_inv (P S s : str) (x : str * caps) :
  match_at (wrap P S) None s no_caps = Some x ->
  exists g e, s = P ++ g ++ S ++ e /\ (e = [] \/ e = [newline]).
Proof.
  rewrite match_wrap. destruct (startswith P s) eqn:HP; [|discriminate].
  destruct (startswith_inv _ _ HP) as [body ->].
  rewrite skipn_app, skipn_all, Nat.sub_diag. cbn [skipn app].
  intros H. apply star_greedy_sound in H as (g & t & pv & -> & Hk).
  rewrite closing_eq in Hk.
  destruct (startswith S t) eqn:HS; [|discriminate].
  destruct (at_eos _) eqn:He; [|discriminate].
  destruct (startswith_inv _ _ HS) as [e ->].
  rewrite skipn_app, skipn_all, Nat.sub_diag in He. simpl in He.
  exists g, e. split; [reflexivity|]. now apply at_eos_inv.
Qed.

Lemma wrap_hit (P S g : str) :
  P <> [] -> sub (wrap P S) Group1 (P ++ g ++ S) = g.
Proof.
  intros HP.
  replace (P ++ g ++ S) with ((P ++ g ++ S) ++ []) by apply app_nil_r.
  unfold wrap at 1.
  rewrite sub_anchored_hit
    with (g := {| g_open := Some (g ++ S); g_close := Some S |}).
  - rewrite app_nil_r. cbn [expand group1 g_open g_close]. unfold between.
    rewrite length_app, Nat.add_sub.
    now rewrite firstn_app, firstn_all, Nat.sub_diag, app_nil_r.
  - destruct P; [congruence|discriminate].
  - rewrite app_nil_r.
    change (match_at (wrap P S) None (P ++ g ++ S) no_caps =
            Some ([], {| g_open := Some (g ++ S); g_close := Some S |})).
    rewrite match_wrap, startswith_app.
    rewrite skipn_app, skipn_all, Nat.sub_diag. cbn [skipn app].
    apply star_greedy_hit; [reflexivity| |].
    + intros u v pv -> Hu. rewrite closing_eq.
      destruct (startswith (u ++ v) v) eqn:E; [|reflexivity].
      apply startswith_length in E. rewrite length_app in E.
      destruct u; [congruence|simpl in E; lia].
    + rewrite closing_eq, startswith_refl.
      now rewrite skipn_all.
Qed.

End ReFacts.

(** ** The sanitizer on text *)

Module SanitizerFacts.
Import ReFacts.

Lemma sql_fence_wrap : sql_fence = wrap (lit "```sql") (lit "```").
Proof. reflexivity. Qed.

Lemma fence_wrap : fence = wrap (lit "```") (lit "```").
Proof. reflexivity. Qed.

Lemma tick_wrap : tick = wrap (lit "`") (lit "`").
Proof. reflexivity. Qed.

Lemma match_sql_tag (s : str) :
  match_at (chars "sql" ++ [Star re_space true]) None s no_caps =
  if startswith (lit "sql") s
  then Some (drop_while re_space (skipn 3 s), no_caps)
  else None.
Proof.
  unfold chars. rewrite match_chars.
  destruct (startswith (lit "sql") s); [|reflexivity].
  cbn [match_at]. apply star_greedy_last.
Qed.

Lemma sql_tag_miss (s : str) :
  startswith (lit "sql") s = false -> sub sql_tag Empty s = s.
Proof.
  intros H. unfold sql_tag. apply sub_anchored_miss.
  now rewrite match_sql_tag, H.
Qed.

Lemma drop_while_suffix (p : ascii -> bool) (s : str) :
  exists pre, s = pre ++ drop_while p s.
Proof.
  induction s as [|c s [pre IH]]; simpl.
  - now exists [].
  - destruct (p c).
    + exists (c :: pre). simpl. now f_equal.
    + now exists [].
Qed.

Lemma sql_tag_hit (s : str) :
  sub sql_tag Empty (lit "sql" ++ s) = drop_while re_space s.
Proof.
  destruct (drop_while_suffix re_space s) as [pre Hpre].
  unfold sql_tag.
  assert (E : lit "sql" ++ s = (lit "sql" ++ pre) ++ drop_while re_space s)
    by (rewrite <- app_assoc; now f_equal).
  rewrite E at 1.
  rewrite sub_anchored_hit with (g := no_caps).
  - reflexivity.
  - discriminate.
  - rewrite <- E, match_sql_tag. reflexivity.
Qed.

Lemma sub_wrap_miss (P S : str) (t : repl) (s : str) :
  match_at (wrap P S) None s no_caps = None -> sub (wrap P S) t s = s.
Proof. intros H. unfold wrap. now apply sub_anchored_miss. Qed.

(** A text that no backtick pair wraps, up to one final newline, passes
    each fence pattern unchanged. *)
Lemma sub_wrap_pass (P' S' s : str) :
  wrapped (lit "`") (chomp s) = false ->
  sub (wrap ("`"%char :: P') (S' ++ ["`"%char])) Group1 s = s.
Proof.
  intros H. apply sub_wrap_miss.
  destruct (match_at _ None s no_caps) as [x|] eqn:E; [|reflexivity].
  exfalso. apply wrap_match_inv in E as (g & e & -> & He).
  assert (Hc : chomp (("`"%char :: P') ++ g ++ (S' ++ ["`"%char]) ++ e)
               = lit "`" ++ (P' ++ g ++ S') ++ lit "`").
  { destruct He as [-> | ->].
    - rewrite app_nil_r.
      replace (("`"%char :: P') ++ g ++ S' ++ ["`"%char])
        with (("`"%char :: P' ++ g ++ S') ++ ["`"%char])
        by (simpl; now rewrite <- !app_assoc).
      rewrite chomp_snoc_other by reflexivity.
      simpl. now rewrite <- !app_assoc.
    - replace (("`"%char :: P') ++ g ++ (S' ++ ["`"%char]) ++ [newline])
        with (("`"%char :: P' ++ g ++ S' ++ ["`"%char]) ++ [newline])
        by (simpl; now rewrite <- !app_assoc).
      rewrite chomp_snoc_newline.
      simpl. now rewrite <- !app_assoc. }
  rewrite Hc, wrapped_intro in H. discriminate.
Qed.

Lemma fences_pass (s : str) :
  wrapped (lit "`") (chomp s) = false ->
  sub sql_fence Group1 s = s /\ sub fence Group1 s = s /\ sub tick Group1 s = s.
Proof.
  intros H. rewrite sql_fence_wrap, fence_wrap, tick_wrap.
  repeat split.
  - apply (sub_wrap_pass (lit "``sql") (lit "``") s H).
  - apply (sub_wrap_pass (lit "``") (lit "``") s H).
  - apply (sub_wrap_pass [] [] s H).
Qed.

(** On a [str] no substitution raises: the sanitizer returns the text the
    four substitutions and the final strip compute, and logs one line. *)
Lemma refine_response_str {X} (s : str) (st : state X) :
  refine_response (PyStr s) st =
  (Ok (PyStr (refine_str s)),
   logged st [EvLog INFO (lit "Refining Resonse...")]).
Proof. reflexivity. Qed.

Lemma refine_response_main_str {X} (s : str) (st : state X) :
  MainPy.refine_response (PyStr s) st = (Ok (PyStr (refine_str s)), st).
Proof. destruct st. reflexivity. Qed.

(** A text opening with the sql fence and closing with the plain one
    loses both; the two later substitutions then see the interior. *)
Lemma sql_fence_unwraps (g : str) :
  refine_str (lit "```sql" ++ g ++ lit "```") =
  strip (sub tick Group1 (sub fence Group1 g)).
Proof.
  unfold refine_str.
  rewrite sql_tag_miss by reflexivity.
  rewrite sql_fence_wrap, wrap_hit by discriminate.
  reflexivity.
Qed.

End SanitizerFacts.

(** ** What a computation adds to the trace *)

Module TraceFacts.
Section Emits.

Variable X : Type.
Variable Q : event -> Prop.

Lemma emits_ret {A} (a : A) : emits (X := X) Q (ret a).
Proof. intros st. exists []. simpl. now rewrite app_nil_r. Qed.

Lemma emits_lift {A} (r : result A) : emits (X := X) Q (lift r).
Proof. intros st. exists []. simpl. now rewrite app_nil_r. Qed.

Lemma emits_emit (ev : event) : Q ev -> emits (X := X) Q (emit ev).
Proof. intros H st. exists [ev]. simpl. auto. Qed.

Lemma emits_call {A} (ev : event) (f : X -> result A * X) :
  Q ev -> emits (X := X) Q (call ev f).
Proof.
  intros H st. exists [ev]. unfold call.
  destruct (f (world st)). simpl. auto.
Qed.

Lemma emits_bind {A B} (m : io X A) (f : A -> io X B) :
  emits (X := X) Q m -> (forall a, emits (X := X) Q (f a)) -> emits (X := X) Q (bind m f).
Proof.
  intros Hm Hf st. unfold bind.
  destruct (Hm st) as (evs & E & HQ).
  destruct (m st) as [[a|e] st1]; simpl in E.
  - destruct (Hf a st1) as (evs' & E' & HQ').
    exists (evs ++ evs'). rewrite E', E, app_assoc.
    split; [reflexivity|]. now apply Forall_app.
  - exists evs. simpl. auto.
Qed.

Lemma emits_try {A} (body : io X A) (catches : exn -> bool)
  (handler : exn -> io X A) :
  emits (X := X) Q body -> (forall e, emits (X := X) Q (handler e)) ->
  emits (X := X) Q (try_except body catches handler).
Proof.
  intros Hm Hh st. unfold try_except.
  destruct (Hm st) as (evs & E & HQ).
  destruct (body st) as [[a|e] st1]; simpl in E.
  - exists evs. simpl. auto.
  - destruct (catches e).
    + destruct (Hh e st1) as (evs' & E' & HQ').
      exists (evs ++ evs'). rewrite E', E, app_assoc.
      split; [reflexivity|]. now apply Forall_app.
    + exists evs. simpl. auto.
Qed.

End Emits.

(** A value returned through [bind] was returned by both halves. *)
Lemma bind_ok_inv {X A B} (m : io X A) (f : A -> io X B) (st st' : state X)
  (b : B) :
  bind m f st = (Ok b, st') ->
  exists a st1, m st = (Ok a, st1) /\ f a st1 = (Ok b, st').
Proof.
  unfold bind. destruct (m st) as [[a|e] st1]; intros H.
  - now exists a, st1.
  - discriminate.
Qed.

End TraceFacts.
Import TraceFacts.

Ltac emits_steps :=
  repeat first
    [ apply emits_ret | apply emits_lift
    | apply emits_emit | apply emits_call
    | apply emits_bind; [|intros ?]
    | apply emits_try; [|intros ?] ].

(** ** Stepping through a computation *)

Module Step.
Section Laws.

Variable X : Type.

Lemma bind_emit {A} (ev : event) (k : unit -> io X A) (st : state X) :
  bind (emit ev) k st = k tt (logged st [ev]).
Proof. reflexivity. Qed.

Lemma bind_ret {A B} (a : A) (k : A -> io X B) (st : state X) :
  bind (ret a) k st = k a st.
Proof. reflexivity. Qed.

Lemma bind_bind {A B D} (m : io X A) (f : A -> io X B) (g : B -> io X D)
  (st : state X) :
  bind (bind m f) g st = bind m (fun a => bind (f a) g) st.
Proof. unfold bind. now destruct (m st) as [[a|e] st1]. Qed.

Lemma bind_call {A B} (ev : event) (f : X -> result A * X)
  (k : A -> io X B) (st : state X) :
  bind (call ev f) k st =
  match f (world st) with
  | (Ok a, w) => k a {| world := w; trace := trace st ++ [ev] |}
  | (Raise e, w) => (Raise e, {| world := w; trace := trace st ++ [ev] |})
  end.
Proof. unfold bind, call. now destruct (f (world st)) as [[a|e] w]. Qed.

Lemma try_emit {A} (ev : event) (k : unit -> io X A) (c : exn -> bool)
  (h : exn -> io X A) (st : state X) :
  try_except (bind (emit ev) k) c h st = try_except (k tt) c h (logged st [ev]).
Proof. reflexivity. Qed.

Lemma try_bind_ok {A B} (m : io X A) (k : A -> io X B) (c : exn -> bool)
  (h : exn -> io X B) (st st1 : state X) (a : A) :
  m st = (Ok a, st1) ->
  try_except (bind m k) c h st = try_except (k a) c h st1.
Proof. intros H. unfold try_except, bind. now rewrite H. Qed.

Lemma try_call {A B} (ev : event) (f : X -> result A * X) (k : A -> io X B)
  (c : exn -> bool) (h : exn -> io X B) (st : state X) :
  try_except (bind (call ev f) k) c h st =
  match f (world st) with
  | (Ok a, w) =>
      try_except (k a) c h {| world := w; trace := trace st ++ [ev] |}
  | (Raise e, w) =>
      if c e then h e {| world := w; trace := trace st ++ [ev] |}
      else (Raise e, {| world := w; trace := trace st ++ [ev] |})
  end.
Proof. unfold try_except, bind, call. now destruct (f (world st)) as [[a|e] w]. Qed.

Lemma logged_logged (st : state X) (evs evs' : list event) :
  logged (logged st evs) evs' = logged st (evs ++ evs').
Proof. unfold logged. simpl. now rewrite app_assoc. Qed.

End Laws.
End Step.
Import Step.

Ltac io_unfold :=
  unfold logger_info, logger_error, logger_critical, except_Exception,
    logged in *;
  unfold bind, try_except, call, emit, ret, lift, raise in *.

Ltac io_simpl := io_unfold; cbn [world trace fst snd] in *.

Ltac io_step :=
  repeat (rewrite ?bind_bind, ?bind_emit, ?bind_ret, ?logged_logged;
          cbv beta zeta).


(** ** The dataset router *)

Module RouterFacts.
Section WithCollaborators.

Variable X : Type.
Variable C : collaborators X.
Variable P : prompts.

Lemma process_llm_response_emits (Q : event -> Prop) (text : str)
  (data : pyval) :
  (forall l msg, Q (EvLog l msg)) -> (forall c ns, Q (EvExec c ns)) ->
  emits Q (process_llm_response C text data).
Proof.
  intros Hlog Hexec. unfold process_llm_response.
  apply emits_bind; [apply emits_emit, Hlog|intros _].
  destruct (search code_pattern text) as [m|]; [|apply emits_ret].
  apply emits_try.
  - apply emits_bind; [apply emits_emit, Hlog|intros _].
    apply emits_bind; [apply emits_call, Hexec|intros ns].
    apply emits_bind; [|intros ?; apply emits_ret].
    destruct (ns_lookup "chart" ns); [|apply emits_ret].
    unfold logger_info, logger_critical. emits_steps; apply Hlog.
  - intros e. unfold logger_error, logger_critical. emits_steps; apply Hlog.
Qed.

End WithCollaborators.
End RouterFacts.
Import RouterFacts.

Ltac emits_auto :=
  unfold preprocess_data, get_head, save_json, logger_info, logger_error,
    logger_critical;
  repeat first
    [ apply emits_ret | apply emits_lift
    | apply emits_emit | apply emits_call
    | apply process_llm_response_emits
    | apply emits_bind; [|first [intros [? ?] | intros ?]]
    | apply emits_try; [|intros ?] ];
  try exact I; try (intros; exact I).

(** The events a computation adds, given what all of them satisfy. *)
Ltac take_rest Q :=
  match goal with
  | |- context [trace (snd (?m ?st))] =>
      let H := fresh "H" in
      assert (H : emits Q m) by emits_auto;
      let evs := fresh "evs" in
      let E := fresh "E" in
      let HQ := fresh "HQ" in
      destruct (H st) as (evs & E & HQ); clear H
  end.


Module RouterEvents.
Section WithCollaborators.

Variable X : Type.
Variable C : collaborators X.
Variable P : prompts.

Lemma data_handle_short_events (data : DataFrame) (u f : str) (r : nat) (w : X) :
  len data <= 100 ->
  exists evs,
    events_of (data_handle C P data u f r) w =
    [EvLog INFO (lit "Function Called for short dataset");
     EvLog INFO (lit "Fucntion short_data.")] ++ evs
    /\ Forall no_write evs.
Proof.
  intros Hlen. unfold events_of, data_handle.
  replace (100 <? len data) with false by (symmetry; apply Nat.ltb_ge; lia).
  replace (len data <=? 100) with true by (symmetry; apply Nat.leb_le; lia).
  unfold short_data, logger_info. io_step.
  take_rest no_write. exists evs. rewrite E. split; [reflexivity|assumption].
Qed.

Lemma data_handle_large_events (data : DataFrame) (u f : str) (r : nat) (w : X) :
  100 < len data ->
  exists evs,
    events_of (data_handle C P data u f r) w =
    [EvLog INFO (lit "Function called for large dataset");
     EvLog INFO (lit "Function large_data");
     EvLog INFO (lit "Preporcessing Data...");
     EvLog INFO (lit "Saving to Json...");
     EvWrite (lit "data.json") (to_json C (cleaned data))] ++ evs.
Proof.
  intros Hlen. unfold events_of, data_handle.
  replace (100 <? len data) with true by (symmetry; apply Nat.ltb_lt; lia).
  unfold large_data, save_json, preprocess_data, logger_info. io_step.
  rewrite bind_call.
  destruct (write_file C _ _ _) as [[[]|e] w'].
  - take_rest (fun _ : event => True). exists evs. rewrite E. reflexivity.
  - exists []. reflexivity.
Qed.

(** What [data_handle] returns, when it returns, on either path. *)
Lemma data_handle_returns (data : DataFrame) (u f : str) (r : nat)
  (st st' : state X) (v : pyval) :
  data_handle C P data u f r st = (Ok v, st') ->
  if len data <=? 100
  then exists t c, v = PyTuple [PyInt (Z.of_nat (len data)); PyStr t; c]
  else exists t c, v = PyTuple [PyStr t; c].
Proof.
  unfold data_handle. rewrite Nat.ltb_antisym.
  destruct (len data <=? 100); cbn [negb]; intros H.
  - apply bind_ok_inv in H as (_ & st1 & _ & H).
    apply bind_ok_inv in H as ([response data_json] & st2 & _ & H).
    apply bind_ok_inv in H as ([t c] & st3 & _ & H).
    injection H as <- _. now exists t, c.
  - apply bind_ok_inv in H as (_ & st1 & _ & H).
    apply bind_ok_inv in H as ([response d] & st2 & _ & H).
    apply bind_ok_inv in H as ([t c] & st3 & _ & H).
    injection H as <- _. now exists t, c.
Qed.

End WithCollaborators.
End RouterEvents.


(** ** The cleaning step *)

Module CleaningFacts.

Lemma fill_zero (c : cell) :
  zero_or_missing c = true -> ne_zero (fill_cell c) = false.
Proof.
  unfold zero_or_missing.
  destruct c as [|z|f|b|s]; simpl; try reflexivity.
  - now intros H%negb_true_iff.
  - destruct (PrimFloat.is_nan f); simpl.
    + reflexivity.
    + now intros H%negb_true_iff.
  - now intros H%negb_true_iff.
  - discriminate.
Qed.

Lemma fill_zero_row (row : list cell) :
  forallb zero_or_missing row = true ->
  any_ne_zero (map fill_cell row) = false.
Proof.
  unfold any_ne_zero. induction row as [|c row IH]; simpl; [reflexivity|].
  intros H. apply andb_true_iff in H as [Hc Hrow].
  now rewrite (fill_zero _ Hc), IH.
Qed.

Lemma filter_drops {A} (f : A -> bool) (x : A) (l : list A) :
  In x l -> f x = false -> length (filter f l) < length l.
Proof.
  induction l as [|a l IH]; simpl; [tauto|].
  intros [->|Hin] Hx.
  - rewrite Hx. pose proof (filter_length_le f l). lia.
  - specialize (IH Hin Hx). destruct (f a); simpl; lia.
Qed.

End CleaningFacts.


(** ** The fallback trigger ([get_response]) *)

Module FallbackFacts.
Section WithCollaborators.

Variable X : Type.
Variable C : collaborators X.
Variable P : prompts.

Lemma try_transparent {A} (m : io X A) (c : exn -> bool) (h : exn -> io X A)
  (st : state X) :
  (forall e st', m st = (Raise e, st') -> c e = false) ->
  try_except m c h st = m st.
Proof.
  intros H. unfold try_except.
  destruct (m st) as [[a|e] st'] eqn:E; [reflexivity|].
  now rewrite (H e st' eq_refl).
Qed.

(** The fallback handles its own failures: only an exception that is not
    an [Exception] leaves it. *)
Lemma trigger_fallback_logic_raises (u context : str) (hm : message)
  (st st' : state X) (e : exn) :
  trigger_fallback_logic C P u context hm st = (Raise e, st') ->
  except_Exception e = false.
Proof.
  unfold trigger_fallback_logic, logger_info. rewrite try_emit, try_call.
  destruct (llm_invoke C _ _) as [[a|e'] w'].
  - discriminate.
  - unfold except_Exception at 1. destruct (is_Exception e') eqn:E.
    + discriminate.
    + intros H. injection H as <- _. exact E.
Qed.

Lemma generate_initial_response_emits (u : str) (k : nat) :
  emits talk_only (generate_initial_response C P u k).
Proof.
  unfold generate_initial_response, logger_info, logger_error.
  emits_steps; exact I.
Qed.

Lemma trigger_fallback_logic_emits (u context : str) (hm : message) :
  emits talk_only (trigger_fallback_logic C P u context hm).
Proof.
  unfold trigger_fallback_logic, logger_info, logger_error, logger_critical.
  emits_steps; exact I.
Qed.

Lemma get_response_emits (u : str) (k : nat) :
  emits talk_only (get_response C P u k).
Proof.
  unfold get_response.
  apply emits_try.
  - apply emits_bind; [apply emits_emit; exact I|intros _].
    apply emits_bind; [apply generate_initial_response_emits|intros response].
    destruct (contains sentinel response).
    + apply emits_bind; [apply emits_emit; exact I|intros _].
      apply emits_bind; [apply emits_call; exact I|intros results].
      apply trigger_fallback_logic_emits.
    + unfold logger_critical. emits_steps; exact I.
  - intros e. unfold logger_error, logger_critical. emits_steps; exact I.
Qed.

End WithCollaborators.
End FallbackFacts.


(** ** Finding the code block *)

Module ExecutorFacts.
Import ReFacts.

Lemma star_lazy_complete {R} (p : ascii -> bool)
  (k : option ascii -> str -> option R) (u t : str) :
  (forall c, p c = true) ->
  (forall pv, exists x, k pv t = Some x) ->
  forall prev, exists x, star_lazy p k prev (u ++ t) = Some x.
Proof.
  intros Hp Hk. induction u as [|a u IH]; intros prev.
  - destruct (Hk prev) as [x Hx]. exists x.
    destruct t; simpl; now rewrite Hx.
  - cbn [app star_lazy].
    destruct (k prev (a :: u ++ t)) as [x|]; [now exists x|].
    rewrite Hp. apply IH.
Qed.

Lemma search_from_complete (r : regex) (pre t : str) :
  (forall pv, exists x, match_at r pv t no_caps = Some x) ->
  forall prev, exists m, search_from r prev (pre ++ t) = Some m.
Proof.
  intros H. induction pre as [|a pre IH]; intros prev.
  - destruct (H prev) as [[rest g] Hx]. exists g.
    destruct t; simpl; now rewrite Hx.
  - cbn [app search_from].
    destruct (match_at r prev (a :: pre ++ t) no_caps) as [[rest g]|].
    + now exists g.
    + apply IH.
Qed.

(** A text that contains a fenced python block has a first one. *)
Lemma search_finds_block (pre code post : str) :
  exists m,
    search code_pattern (pre ++ lit "```python" ++ code ++ lit "```" ++ post)
    = Some m.
Proof.
  apply search_from_complete. intros pv.
  unfold code_pattern, chars. rewrite match_chars, startswith_app.
  rewrite skipn_app, skipn_all, Nat.sub_diag. cbn [skipn app match_at].
  apply star_lazy_complete; [reflexivity|].
  intros pv'. rewrite <- (app_nil_r (map Chr (lit "```"))).
  rewrite match_chars, startswith_app. cbn [match_at]. eauto.
Qed.

End ExecutorFacts.

(** ** The claims about the sanitizer *)

Module SanitizerClaims.
Import ReFacts SanitizerFacts.

(** C5, where the claim holds.  On every [str] the sanitizer raises
    nothing: it returns the text the four substitutions and the final strip
    compute, logging one line and no failure, and the copy in [src/main.py]
    returns the same text.  On [bytes] every substitution raises; the
    failure is caught and logged and the trimmed original is returned. *)
Theorem refine_response_returns_on_text (X : Type) (st : state X) :
  (forall s : str,
     refine_response (PyStr s) st =
     (Ok (PyStr (refine_str s)),
      logged st [EvLog INFO (lit "Refining Resonse...")]))
  /\ (forall s : str,
        MainPy.refine_response (PyStr s) st = (Ok (PyStr (refine_str s)), st))
  /\ (forall b : str,
        refine_response (PyBytes b) st =
        (Ok (PyBytes (rev (bytes_lstrip (rev (bytes_lstrip b))))),
         logged st [EvLog INFO (lit "Refining Resonse...");
                    EvLog ERROR (lit "Error in refine_response.")])).
Proof.
  split; [|split]; intros v.
  - apply refine_response_str.
  - apply refine_response_main_str.
  - unfold refine_response, logged. cbn. now rewrite <- app_assoc.
Qed.


(** C6, as amended.  The tag is matched in lower case only.  A text that
    opens with [sql] and a run of whitespace loses both, and the rest goes
    on to the fence substitutions and the strip; a text that does not open
    with the lower-case tag passes the substitution unchanged. *)
Theorem sql_tag_lowercase_removed (X : Type) (st : state X) :
  (forall ws rest : str,
     forallb re_space ws = true ->
     no_leading_space rest = true ->
     sub sql_tag Empty (lit "sql" ++ ws ++ rest) = rest
     /\ refine_response (PyStr (lit "sql" ++ ws ++ rest)) st =
        (Ok (PyStr (strip (sub tick Group1 (sub fence Group1
                     (sub sql_fence Group1 rest))))),
         logged st [EvLog INFO (lit "Refining Resonse...")]))
  /\ (forall s : str,
        startswith (lit "sql") s = false -> sub sql_tag Empty s = s).
Proof.
  split.
  - intros ws rest Hws Hrest.
    assert (E : sub sql_tag Empty (lit "sql" ++ ws ++ rest) = rest).
    { rewrite sql_tag_hit, drop_while_app by assumption.
      apply drop_while_stop. destruct rest as [|c rest]; [exact I|].
      now apply negb_true_iff. }
    split; [exact E|].
    rewrite refine_response_str. unfold refine_str. now rewrite E.
  - apply sql_tag_miss.
Qed.

Lemma sql_tag_lowercase_removed_witness :
  forallb re_space (lit "  ") = true
  /\ no_leading_space (lit "SELECT 1") = true
  /\ sub sql_tag Empty (lit "sql" ++ lit "  " ++ lit "SELECT 1") = lit "SELECT 1"
  /\ fst (refine_response (PyStr (lit "sql" ++ lit "  " ++ lit "SELECT 1")) quiet)
     = Ok (PyStr (lit "SELECT 1")).
Proof.
  split; [reflexivity|]. split; [reflexivity|].
  destruct (proj1 (sql_tag_lowercase_removed quiet) (lit "  ") (lit "SELECT 1")
              eq_refl eq_refl) as [Hsub Hrun].
  split; [exact Hsub|]. rewrite Hrun. reflexivity.
Defined.

(** C6, the input on which the claim fails: the tag in upper case, followed
    by a space, stays where it is. *)
Lemma sql_tag_uppercase_kept :
  is_sql_tag (lit "SQL") = true
  /\ forallb re_space (lit " ") = true
  /\ sub sql_tag Empty (lit "SQL" ++ lit " " ++ lit "SELECT 1")
     = lit "SQL SELECT 1"
  /\ fst (refine_response (PyStr (lit "SQL" ++ lit " " ++ lit "SELECT 1")) quiet)
     = Ok (PyStr (lit "SQL SELECT 1")).
Proof. repeat split. Qed.

(** C7, as amended.  A text that opens with the sql fence and closes with
    the plain fence comes out as its interior, trimmed, when no backtick
    pair wraps the interior itself (up to one final newline). *)
Theorem sql_fence_interior_trimmed (X : Type) (st : state X) (g : str) :
  wrapped (lit "`") (chomp g) = false ->
  refine_response (PyStr (lit "```sql" ++ g ++ lit "```")) st =
  (Ok (PyStr (strip g)), logged st [EvLog INFO (lit "Refining Resonse...")]).
Proof.
  intros H. rewrite refine_response_str, sql_fence_unwraps.
  destruct (fences_pass g H) as (_ & -> & ->). reflexivity.
Qed.

Lemma sql_fence_interior_trimmed_witness :
  wrapped (lit "`") (chomp select_all) = false
  /\ strip select_all = lit "SELECT * FROM t"
  /\ refine_response (PyStr (lit "```sql" ++ select_all ++ lit "```")) quiet =
     (Ok (PyStr (strip select_all)),
      logged quiet [EvLog INFO (lit "Refining Resonse...")]).
Proof.
  split; [reflexivity|]. split; [reflexivity|].
  apply (sql_fence_interior_trimmed quiet select_all).
  reflexivity.
Defined.

(** C7, the input on which the claim fails: the interior is itself wrapped
    in single backticks, and the last substitution takes them off. *)
Lemma sql_fence_interior_backticks :
  startswith (lit "```sql") (lit "```sql" ++ lit "`x`" ++ lit "```") = true
  /\ endswith (lit "```") (lit "```sql" ++ lit "`x`" ++ lit "```") = true
  /\ strip (lit "`x`") = lit "`x`"
  /\ fst (refine_response (PyStr (lit "```sql" ++ lit "`x`" ++ lit "```")) quiet)
     = Ok (PyStr (lit "x")).
Proof. repeat split. Qed.

(** C8, as amended.  A text with no decoration comes out trimmed and
    otherwise unchanged, where a fence that closes just before one final
    newline counts as wrapping the text. *)
Theorem undecorated_text_trimmed (X : Type) (st : state X) (s : str) :
  undecorated s = true ->
  undecorated (chomp s) = true ->
  refine_response (PyStr s) st =
  (Ok (PyStr (strip s)), logged st [EvLog INFO (lit "Refining Resonse...")]).
Proof.
  unfold undecorated. intros Hs Hc.
  apply andb_true_iff in Hs as [Hs _]. apply andb_true_iff in Hs as [Htag _].
  apply andb_true_iff in Hc as [_ Hc].
  apply negb_true_iff in Htag, Hc.
  rewrite refine_response_str. unfold refine_str.
  rewrite sql_tag_miss by assumption.
  destruct (fences_pass s Hc) as (-> & -> & ->). reflexivity.
Qed.

Lemma undecorated_text_trimmed_witness :
  undecorated padded_query = true
  /\ undecorated (chomp padded_query) = true
  /\ strip padded_query = lit "SELECT `State` FROM demographics"
  /\ refine_response (PyStr padded_query) quiet =
     (Ok (PyStr (strip padded_query)),
      logged quiet [EvLog INFO (lit "Refining Resonse...")]).
Proof.
  split; [reflexivity|]. split; [reflexivity|]. split; [reflexivity|].
  apply (undecorated_text_trimmed quiet padded_query).
  - reflexivity.
  - reflexivity.
Defined.

(** C8, the input on which the claim fails: the text neither opens with
    the tag nor ends with a backtick, yet the dollar of the last pattern
    matches before the final newline and the backticks are taken off. *)
Lemma undecorated_newline_unwrapped :
  undecorated (lit "`x`" ++ [newline]) = true
  /\ strip (lit "`x`" ++ [newline]) = lit "`x`"
  /\ fst (refine_response (PyStr (lit "`x`" ++ [newline])) quiet)
     = Ok (PyStr (lit "x")).
Proof. repeat split. Qed.

End SanitizerClaims.

(** ** The code executor ([process_llm_response]) *)

Module ExecutorClaims.
Import ExecutorFacts.

(** C3, as amended.  A summary that contains a fenced python block has a
    first such block, and that is the code the executor runs.  When it
    raises an exception of class [Exception], the executor catches it: the
    call returns the cleaned prose with the error line appended and no
    chart, and records the failure in the log. *)
Theorem process_llm_response_catches (X : Type) (C : collaborators X)
  (response_text : str) (data : pyval) (st : state X)
  (pre code post : str) :
  response_text = pre ++ lit "```python" ++ code ++ lit "```" ++ post ->
  exists m,
    search code_pattern response_text = Some m
    /\ forall (e : exn) (w : X),
         py_exec C (strip (group1 m)) (local_vars0 data) (world st)
         = (Raise e, w) ->
         is_Exception e = true ->
         process_llm_response C response_text data st =
         (Ok (clean_prose response_text ++ newline
                :: lit "Error generating visualization: " ++ exn_str e,
              PyNone),
          {| world := w;
             trace := trace st ++
               [EvLog INFO (lit "Function process_llm_response");
                EvLog INFO (lit "Python Code found in the response.");
                EvExec (strip (group1 m)) (local_vars0 data);
                EvLog ERROR (lit "Failed to Generate Chart.");
                EvLog CRITICAL (lit "TERMINATED")] |}).
Proof.
  intros ->. destruct (search_finds_block pre code post) as [m Hm].
  exists m. split; [exact Hm|]. intros e w Hexec He.
  unfold process_llm_response. rewrite Hm. io_simpl.
  fold (local_vars0 data). rewrite Hexec, He. cbn [world trace].
  unfold error_note. now rewrite <- !app_assoc.
Qed.

Lemma process_llm_response_catches_witness :
  process_llm_response (scripted [] (fun _ => Raise name_error))
    summary_undefined PyNone quiet =
  (Ok (lit "Top states by population." ++ newline
         :: lit "Error generating visualization: name 'df' is not defined",
       PyNone),
   {| world := tt;
      trace :=
        [EvLog INFO (lit "Function process_llm_response");
         EvLog INFO (lit "Python Code found in the response.");
         EvExec (lit "chart = alt.Chart(df)") (local_vars0 PyNone);
         EvLog ERROR (lit "Failed to Generate Chart.");
         EvLog CRITICAL (lit "TERMINATED")] |}).
Proof.
  destruct (process_llm_response_catches
              (scripted [] (fun _ => Raise name_error))
              PyNone quiet
              (lit "Top states by population." ++ [newline])
              (newline :: lit "chart = alt.Chart(df)" ++ [newline]) []
              (response_text := summary_undefined) eq_refl)
    as (m & Hm & H).
  injection Hm as <-.
  exact (H name_error tt eq_refl eq_refl).
Defined.

(** C3, the input on which the claim fails: the code block ends the
    interpreter.  [SystemExit] is not an [Exception], the handler does not
    take it, and it reaches the caller. *)
Lemma process_llm_response_system_exit_escapes :
  process_llm_response (scripted [] (fun _ => Raise system_exit))
    summary_exit PyNone quiet =
  (Raise system_exit,
   {| world := tt;
      trace :=
        [EvLog INFO (lit "Function process_llm_response");
         EvLog INFO (lit "Python Code found in the response.");
         EvExec (lit "raise SystemExit(1)") (local_vars0 PyNone)] |}).
Proof. reflexivity. Qed.

End ExecutorClaims.

(** ** The claims about the router and the cleaning step *)

Module RouterClaims.
Import RouterEvents CleaningFacts.



(** C4.  The two paths return tuples of different lengths: the short path
    the three items the docstring names, the large path only the text and
    the chart.  Unpacking into two names, as [streamlit_app.py] does,
    therefore raises on the short path and succeeds on the large one. *)
Theorem data_handle_return_shapes (X : Type) (C : collaborators X)
  (P : prompts) (data : DataFrame) (user_input filename : str) (rows : nat)
  (st st' : state X) (v : pyval) :
  data_handle C P data user_input filename rows st = (Ok v, st') ->
  if len data <=? 100
  then (exists t c, v = PyTuple [PyInt (Z.of_nat (len data)); PyStr t; c])
       /\ unpack2 v =
          Raise {| exn_class := Error "ValueError";
                   exn_str := lit "too many values to unpack (expected 2)" |}
  else exists t c, v = PyTuple [PyStr t; c] /\ unpack2 v = Ok (PyStr t, c).
Proof.
  intros H. apply data_handle_returns in H.
  destruct (len data <=? 100).
  - destruct H as (t & c & ->). split; [now exists t, c|reflexivity].
  - destruct H as (t & c & ->). now exists t, c.
Qed.

(** A table of 101 rows: the caller gets two items, not three. *)
Lemma data_handle_return_shapes_witness :
  len (ones 101) = 101
  /\ fst (data_handle steady plain_prompts (ones 101) (lit "Largest share?")
            (lit "data.json") 10 quiet)
     = Ok (PyTuple [PyStr prose; PyNone])
  /\ unpack2 (PyTuple [PyStr prose; PyNone]) = Ok (PyStr prose, PyNone).
Proof.
  split; [reflexivity|]. split; [reflexivity|].
  destruct (data_handle_return_shapes steady plain_prompts (ones 101)
              (lit "Largest share?") (lit "data.json") 10 quiet
              (st' := snd (data_handle steady plain_prompts (ones 101)
                             (lit "Largest share?") (lit "data.json") 10 quiet))
              (v := PyTuple [PyStr prose; PyNone]) eq_refl)
    as (t & c & Hv & Hu).
  injection Hv as <- <-. exact Hu.
Defined.

(** The caller of [streamlit_app.py] on a table of 100 rows and on one of
    101 rows. *)
Example unpack_fails_on_short_path :
  fst (summarize_and_unpack steady plain_prompts (ones 100)
         (lit "Largest share?") quiet)
  = Raise {| exn_class := Error "ValueError";
             exn_str := lit "too many values to unpack (expected 2)" |}.
Proof. reflexivity. Qed.

Example unpack_succeeds_on_large_path :
  fst (summarize_and_unpack steady plain_prompts (ones 101)
         (lit "Largest share?") quiet)
  = Ok (PyStr prose, PyNone).
Proof. reflexivity. Qed.

(** C10.  [preprocess_data] fills the missing values with 0 and then drops
    every row whose values all equal 0, rows that are all-zero only after
    the fill included, keeps the other rows in order and renumbers them.
    The summarizer is given the cleaned table on both paths, so it never
    sees an all-zero row, while [data_handle] routes on the row count of
    the raw table, which can be larger than that of the cleaned one. *)
Theorem preprocess_data_drops_zero_rows (X : Type) (C : collaborators X)
  (P : prompts) (data : DataFrame) (user_input : str) (st : state X) :
  preprocess_data data st =
    (Ok (cleaned data), logged st [EvLog INFO (lit "Preporcessing Data...")])
  /\ rows (cleaned data) = filter any_ne_zero (map (map fill_cell) (rows data))
  /\ (forall row, In row (rows (cleaned data)) -> existsb ne_zero row = true)
  /\ (forall row, In row (rows data) -> forallb zero_or_missing row = true ->
        ~ In (map fill_cell row) (rows (cleaned data)))
  /\ index (cleaned data) = range_index (len (cleaned data))
  /\ len (cleaned data) <= len data
  /\ (forall row, In row (rows data) -> forallb zero_or_missing row = true ->
        len (cleaned data) < len data)
  /\ events_of (short_data C P data user_input) (world st) =
       [EvLog INFO (lit "Fucntion short_data.");
        EvLog INFO (lit "Preporcessing Data...");
        EvInvoke (PromptText
          (short_prompt P (to_json C (cleaned data)) user_input))]
  /\ (exists evs,
        events_of (large_data C P data user_input (lit "data.json") 10)
          (world st) =
        [EvLog INFO (lit "Function large_data");
         EvLog INFO (lit "Preporcessing Data...");
         EvLog INFO (lit "Saving to Json...");
         EvWrite (lit "data.json") (to_json C (cleaned data))] ++ evs
        /\ (evs = []
            \/ evs = [EvLog INFO (lit "Fetching Head...");
                      EvInvoke (PromptText
                        (large_prompt P (lit "data.json")
                           (to_json C (head 10 (cleaned data))) user_input))]))
  /\ (100 < len sparse /\ len (cleaned sparse) = 100
      /\ exists evs,
           events_of (data_handle C P sparse user_input (lit "data.json") 10)
             (world st) =
           [EvLog INFO (lit "Function called for large dataset");
            EvLog INFO (lit "Function large_data");
            EvLog INFO (lit "Preporcessing Data...");
            EvLog INFO (lit "Saving to Json...");
            EvWrite (lit "data.json") (to_json C (cleaned sparse))] ++ evs).
Proof.
  split; [reflexivity|]. split; [reflexivity|].
  split.
  { intros row H. now apply filter_In in H as [_ H]. }
  split.
  { intros row Hin Hz H. apply filter_In in H as [_ H].
    now rewrite (fill_zero_row _ Hz) in H. }
  split; [reflexivity|].
  split.
  { unfold len, cleaned, select_reset, fillna0. cbn [rows].
    rewrite <- (length_map (map fill_cell) (rows data)). apply filter_length_le. }
  split.
  { intros row Hin Hz. unfold len, cleaned, select_reset, fillna0. cbn [rows].
    rewrite <- (length_map (map fill_cell) (rows data)).
    apply filter_drops with (x := map fill_cell row).
    - now apply in_map.
    - now apply fill_zero_row. }
  split.
  { unfold events_of, short_data, preprocess_data, logger_info. io_step.
    rewrite bind_call. now destruct (llm_invoke C _ _) as [[a|e] w']. }
  split.
  { unfold events_of, large_data, save_json, get_head, preprocess_data,
      logger_info. io_step. rewrite bind_call.
    destruct (write_file C _ _ _) as [[[]|e] w'].
    - io_step. rewrite bind_call.
      destruct (llm_invoke C _ _) as [[a|e] w'']; eexists; split;
        try reflexivity; now right.
    - exists []. split; [reflexivity|now left]. }
  split; [apply Nat.ltb_lt; reflexivity|].
  split; [reflexivity|].
  apply data_handle_large_events. apply Nat.ltb_lt. reflexivity.
Qed.

(** The first row of [sparse] is dropped. *)
Lemma preprocess_data_drops_zero_rows_witness :
  In [Null] (rows sparse)
  /\ forallb zero_or_missing [Null] = true
  /\ len (cleaned sparse) < len sparse.
Proof.
  split; [now left|]. split; [reflexivity|].
  apply (proj1 (proj2 (proj2 (proj2 (proj2 (proj2 (proj2
           (preprocess_data_drops_zero_rows steady plain_prompts sparse
              (lit "Largest share?") quiet))))))) [Null]).
  - now left.
  - reflexivity.
Defined.

End RouterClaims.

Module FallbackClaims.
Import FallbackFacts.

(** C2.  Once the translator has answered, [get_response] takes the fallback
    exactly when the sentinel occurs somewhere in the answer.  It then logs
    the trigger, fetches the schema context again and hands over to
    [trigger_fallback_logic], whose text is what the caller gets (when the
    second retrieval raises, the caller gets the apology of [get_response]
    instead).  Otherwise the answer itself is returned.  On neither branch
    is the warehouse queried, a file written or code executed. *)
Theorem get_response_fallback_on_sentinel (X : Type) (C : collaborators X)
  (P : prompts) (user_input : str) (k : nat) (st st1 : state X)
  (response : str) :
  generate_initial_response C P user_input k
    (logged st [EvLog INFO (lit "Function get_response...")])
  = (Ok response, st1) ->
  (if contains sentinel response
   then
     get_response C P user_input k st =
     match similarity_search C user_input k (world st1) with
     | (Ok results, w2) =>
         trigger_fallback_logic C P user_input (join [newline] results)
           (HumanMessage user_input)
           {| world := w2;
              trace := trace st1 ++ [EvLog INFO (lit "Fallback triggered");
                                     EvSearch user_input k] |}
     | (Raise e, w2) =>
         if is_Exception e
         then
           (Ok apology,
            {| world := w2;
               trace := trace st1 ++
                 [EvLog INFO (lit "Fallback triggered");
                  EvSearch user_input k;
                  EvPrint (lit "Error in get_response: " ++ exn_str e);
                  EvLog ERROR
                    (lit "An error occurred while processing your request");
                  EvLog CRITICAL (lit "TERMINATED")] |})
         else
           (Raise e,
            {| world := w2;
               trace := trace st1 ++ [EvLog INFO (lit "Fallback triggered");
                                      EvSearch user_input k] |})
     end
   else
     get_response C P user_input k st =
     (Ok response, logged st1 [EvLog CRITICAL (lit "TERMINATED")]))
  /\ (nth_error (trace (snd (get_response C P user_input k st)))
        (length (trace st1))
      = Some (EvLog INFO (lit "Fallback triggered"))
      <-> contains sentinel response = true)
  /\ (exists evs,
        trace (snd (get_response C P user_input k st)) = trace st ++ evs
        /\ Forall talk_only evs).
Proof.
  intros H.
  assert (E : get_response C P user_input k st =
    if contains sentinel response
    then
      match similarity_search C user_input k (world st1) with
      | (Ok results, w2) =>
          trigger_fallback_logic C P user_input (join [newline] results)
            (HumanMessage user_input)
            {| world := w2;
               trace := trace st1 ++ [EvLog INFO (lit "Fallback triggered");
                                      EvSearch user_input k] |}
      | (Raise e, w2) =>
          if is_Exception e
          then
            (Ok apology,
             {| world := w2;
                trace := trace st1 ++
                  [EvLog INFO (lit "Fallback triggered");
                   EvSearch user_input k;
                   EvPrint (lit "Error in get_response: " ++ exn_str e);
                   EvLog ERROR
                     (lit "An error occurred while processing your request");
                   EvLog CRITICAL (lit "TERMINATED")] |})
          else
            (Raise e,
             {| world := w2;
                trace := trace st1 ++ [EvLog INFO (lit "Fallback triggered");
                                       EvSearch user_input k] |})
      end
    else (Ok response, logged st1 [EvLog CRITICAL (lit "TERMINATED")])).
  { unfold get_response at 1. unfold logger_info at 1.
    rewrite try_emit. erewrite try_bind_ok by exact H.
    destruct (contains sentinel response).
    - unfold logger_info. rewrite try_emit, try_call. cbn [world trace logged].
      destruct (similarity_search C user_input k (world st1))
        as [[results|e] w2].
      + rewrite <- app_assoc. cbn [app].
        apply try_transparent. intros e st'.
        apply trigger_fallback_logic_raises.
      + rewrite <- app_assoc. cbn [app].
        unfold except_Exception. destruct (is_Exception e); [|reflexivity].
        unfold logger_error, logger_critical. io_step.
        unfold logged. cbn [world trace]. now rewrite <- !app_assoc.
    - unfold logger_critical. rewrite try_emit. reflexivity. }
  split; [|split].
  - destruct (contains sentinel response); exact E.
  - rewrite E. destruct (contains sentinel response).
    + split; [reflexivity|intros _].
      destruct (similarity_search C user_input k (world st1))
        as [[results|e] w2].
      * destruct (trigger_fallback_logic_emits C P user_input
                    (join [newline] results) (HumanMessage user_input)
                    {| world := w2;
                       trace := trace st1 ++
                         [EvLog INFO (lit "Fallback triggered");
                          EvSearch user_input k] |})
          as (evs & -> & _).
        cbn [trace]. rewrite <- app_assoc.
        now rewrite nth_error_app2, Nat.sub_diag.
      * destruct (is_Exception e); cbn [snd trace];
          now rewrite nth_error_app2, Nat.sub_diag.
    + split; [|discriminate].
      unfold logged. cbn [snd trace].
      rewrite nth_error_app2, Nat.sub_diag by lia. discriminate.
  - apply get_response_emits.
Qed.

Lemma get_response_fallback_on_sentinel_witness :
  contains sentinel refusal = true
  /\ refusal <> sentinel
  /\ fst (get_response two_step plain_prompts (lit "Who won?") 5 fresh)
     = Ok suggestion.
Proof.
  split; [reflexivity|]. split; [discriminate|].
  pose proof (get_response_fallback_on_sentinel two_step plain_prompts
                (lit "Who won?") 5 fresh
                (st1 := snd (generate_initial_response two_step plain_prompts
                               (lit "Who won?") 5
                               (logged fresh
                                  [EvLog INFO (lit "Function get_response...")])))
                (response := refusal) eq_refl) as (Hb & _).
  change (contains sentinel refusal) with true in Hb.
  rewrite Hb. reflexivity.
Defined.

End FallbackClaims.

(** ** The file and the preview of the large path *)

Module JsonFacts.

Lemma records_of_head (n : nat) (d : DataFrame) :
  records_of (head n d) = firstn n (records_of d).
Proof.
  unfold records_of, head. cbn [rows columns]. symmetry. apply firstn_map.
Qed.

Lemma encode_alike (c c' : cell) : encode c = encode c' -> alike c c'.
Proof.
  destruct c as [|z|f|b|s], c' as [|z'|f'|b'|s']; cbn [encode alike];
    try destruct (written f) as [d|] eqn:E;
    try destruct (written f') as [d'|] eqn:E';
    intros H; try discriminate H; try exact I; try reflexivity;
    now injection H as ->.
Qed.

Lemma alike_exact (c c' : cell) : exact c = true -> alike c c' -> c = c'.
Proof.
  destruct c as [|z|f|b|s], c' as [|z'|f'|b'|s']; cbn [exact alike];
    intros He H; try discriminate He; try contradiction; now subst.
Qed.

(** Two rows of the width of the table with the same record are alike cell
    by cell. *)
Lemma record_alike (cols : list str) (r r' : list cell) :
  length r = length cols -> length r' = length cols ->
  combine cols (map encode r) = combine cols (map encode r') ->
  Forall2 alike r r'.
Proof.
  revert r r'. induction cols as [|k cols IH]; intros r r' Hr Hr' H.
  - destruct r, r'; try discriminate. constructor.
  - destruct r as [|c r], r' as [|c' r']; try discriminate.
    cbn [map combine] in H. injection H as Hc H.
    constructor; [now apply encode_alike|].
    apply IH; [now injection Hr|now injection Hr'|exact H].
Qed.

Lemma alike_rows_exact (r r' : list cell) :
  forallb exact r = true -> Forall2 alike r r' -> r = r'.
Proof.
  intros He H. induction H as [|c c' r r' Hc _ IH]; [reflexivity|].
  cbn [forallb] in He. apply andb_true_iff in He as [Hc' He].
  f_equal; [now apply alike_exact|now apply IH].
Qed.

Section WithCollaborators.

Variable X : Type.
Variable C : collaborators X.
Variable P : prompts.
Variable render : document -> str.

Hypothesis to_json_renders : forall d, to_json C d = render (records_of d).

Lemma save_json_events (d : DataFrame) (filename : str) (w : X) :
  events_of (save_json C d filename) w =
  [EvLog INFO (lit "Saving to Json...");
   EvWrite filename (render (records_of d))].
Proof.
  unfold events_of, save_json, logger_info. io_step. rewrite bind_call.
  rewrite to_json_renders.
  now destruct (write_file C _ _ _) as [[[]|e] w'].
Qed.

Lemma get_head_returns (d : DataFrame) (n : nat) (st : state X) :
  get_head C d n st =
  (Ok (render (firstn n (records_of d))),
   logged st [EvLog INFO (lit "Fetching Head...")]).
Proof.
  unfold get_head, logger_info. io_step.
  now rewrite to_json_renders, records_of_head.
Qed.

Lemma large_data_events (data : DataFrame) (u : str) (w : X) :
  exists evs,
    events_of (large_data C P data u (lit "data.json") 10) w =
    [EvLog INFO (lit "Function large_data");
     EvLog INFO (lit "Preporcessing Data...");
     EvLog INFO (lit "Saving to Json...");
     EvWrite (lit "data.json") (render (records_of (cleaned data)))] ++ evs
    /\ (evs = []
        \/ evs = [EvLog INFO (lit "Fetching Head...");
                  EvInvoke (PromptText
                    (large_prompt P (lit "data.json")
                       (render (firstn 10 (records_of (cleaned data))))
                       u))]).
Proof.
  unfold events_of, large_data, save_json, get_head, preprocess_data,
    logger_info. io_step. rewrite bind_call.
  fold (cleaned data). rewrite !to_json_renders, records_of_head.
  destruct (write_file C _ _ _) as [[[]|e] w'].
  - io_step. rewrite bind_call.
    destruct (llm_invoke C _ _) as [[a|e] w'']; eexists; split;
      try reflexivity; now right.
  - exists []. split; [reflexivity|now left].
Qed.

End WithCollaborators.
End JsonFacts.

(** ** The claim about the round trip *)

Module SerializationClaims.
Import JsonFacts.




End SerializationClaims.


(** * Further properties of the code

    More about the sanitizer, the cleaning step, the executor and the
    translator, what each stage does when a collaborator fails, the
    submit handler of [src/streamlit_app.py] and the manager of
    [src/src/big_query_manager.py]. *)

(** ** More on the sanitizer: each decoration, and the shape of the output *)

Module StripFacts.

Lemma lstrip_split (s : str) :
  exists pre, s = pre ++ lstrip s /\ forallb isspace pre = true.
Proof.
  induction s as [|c s (pre & E & H)]; simpl.
  - now exists [].
  - destruct (isspace c) eqn:Hc.
    + exists (c :: pre). simpl. rewrite Hc, H. split; [now f_equal|reflexivity].
    + now exists [].
Qed.

Lemma lstrip_head (s : str) (c : ascii) (r : str) :
  lstrip s = c :: r -> isspace c = false.
Proof.
  induction s as [|a s IH]; simpl; [discriminate|].
  destruct (isspace a) eqn:Ha; [exact IH|].
  intros H. injection H as <- _. exact Ha.
Qed.

Lemma lstrip_app (g x : str) (a : ascii) (t : str) :
  lstrip g = a :: t -> lstrip (g ++ x) = a :: t ++ x.
Proof.
  induction g as [|b g IH]; simpl; [discriminate|].
  destruct (isspace b); [exact IH|].
  intros H. injection H as <- <-. reflexivity.
Qed.

Lemma lstrip_blank (g : str) (c : ascii) :
  lstrip g = [] -> isspace c = true -> lstrip (g ++ [c]) = [].
Proof.
  intros Hg Hc. induction g as [|b g IH]; simpl in *.
  - now rewrite Hc.
  - destruct (isspace b); [now apply IH|discriminate].
Qed.

Lemma strip_first (s : str) (c : ascii) (r : str) :
  strip s = c :: r -> isspace c = false.
Proof.
  unfold strip, rstrip. intros H.
  destruct (lstrip_split (rev (lstrip s))) as (pre & E & _).
  apply (f_equal (@rev ascii)) in E.
  rewrite rev_involutive, rev_app_distr, H in E.
  now apply lstrip_head in E.
Qed.

Lemma strip_last (s : str) (c : ascii) (r : str) :
  strip s = r ++ [c] -> isspace c = false.
Proof.
  unfold strip, rstrip. intros H.
  apply (f_equal (@rev ascii)) in H.
  rewrite rev_involutive, rev_app_distr in H.
  now apply lstrip_head in H.
Qed.

Lemma strip_snoc_space (g : str) (c : ascii) :
  isspace c = true -> strip (g ++ [c]) = strip g.
Proof.
  intros Hc. unfold strip, rstrip.
  destruct (lstrip g) as [|a t] eqn:E.
  - now rewrite (lstrip_blank g c E Hc).
  - rewrite (lstrip_app g [c] E).
    change (a :: t ++ [c]) with ((a :: t) ++ [c]).
    rewrite rev_app_distr. simpl. now rewrite Hc.
Qed.

End StripFacts.

Module SanitizerMore.
Import ReFacts SanitizerFacts StripFacts.

(** A fence that closes just before one final newline: the interior comes
    out with the newline after it. *)
Lemma wrap_hit_newline (P S' : str) (c : ascii) (g : str) :
  P <> [] -> Ascii.eqb c newline = false ->
  sub (wrap P (S' ++ [c])) Group1 ((P ++ g ++ S' ++ [c]) ++ [newline])
  = g ++ [newline].
Proof.
  intros HP Hc. set (S := S' ++ [c]).
  assert (Hshort : forall u v pv,
            S ++ [newline] = u ++ v -> u <> [] ->
            closing S (g ++ S ++ [newline]) pv v = None).
  { intros u v pv E Hu. rewrite closing_eq.
    destruct (startswith S v) eqn:HS; [|reflexivity]. exfalso.
    destruct (startswith_inv _ _ HS) as [t ->].
    assert (Hlen : length (S ++ [newline]) = length (u ++ S ++ t))
      by now rewrite E.
    rewrite !length_app in Hlen. cbn [length] in Hlen.
    destruct u as [|a [|b u]]; [congruence| |simpl in Hlen; lia].
    destruct t; [|simpl in Hlen; lia].
    rewrite app_nil_r in E. apply (f_equal (@rev ascii)) in E.
    unfold S in E. cbn [app] in E. cbn [rev] in E.
    rewrite !rev_app_distr in E. cbn [rev app] in E.
    injection E as E _. subst c. now rewrite Ascii.eqb_refl in Hc. }
  unfold wrap at 1.
  replace (P ++ g ++ S' ++ [c]) with (P ++ g ++ S) by reflexivity.
  rewrite sub_anchored_hit
    with (g := {| g_open := Some (g ++ S ++ [newline]);
                  g_close := Some (S ++ [newline]) |}).
  - cbn [expand group1 g_open g_close]. unfold between.
    f_equal. rewrite !length_app. cbn [length].
    replace (length g + (length S + 1) - (length S + 1)) with (length g) by lia.
    now rewrite firstn_app, firstn_all, Nat.sub_diag, app_nil_r.
  - destruct P; [congruence|discriminate].
  - change (match_at (wrap P S) None ((P ++ g ++ S) ++ [newline]) no_caps =
            Some ([newline], {| g_open := Some (g ++ S ++ [newline]);
                                g_close := Some (S ++ [newline]) |})).
    rewrite <- !app_assoc.
    rewrite match_wrap, startswith_app.
    rewrite skipn_app, skipn_all, Nat.sub_diag. cbn [skipn app].
    apply star_greedy_hit; [reflexivity|exact Hshort|].
    rewrite closing_eq, startswith_app.
    rewrite skipn_app, skipn_all, Nat.sub_diag. cbn [skipn app at_eos].
    now rewrite Ascii.eqb_refl.
Qed.

Lemma no_sql_after_fence (g : str) :
  startswith (lit "sql") g = false ->
  startswith (lit "sql") (g ++ lit "```") = false.
Proof.
  destruct g as [|a [|b [|c g]]]; try reflexivity; cbn.
  - intros _. now rewrite andb_false_r.
  - intros _. now rewrite !andb_false_r.
  - now rewrite !andb_true_r.
Qed.

End SanitizerMore.

Module SanitizerExtras.
Import ReFacts SanitizerFacts StripFacts SanitizerMore.

(** X1.  A text wrapped in one pair of backticks, as in the end-to-end
    example of the pipeline, comes out as its interior, trimmed, when the
    interior does not open with a further backtick. *)
Theorem backtick_pair_removed (X : Type) (st : state X) (g : str) :
  startswith (lit "`") g = false ->
  refine_response (PyStr (lit "`" ++ g ++ lit "`")) st =
  (Ok (PyStr (strip g)), logged st [EvLog INFO (lit "Refining Resonse...")]).
Proof.
  intros Hg. rewrite refine_response_str. unfold refine_str.
  rewrite sql_tag_miss by reflexivity.
  assert (Hmiss : forall P, startswith (lit "```" ++ P) (lit "`" ++ g ++ lit "`")
                            = false).
  { intros P. destruct g as [|a g]; [reflexivity|].
    change (startswith (lit "`") (a :: g))
      with (Ascii.eqb "`" a && true) in Hg.
    rewrite andb_true_r in Hg.
    change (startswith (lit "```" ++ P) (lit "`" ++ (a :: g) ++ lit "`"))
      with (Ascii.eqb "`" "`"
            && (Ascii.eqb "`" a && startswith ("`"%char :: P) (g ++ lit "`"))).
    now rewrite Hg. }
  assert (H1 : startswith (lit "```sql") (lit "`" ++ g ++ lit "`") = false)
    by exact (Hmiss (lit "sql")).
  assert (H2 : startswith (lit "```") (lit "`" ++ g ++ lit "`") = false)
    by exact (Hmiss []).
  rewrite sql_fence_wrap, sub_wrap_miss by (rewrite match_wrap; now rewrite H1).
  rewrite fence_wrap, sub_wrap_miss by (rewrite match_wrap; now rewrite H2).
  rewrite tick_wrap, wrap_hit by discriminate.
  reflexivity.
Qed.

Lemma backtick_pair_removed_witness :
  refine_response
    (PyStr (lit "`" ++ lit "SELECT DISTINCT State FROM demographics;" ++ lit "`"))
    quiet =
  (Ok (PyStr (lit "SELECT DISTINCT State FROM demographics;")),
   logged quiet [EvLog INFO (lit "Refining Resonse...")]).
Proof.
  apply (backtick_pair_removed quiet
           (lit "SELECT DISTINCT State FROM demographics;")).
  reflexivity.
Defined.

(** X2.  A text between two plain triple-backtick fences comes out as its
    interior, trimmed, when the interior neither opens with [sql] nor is
    itself wrapped in backticks. *)
Theorem plain_fence_removed (X : Type) (st : state X) (g : str) :
  startswith (lit "sql") g = false ->
  wrapped (lit "`") (chomp g) = false ->
  refine_response (PyStr (lit "```" ++ g ++ lit "```")) st =
  (Ok (PyStr (strip g)), logged st [EvLog INFO (lit "Refining Resonse...")]).
Proof.
  intros Hsql Hg. rewrite refine_response_str. unfold refine_str.
  rewrite sql_tag_miss by reflexivity.
  rewrite sql_fence_wrap, sub_wrap_miss.
  - rewrite fence_wrap, wrap_hit by discriminate.
    now destruct (fences_pass g Hg) as (_ & _ & ->).
  - rewrite match_wrap.
    change (startswith (lit "```sql") (lit "```" ++ g ++ lit "```"))
      with (startswith (lit "sql") (g ++ lit "```")).
    now rewrite no_sql_after_fence.
Qed.

Lemma plain_fence_removed_witness :
  refine_response (PyStr (lit "```" ++ select_all ++ lit "```")) quiet =
  (Ok (PyStr (lit "SELECT * FROM t")),
   logged quiet [EvLog INFO (lit "Refining Resonse...")]).
Proof.
  apply (plain_fence_removed quiet select_all); reflexivity.
Defined.

(** X3.  A newline after the closing fence does not keep the sql fence on:
    the text still comes out as the interior, trimmed. *)
Theorem sql_fence_then_newline_removed (X : Type) (st : state X) (g : str) :
  wrapped (lit "`") g = false ->
  refine_response (PyStr ((lit "```sql" ++ g ++ lit "```") ++ [newline])) st =
  (Ok (PyStr (strip g)), logged st [EvLog INFO (lit "Refining Resonse...")]).
Proof.
  intros Hg. rewrite refine_response_str. unfold refine_str.
  rewrite sql_tag_miss by reflexivity.
  rewrite sql_fence_wrap.
  change (lit "```") with (lit "``" ++ ["`"%char]).
  rewrite wrap_hit_newline by (discriminate || reflexivity).
  assert (Hc : wrapped (lit "`") (chomp (g ++ [newline])) = false)
    by now rewrite chomp_snoc_newline.
  destruct (fences_pass _ Hc) as (_ & -> & ->).
  now rewrite strip_snoc_space.
Qed.

Lemma sql_fence_then_newline_removed_witness :
  refine_response
    (PyStr ((lit "```sql" ++ select_all ++ lit "```") ++ [newline])) quiet =
  (Ok (PyStr (lit "SELECT * FROM t")),
   logged quiet [EvLog INFO (lit "Refining Resonse...")]).
Proof.
  apply (sql_fence_then_newline_removed quiet select_all). reflexivity.
Defined.

(** X4.  Whatever text goes in, the text that comes out neither begins nor
    ends with a whitespace character; so sanitizing cannot leave a blank
    line or an indent around the query. *)
Theorem refine_response_output_trimmed (X : Type) (st : state X) (s : str) :
  exists out,
    refine_response (PyStr s) st =
    (Ok (PyStr out), logged st [EvLog INFO (lit "Refining Resonse...")])
    /\ MainPy.refine_response (PyStr s) st = (Ok (PyStr out), st)
    /\ (forall c r, out = c :: r -> isspace c = false)
    /\ (forall c r, out = r ++ [c] -> isspace c = false).
Proof.
  exists (refine_str s). split; [apply refine_response_str|].
  split; [apply refine_response_main_str|]. unfold refine_str.
  split; intros c r H.
  - now apply strip_first in H.
  - now apply strip_last in H.
Qed.

End SanitizerExtras.

(** ** More on the cleaning step *)

Module CleaningMore.

Lemma fill_cell_not_missing (c : cell) : isna (fill_cell c) = false.
Proof.
  destruct c as [|z|f|b|s]; try reflexivity.
  simpl. destruct (PrimFloat.is_nan f) eqn:E; simpl; [reflexivity|exact E].
Qed.

Lemma fill_cell_keeps (c : cell) : isna c = false -> fill_cell c = c.
Proof.
  destruct c as [|z|f|b|s]; simpl; try reflexivity; [discriminate|].
  now intros ->.
Qed.

Lemma fill_row_twice (row : list cell) :
  map fill_cell (map fill_cell row) = map fill_cell row.
Proof.
  rewrite map_map. apply map_ext. intros c.
  apply fill_cell_keeps, fill_cell_not_missing.
Qed.

Lemma fill_kept_rows (f : list cell -> bool) (l : list (list cell)) :
  map (map fill_cell) (filter f (map (map fill_cell) l))
  = filter f (map (map fill_cell) l).
Proof.
  induction l as [|r l IH]; simpl; [reflexivity|].
  destruct (f (map fill_cell r)); simpl; [|exact IH].
  now rewrite fill_row_twice, IH.
Qed.

Lemma filter_twice {A} (f : A -> bool) (l : list A) :
  filter f (filter f l) = filter f l.
Proof.
  induction l as [|a l IH]; simpl; [reflexivity|].
  destruct (f a) eqn:E; simpl; [|exact IH]. now rewrite E, IH.
Qed.

Lemma cleaned_twice (data : DataFrame) : cleaned (cleaned data) = cleaned data.
Proof.
  unfold cleaned, select_reset, fillna0. cbn [rows columns index].
  now rewrite fill_kept_rows, filter_twice.
Qed.

End CleaningMore.

Module CleaningExtras.
Import CleaningMore.

(** X5.  The cleaned table has the columns of the raw one and no missing
    value, and each of its rows is a raw row in which only the missing
    cells were replaced: a cell that was present keeps its value. *)
Theorem cleaned_rows_are_filled_raw_rows (data : DataFrame) :
  columns (cleaned data) = columns data
  /\ (forall row, In row (rows (cleaned data)) ->
        forallb (fun c => negb (isna c)) row = true
        /\ exists raw, In raw (rows data) /\ row = map fill_cell raw)
  /\ (forall c, isna c = false -> fill_cell c = c).
Proof.
  split; [reflexivity|]. split; [|exact fill_cell_keeps].
  intros row H. unfold cleaned, select_reset, fillna0 in H. cbn [rows] in H.
  apply filter_In in H as [H _]. apply in_map_iff in H as (raw & <- & Hraw).
  split; [|now exists raw].
  apply forallb_forall. intros c Hc.
  apply in_map_iff in Hc as (c0 & <- & _).
  now rewrite fill_cell_not_missing.
Qed.

(** X6.  [preprocess_data] is idempotent: applied to the table it returned
    it returns that table unchanged, and applied to the table a first call
    has filled in place it returns what the first call returned.  Filling
    the missing cells with 0 beforehand changes nothing for [data_handle]
    either, which counts the rows of the table it is given and fills before
    it serialises.  The table [preprocess_data] returned is another matter
    for [data_handle]: it can count at most 100 rows where the raw table
    counts more. *)
Theorem preprocess_data_idempotent (X : Type) (C : collaborators X)
  (P : prompts) (data : DataFrame) (user_input filename : str) (n : nat)
  (st : state X) :
  cleaned (fillna0 data) = cleaned data
  /\ cleaned (cleaned data) = cleaned data
  /\ (d <- preprocess_data data ;; preprocess_data d) st =
     (Ok (cleaned data),
      logged st [EvLog INFO (lit "Preporcessing Data...");
                 EvLog INFO (lit "Preporcessing Data...")])
  /\ data_handle C P (fillna0 data) user_input filename n st =
     data_handle C P data user_input filename n st
  /\ exists raw : DataFrame, 100 < len raw /\ len (cleaned raw) <= 100.
Proof.
  assert (Hfill : fillna0 (fillna0 data) = fillna0 data).
  { unfold fillna0. cbn [rows columns index]. f_equal.
    rewrite map_map. apply map_ext, fill_row_twice. }
  split; [unfold cleaned; now rewrite Hfill|].
  split; [apply cleaned_twice|]. split; [|split].
  - unfold preprocess_data, logger_info. io_step.
    fold (cleaned data). fold (cleaned (cleaned data)).
    now rewrite cleaned_twice.
  - unfold data_handle, short_data, large_data, preprocess_data.
    rewrite Hfill.
    replace (len (fillna0 data)) with (len data)
      by (unfold len, fillna0; cbn [rows]; now rewrite length_map).
    reflexivity.
  - exists sparse. split; [apply Nat.ltb_lt|apply Nat.leb_le]; reflexivity.
Qed.

End CleaningExtras.

(** ** Failures of the collaborators *)

Module FailureFacts.
Section WithCollaborators.

Variable X : Type.

Lemma succeeds_ret {A} (a : A) : succeeds (X := X) (ret a).
Proof. intros st. now exists a, st. Qed.

Lemma succeeds_emit (ev : event) : succeeds (X := X) (emit ev).
Proof. intros st. eexists. eexists. reflexivity. Qed.

Lemma succeeds_bind {A B} (m : io X A) (f : A -> io X B) :
  succeeds m -> (forall a, succeeds (f a)) -> succeeds (bind m f).
Proof.
  intros Hm Hf st. destruct (Hm st) as (a & st1 & E).
  destruct (Hf a st1) as (b & st2 & E').
  exists b, st2. unfold bind. now rewrite E.
Qed.

(** A [try] whose handler always returns lets no [Exception] out. *)
Lemma try_contained {A} (body : io X A) (h : exn -> io X A) :
  (forall e, succeeds (h e)) ->
  contained (try_except body except_Exception h).
Proof.
  intros Hh st e st'. unfold try_except.
  destruct (body st) as [[a|e0] st1]; [discriminate|].
  unfold except_Exception. destruct (is_Exception e0) eqn:E.
  - destruct (Hh e0 st1) as (a & st2 & ->). discriminate.
  - intros H. now injection H as <- _.
Qed.

End WithCollaborators.
End FailureFacts.

Ltac succeeds_steps :=
  unfold logger_info, logger_error, logger_critical;
  repeat first
    [ apply FailureFacts.succeeds_ret | apply FailureFacts.succeeds_emit
    | apply FailureFacts.succeeds_bind; [|intros ?] ].

Module FailureExtras.
Import FailureFacts.

(** X7.  The stages that guard their calls let no exception of class
    [Exception] out, whatever the vector store, the model and the warehouse
    do: [get_data], [generate_initial_response], [trigger_fallback_logic]
    and [get_response]. *)
Theorem guarded_stages_contain_failures (X : Type) (C : collaborators X)
  (P : prompts) (reg user_input context : str) (k : nat) (hm : message) :
  contained (get_data C reg)
  /\ contained (generate_initial_response C P user_input k)
  /\ contained (trigger_fallback_logic C P user_input context hm)
  /\ contained (get_response C P user_input k).
Proof.
  repeat split; apply try_contained; intros e; succeeds_steps.
Qed.

(** X8.  When the warehouse raises an [Exception], [get_data] returns
    [None]: the query was sent once, and the failure is logged with the
    message of the exception and the line TERMINATED. *)
Theorem get_data_returns_none_on_failure (X : Type) (C : collaborators X)
  (reg : str) (st : state X) (e : exn) (w : X) :
  execute_query C reg (world st) = (Raise e, w) ->
  is_Exception e = true ->
  get_data C reg st =
  (Ok PyNone,
   {| world := w;
      trace := trace st ++
        [EvLog INFO (lit "Hitting BigQuery...");
         EvQuery reg;
         EvLog ERROR (lit "SQL Query Problem: " ++ exn_str e);
         EvLog CRITICAL (lit "TERMINATED")] |}).
Proof.
  intros Hq He. unfold get_data, logger_info, logger_critical.
  rewrite try_emit, try_call. cbn [world trace logged].
  rewrite Hq. unfold except_Exception. rewrite He. io_step.
  unfold logged. cbn [world trace]. now rewrite <- !app_assoc.
Qed.

Lemma get_data_returns_none_on_failure_witness :
  get_data down_warehouse (lit "SELECT 1") quiet =
  (Ok PyNone,
   {| world := tt;
      trace :=
        [EvLog INFO (lit "Hitting BigQuery...");
         EvQuery (lit "SELECT 1");
         EvLog ERROR (lit "SQL Query Problem: deadline exceeded");
         EvLog CRITICAL (lit "TERMINATED")] |}).
Proof.
  apply (get_data_returns_none_on_failure down_warehouse (lit "SELECT 1")
           quiet (e := timeout_error) (w := tt)); reflexivity.
Defined.

(** X9.  [data_handle] does not guard the call of the model: when
    [llm.invoke] raises, whatever the class of the exception, the exception
    leaves [data_handle], on the short path and on the large one, and
    nothing is summarized. *)
Theorem data_handle_propagates_model_failure (X : Type) (C : collaborators X)
  (P : prompts) (data : DataFrame) (user_input filename : str) (n : nat)
  (st : state X) (e : exn) :
  (forall w,
     len data <= 100 ->
     llm_invoke C
       (PromptText (short_prompt P (to_json C (cleaned data)) user_input))
       (world st) = (Raise e, w) ->
     data_handle C P data user_input filename n st =
     (Raise e,
      {| world := w;
         trace := trace st ++
           [EvLog INFO (lit "Function Called for short dataset");
            EvLog INFO (lit "Fucntion short_data.");
            EvLog INFO (lit "Preporcessing Data...");
            EvInvoke (PromptText
              (short_prompt P (to_json C (cleaned data)) user_input))] |}))
  /\ (forall w1 w2,
        100 < len data ->
        write_file C (lit "data.json") (to_json C (cleaned data)) (world st)
        = (Ok tt, w1) ->
        llm_invoke C
          (PromptText (large_prompt P (lit "data.json")
                         (to_json C (head 10 (cleaned data))) user_input))
          w1 = (Raise e, w2) ->
        data_handle C P data user_input filename n st =
        (Raise e,
         {| world := w2;
            trace := trace st ++
              [EvLog INFO (lit "Function called for large dataset");
               EvLog INFO (lit "Function large_data");
               EvLog INFO (lit "Preporcessing Data...");
               EvLog INFO (lit "Saving to Json...");
               EvWrite (lit "data.json") (to_json C (cleaned data));
               EvLog INFO (lit "Fetching Head...");
               EvInvoke (PromptText
                 (large_prompt P (lit "data.json")
                    (to_json C (head 10 (cleaned data))) user_input))] |})).
Proof.
  split.
  - intros w Hlen Hllm. unfold data_handle.
    replace (100 <? len data) with false by (symmetry; apply Nat.ltb_ge; lia).
    replace (len data <=? 100) with true by (symmetry; apply Nat.leb_le; lia).
    unfold short_data, preprocess_data, logger_info. io_step.
    rewrite bind_call. cbn [world trace logged].
    fold (cleaned data). rewrite Hllm. now rewrite <- !app_assoc.
  - intros w1 w2 Hlen Hwrite Hllm. unfold data_handle.
    replace (100 <? len data) with true by (symmetry; apply Nat.ltb_lt; lia).
    unfold large_data, save_json, get_head, preprocess_data, logger_info.
    io_step. rewrite bind_call. cbn [world trace logged].
    fold (cleaned data). rewrite Hwrite. io_step.
    rewrite bind_call. cbn [world trace logged]. rewrite Hllm.
    now rewrite <- !app_assoc.
Qed.

Lemma data_handle_propagates_model_failure_witness :
  len (ones 3) <= 100
  /\ fst (data_handle down_model plain_prompts (ones 3) (lit "Largest share?")
            (lit "data.json") 10 quiet)
     = Raise timeout_error.
Proof.
  split; [apply Nat.leb_le; reflexivity|].
  rewrite (proj1 (data_handle_propagates_model_failure down_model
                    plain_prompts (ones 3) (lit "Largest share?")
                    (lit "data.json") 10 quiet timeout_error) tt).
  - reflexivity.
  - apply Nat.leb_le. reflexivity.
  - reflexivity.
Defined.

(** X10.  On the large path the file is written before the model is asked:
    when the write raises, the exception leaves [data_handle] and the model
    has not been called. *)
Theorem data_handle_write_failure_skips_model (X : Type)
  (C : collaborators X) (P : prompts) (data : DataFrame)
  (user_input filename : str) (n : nat) (st : state X) (e : exn) (w : X) :
  100 < len data ->
  write_file C (lit "data.json") (to_json C (cleaned data)) (world st)
  = (Raise e, w) ->
  data_handle C P data user_input filename n st =
  (Raise e,
   {| world := w;
      trace := trace st ++
        [EvLog INFO (lit "Function called for large dataset");
         EvLog INFO (lit "Function large_data");
         EvLog INFO (lit "Preporcessing Data...");
         EvLog INFO (lit "Saving to Json...");
         EvWrite (lit "data.json") (to_json C (cleaned data))] |}).
Proof.
  intros Hlen Hwrite. unfold data_handle.
  replace (100 <? len data) with true by (symmetry; apply Nat.ltb_lt; lia).
  unfold large_data, save_json, get_head, preprocess_data, logger_info.
  io_step. rewrite bind_call. cbn [world trace logged].
  fold (cleaned data). rewrite Hwrite. now rewrite <- !app_assoc.
Qed.

Lemma data_handle_write_failure_skips_model_witness :
  100 < len (ones 101)
  /\ fst (data_handle full_disk plain_prompts (ones 101) (lit "Largest share?")
            (lit "data.json") 10 quiet)
     = Raise disk_error.
Proof.
  split; [apply Nat.ltb_lt; reflexivity|].
  rewrite (data_handle_write_failure_skips_model full_disk plain_prompts
             (ones 101) (lit "Largest share?") (lit "data.json") 10 quiet
             (e := disk_error) (w := tt)).
  - reflexivity.
  - apply Nat.ltb_lt. reflexivity.
  - reflexivity.
Defined.

End FailureExtras.

(** ** More on the code executor *)

Module ExecutorMore.
Import ReFacts.

Lemma search_needs_prefix (p : str) (r : regex) (s : str) :
  contains p s = false ->
  forall prev, search_from (map Chr p ++ r) prev s = None.
Proof.
  induction s as [|a s IH]; intros H prev; simpl in H;
    apply orb_false_iff in H as [Hp Hs]; cbn [search_from];
    rewrite match_chars, Hp; [reflexivity|now apply IH].
Qed.

Lemma star_lazy_skip {R} (p : ascii -> bool)
  (k : option ascii -> str -> option R) (u t : str) :
  (forall c, p c = true) ->
  (forall a u1 u2 pv, u = u1 ++ a :: u2 -> k pv (a :: u2 ++ t) = None) ->
  forall prev, star_lazy p k prev (u ++ t) = star_lazy p k (prev_after u prev) t.
Proof.
  intros Hp. induction u as [|a u IH]; intros Hk prev; [reflexivity|].
  cbn [app star_lazy]. rewrite (Hk a [] u prev eq_refl), Hp.
  apply IH. intros b u1 u2 pv ->. now apply (Hk b (a :: u1) u2 pv).
Qed.

Lemma match_code_block_miss (c : ascii) (s : str) (prev : option ascii) :
  not_backtick c = true ->
  match_at code_pattern prev (c :: s) no_caps = None.
Proof.
  intros Hc. unfold code_pattern, chars. rewrite match_chars.
  change (startswith (lit "```python") (c :: s))
    with (Ascii.eqb "`" c && startswith (lit "``python") s).
  unfold not_backtick in Hc. apply negb_true_iff in Hc.
  rewrite Ascii.eqb_sym in Hc. now rewrite Hc.
Qed.

Lemma match_code_block_hit (code post : str) (prev : option ascii) :
  forallb not_backtick code = true ->
  match_at code_pattern prev (lit "```python" ++ code ++ lit "```" ++ post)
    no_caps =
  Some (post, {| g_open := Some (code ++ lit "```" ++ post);
                 g_close := Some (lit "```" ++ post) |}).
Proof.
  intros Hcode. unfold code_pattern, chars.
  rewrite match_chars, startswith_app.
  rewrite skipn_app, skipn_all, Nat.sub_diag. cbn [skipn app match_at].
  rewrite star_lazy_skip; [| reflexivity |].
  - destruct post; reflexivity.
  - intros a u1 u2 pv ->. cbn [match_at g_open g_close].
    rewrite forallb_app in Hcode.
    apply andb_true_iff in Hcode as [_ Hcode]. cbn [forallb] in Hcode.
    apply andb_true_iff in Hcode as [Ha _].
    unfold not_backtick in Ha. apply negb_true_iff in Ha.
    change (map Chr (lit "```")) with [Chr "`"; Chr "`"; Chr "`"].
    cbn [match_at]. now rewrite Ha.
Qed.

Lemma search_from_skip (r : regex) (pre t : str) :
  (forall a u1 u2 pv, pre = u1 ++ a :: u2 ->
     match_at r pv (a :: u2 ++ t) no_caps = None) ->
  forall prev,
    search_from r prev (pre ++ t) = search_from r (prev_after pre prev) t.
Proof.
  induction pre as [|a pre IH]; intros H prev; [reflexivity|].
  cbn [app search_from]. rewrite (H a [] pre prev eq_refl).
  apply IH. intros b u1 u2 pv ->. now apply (H b (a :: u1) u2 pv).
Qed.

Lemma search_from_here (r : regex) (prev : option ascii) (s rest : str)
  (g : caps) :
  match_at r prev s no_caps = Some (rest, g) -> search_from r prev s = Some g.
Proof. intros H. destruct s; simpl; now rewrite H. Qed.

(** In a text without backticks before the first python block and inside
    it, the search finds that block and captures its code. *)
Lemma search_first_python_block (pre code post : str) :
  forallb not_backtick pre = true ->
  forallb not_backtick code = true ->
  search code_pattern (pre ++ lit "```python" ++ code ++ lit "```" ++ post)
  = Some {| g_open := Some (code ++ lit "```" ++ post);
            g_close := Some (lit "```" ++ post) |}.
Proof.
  intros Hpre Hcode. unfold search. rewrite search_from_skip.
  - apply search_from_here with (rest := post).
    now apply match_code_block_hit.
  - intros a u1 u2 pv ->. apply match_code_block_miss.
    rewrite forallb_app in Hpre.
    apply andb_true_iff in Hpre as [_ Hpre]. cbn [forallb] in Hpre.
    now apply andb_true_iff in Hpre as [Ha _].
Qed.

Lemma group1_of_block (code rest : str) :
  group1 {| g_open := Some (code ++ rest); g_close := Some rest |} = code.
Proof.
  unfold group1, between. cbn [g_open g_close].
  rewrite length_app, Nat.add_sub.
  now rewrite firstn_app, firstn_all, Nat.sub_diag, app_nil_r.
Qed.

End ExecutorMore.

Module ExecutorExtras.
Import ReFacts ExecutorFacts ExecutorMore.

(** X11.  A summary in which the text  ```python  does not occur is not
    executed: the executor returns the cleaned prose and no chart, and all
    it records is its opening log line. *)
Theorem no_python_block_no_exec (X : Type) (C : collaborators X)
  (response_text : str) (data : pyval) (st : state X) :
  contains (lit "```python") response_text = false ->
  process_llm_response C response_text data st =
  (Ok (clean_prose response_text, PyNone),
   logged st [EvLog INFO (lit "Function process_llm_response")]).
Proof.
  intros H. unfold process_llm_response.
  assert (E : search code_pattern response_text = None)
    by (unfold search, code_pattern, chars; now apply search_needs_prefix).
  rewrite E. reflexivity.
Qed.

Lemma no_python_block_no_exec_witness :
  contains (lit "```python") prose = false
  /\ process_llm_response steady prose PyNone quiet =
     (Ok (prose, PyNone),
      logged quiet [EvLog INFO (lit "Function process_llm_response")]).
Proof.
  split; [reflexivity|].
  apply (@no_python_block_no_exec unit steady prose PyNone quiet). reflexivity.
Defined.

(** X12.  When the code of the first python block runs without raising,
    the chart returned is the value the code left under the name [chart],
    or [None] when it left none; the prose is cleaned a second time and no
    error line is added. *)
Theorem process_llm_response_returns_chart (X : Type) (C : collaborators X)
  (response_text : str) (data : pyval) (st : state X)
  (pre code post : str) :
  response_text = pre ++ lit "```python" ++ code ++ lit "```" ++ post ->
  exists m,
    search code_pattern response_text = Some m
    /\ forall (ns : namespace) (w : X),
         py_exec C (strip (group1 m)) (local_vars0 data) (world st)
         = (Ok ns, w) ->
         process_llm_response C response_text data st =
         (Ok (clean_again (clean_prose response_text),
              match ns_lookup "chart" ns with
              | Some chart => chart
              | None => PyNone
              end),
          {| world := w;
             trace := trace st ++
               [EvLog INFO (lit "Function process_llm_response");
                EvLog INFO (lit "Python Code found in the response.");
                EvExec (strip (group1 m)) (local_vars0 data)]
               ++ match ns_lookup "chart" ns with
                  | Some _ =>
                      [EvLog INFO (lit "Chart found in the local_vars.");
                       EvLog CRITICAL (lit "TERMINATED")]
                  | None => []
                  end |}).
Proof.
  intros ->. destruct (search_finds_block pre code post) as [m Hm].
  exists m. split; [exact Hm|]. intros ns w Hexec.
  unfold process_llm_response. rewrite Hm. io_simpl.
  fold (local_vars0 data). rewrite Hexec.
  destruct (ns_lookup "chart" ns); cbn [world trace];
    now rewrite <- !app_assoc.
Qed.

Lemma process_llm_response_returns_chart_witness :
  process_llm_response (scripted [] draws) summary_chart (PyStr (lit "[]"))
    quiet =
  (Ok (lit "Income by state.", PyObject "Chart" 1),
   {| world := tt;
      trace :=
        [EvLog INFO (lit "Function process_llm_response");
         EvLog INFO (lit "Python Code found in the response.");
         EvExec (lit "chart = alt.Chart(data).mark_bar()")
           (local_vars0 (PyStr (lit "[]")));
         EvLog INFO (lit "Chart found in the local_vars.");
         EvLog CRITICAL (lit "TERMINATED")] |}).
Proof.
  destruct (@process_llm_response_returns_chart unit (scripted [] draws)
              summary_chart (PyStr (lit "[]")) quiet
              (lit "Income by state." ++ [newline])
              (newline :: lit "chart = alt.Chart(data).mark_bar()" ++ [newline])
              [] eq_refl)
    as (m & Hm & H).
  injection Hm as <-.
  exact (H _ tt eq_refl).
Defined.

(** X13.  The code handed to [exec] is the text between the first
    ```python  and the first  ```  after it, trimmed; whatever follows,
    further blocks included, is not executed.  (Stated for a text with no
    backtick before the block and none inside it.) *)
Theorem first_block_is_executed (X : Type) (C : collaborators X)
  (data : pyval) (st : state X) (pre code post : str) :
  forallb not_backtick pre = true ->
  forallb not_backtick code = true ->
  exists m,
    search code_pattern (pre ++ lit "```python" ++ code ++ lit "```" ++ post)
    = Some m
    /\ group1 m = code
    /\ nth_error
         (trace (snd (process_llm_response C
                        (pre ++ lit "```python" ++ code ++ lit "```" ++ post)
                        data st)))
         (length (trace st) + 2)
       = Some (EvExec (strip code) (local_vars0 data)).
Proof.
  intros Hpre Hcode. eexists. split; [now apply search_first_python_block|].
  split; [apply group1_of_block|].
  unfold process_llm_response.
  rewrite (search_first_python_block pre code post Hpre Hcode).
  rewrite group1_of_block. io_simpl. fold (local_vars0 data).
  assert (Hnth : forall evs,
            nth_error
              ((((trace st ++ [EvLog INFO (lit "Function process_llm_response")])
                 ++ [EvLog INFO (lit "Python Code found in the response.")])
                ++ [EvExec (strip code) (local_vars0 data)]) ++ evs)
              (length (trace st) + 2)
            = Some (EvExec (strip code) (local_vars0 data))).
  { intros evs. rewrite <- !app_assoc. cbn [app].
    rewrite nth_error_app2 by lia.
    now replace (length (trace st) + 2 - length (trace st)) with 2 by lia. }
  destruct (py_exec C (strip code) (local_vars0 data) (world st))
    as [[ns|e] w]; cbn [fst snd world trace].
  - destruct (ns_lookup "chart" ns); cbn [fst snd world trace].
    + rewrite <- (app_assoc _ _ [EvLog CRITICAL _]). apply Hnth.
    + rewrite <- (app_nil_r (_ ++ [EvExec _ _])). apply Hnth.
  - destruct (is_Exception e); cbn [fst snd world trace].
    + rewrite <- (app_assoc _ _ [EvLog CRITICAL _]). apply Hnth.
    + rewrite <- (app_nil_r (_ ++ [EvExec _ _])). apply Hnth.
Qed.

Lemma first_block_is_executed_witness :
  exists m,
    search code_pattern
      (lit "See: " ++ lit "```python" ++ lit "x = 1" ++ lit "```"
         ++ lit " and ```python y = 2```")
    = Some m
    /\ group1 m = lit "x = 1".
Proof.
  destruct (@first_block_is_executed unit steady PyNone quiet (lit "See: ")
              (lit "x = 1") (lit " and ```python y = 2```") eq_refl eq_refl)
    as (m & Hm & Hg & _).
  now exists m.
Defined.

(** X14.  The executor itself only logs and runs code: it never calls the
    model, the vector store or the warehouse and writes no file, and it
    runs [exec] at most once per summary. *)
Theorem process_llm_response_logs_and_execs (X : Type) (C : collaborators X)
  (response_text : str) (data : pyval) (st : state X) :
  exists evs,
    trace (snd (process_llm_response C response_text data st))
    = trace st ++ evs
    /\ Forall log_or_exec evs
    /\ length (filter is_exec evs) <= 1.
Proof.
  unfold process_llm_response.
  destruct (search code_pattern response_text) as [m|].
  - io_simpl.
    destruct (py_exec C _ _ (world st)) as [[ns|e] w];
      cbn [fst snd world trace].
    + destruct (ns_lookup "chart" ns); cbn [fst snd world trace];
        rewrite <- !app_assoc; eexists; (split; [reflexivity|]);
        (split; [repeat constructor|cbn; lia]).
    + destruct (is_Exception e); cbn [fst snd world trace];
        rewrite <- !app_assoc; eexists; (split; [reflexivity|]);
        (split; [repeat constructor|cbn; lia]).
  - eexists. split; [reflexivity|].
    split; [repeat constructor|cbn; lia].
Qed.

End ExecutorExtras.

(** ** Failures of the translator *)

Module ResponseFacts.
Section WithCollaborators.

Variable X : Type.
Variable C : collaborators X.
Variable P : prompts.

Lemma generate_initial_response_no_context (u : str) (k : nat)
  (st : state X) (e : exn) (w : X) :
  similarity_search C u k (world st) = (Raise e, w) ->
  is_Exception e = true ->
  generate_initial_response C P u k st =
  (Ok apology,
   {| world := w;
      trace := trace st ++
        [EvLog INFO (lit "Function generate_initial_response.");
         EvSearch u k;
         EvLog ERROR (lit "Error generating response...");
         EvPrint (lit "Error generating response: " ++ exn_str e)] |}).
Proof.
  intros Hs He. unfold generate_initial_response, logger_info, logger_error.
  rewrite try_emit, try_call. cbn [world trace logged].
  rewrite Hs. unfold except_Exception. rewrite He. io_step.
  unfold logged. cbn [world trace]. now rewrite <- !app_assoc.
Qed.

Lemma generate_initial_response_no_answer (u : str) (k : nat)
  (st : state X) (results : list str) (e : exn) (w1 w2 : X) :
  similarity_search C u k (world st) = (Ok results, w1) ->
  llm_invoke C (first_prompt P u results) w1 = (Raise e, w2) ->
  is_Exception e = true ->
  generate_initial_response C P u k st =
  (Ok apology,
   {| world := w2;
      trace := trace st ++
        [EvLog INFO (lit "Function generate_initial_response.");
         EvSearch u k;
         EvInvoke (first_prompt P u results);
         EvLog ERROR (lit "Error generating response...");
         EvPrint (lit "Error generating response: " ++ exn_str e)] |}).
Proof.
  intros Hs Hm He. unfold generate_initial_response, logger_info, logger_error.
  rewrite try_emit, try_call. cbn [world trace logged].
  rewrite Hs. rewrite try_call. cbn [world trace].
  unfold first_prompt in Hm. rewrite Hm.
  unfold except_Exception. rewrite He. io_step.
  unfold logged. cbn [world trace]. now rewrite <- !app_assoc.
Qed.

Lemma trigger_fallback_logic_no_answer (u context : str) (hm : message)
  (st : state X) (e : exn) (w : X) :
  llm_invoke C (second_prompt P u context hm) (world st) = (Raise e, w) ->
  is_Exception e = true ->
  trigger_fallback_logic C P u context hm st =
  (Ok fallback_apology,
   {| world := w;
      trace := trace st ++
        [EvLog INFO (lit "Fallback Logic triggered.");
         EvInvoke (second_prompt P u context hm);
         EvPrint (lit "Error triggering fallback logic: " ++ exn_str e);
         EvLog ERROR (lit "Error triggering fallback logic.")] |}).
Proof.
  intros Hm He. unfold trigger_fallback_logic, logger_info, logger_error.
  rewrite try_emit, try_call. cbn [world trace logged].
  unfold second_prompt in Hm. rewrite Hm.
  unfold except_Exception. rewrite He. io_step.
  unfold logged. cbn [world trace]. now rewrite <- !app_assoc.
Qed.

Lemma trigger_fallback_logic_answer (u context : str) (hm : message)
  (st : state X) (raw : str) (w : X) :
  llm_invoke C (second_prompt P u context hm) (world st) = (Ok raw, w) ->
  trigger_fallback_logic C P u context hm st =
  (Ok (strip raw),
   {| world := w;
      trace := trace st ++
        [EvLog INFO (lit "Fallback Logic triggered.");
         EvInvoke (second_prompt P u context hm);
         EvLog INFO (lit "Improved Prompts Generated.");
         EvLog CRITICAL (lit "TERMINATED")] |}).
Proof.
  intros Hm. unfold trigger_fallback_logic, logger_info, logger_critical.
  rewrite try_emit, try_call. cbn [world trace logged].
  unfold second_prompt in Hm. rewrite Hm.
  unfold try_except. io_step.
  unfold logged. cbn [world trace]. now rewrite <- !app_assoc.
Qed.

(** The apology does not read as a refusal. *)
Lemma apology_no_sentinel : contains sentinel apology = false.
Proof. vm_compute. reflexivity. Qed.

(** [get_response] once the translator has returned the apology. *)
Lemma get_response_after_apology (u : str) (k : nat) (st st1 : state X) :
  generate_initial_response C P u k
    (logged st [EvLog INFO (lit "Function get_response...")])
  = (Ok apology, st1) ->
  get_response C P u k st =
  (Ok apology, logged st1 [EvLog CRITICAL (lit "TERMINATED")]).
Proof.
  intros H. unfold get_response. unfold logger_info at 1.
  rewrite try_emit. erewrite try_bind_ok by exact H.
  rewrite apology_no_sentinel. unfold logger_critical.
  rewrite try_emit. reflexivity.
Qed.

End WithCollaborators.
End ResponseFacts.

Module ResponseExtras.
Import ResponseFacts FallbackFacts.

(** X15.  When the vector store raises an [Exception],
    [generate_initial_response] returns the apology text and the model is
    not called; when the store answers and the model raises, it returns
    the same apology.  Either way the message of the exception is printed
    after the error line of the log. *)
Theorem generate_initial_response_apologizes (X : Type) (C : collaborators X)
  (P : prompts) (user_input : str) (k : nat) (st : state X) (e : exn) :
  is_Exception e = true ->
  (forall w,
     similarity_search C user_input k (world st) = (Raise e, w) ->
     generate_initial_response C P user_input k st =
     (Ok apology,
      {| world := w;
         trace := trace st ++
           [EvLog INFO (lit "Function generate_initial_response.");
            EvSearch user_input k;
            EvLog ERROR (lit "Error generating response...");
            EvPrint (lit "Error generating response: " ++ exn_str e)] |}))
  /\ (forall results w1 w2,
        similarity_search C user_input k (world st) = (Ok results, w1) ->
        llm_invoke C (first_prompt P user_input results) w1 = (Raise e, w2) ->
        generate_initial_response C P user_input k st =
        (Ok apology,
         {| world := w2;
            trace := trace st ++
              [EvLog INFO (lit "Function generate_initial_response.");
               EvSearch user_input k;
               EvInvoke (first_prompt P user_input results);
               EvLog ERROR (lit "Error generating response...");
               EvPrint (lit "Error generating response: " ++ exn_str e)] |})).
Proof.
  intros He. split.
  - intros w Hs. now apply generate_initial_response_no_context.
  - intros results w1 w2 Hs Hm.
    now apply generate_initial_response_no_answer with (w1 := w1).
Qed.

Lemma generate_initial_response_apologizes_witness :
  generate_initial_response down_store plain_prompts (lit "population") 5 quiet
  = (Ok apology,
     {| world := tt;
        trace :=
          [EvLog INFO (lit "Function generate_initial_response.");
           EvSearch (lit "population") 5;
           EvLog ERROR (lit "Error generating response...");
           EvPrint (lit "Error generating response: deadline exceeded")] |})
  /\ generate_initial_response down_model plain_prompts (lit "population") 5
       quiet
     = (Ok apology,
        {| world := tt;
           trace :=
             [EvLog INFO (lit "Function generate_initial_response.");
              EvSearch (lit "population") 5;
              EvInvoke (first_prompt plain_prompts (lit "population")
                          [lit "demographics(State, TotalPop)"]);
              EvLog ERROR (lit "Error generating response...");
              EvPrint (lit "Error generating response: deadline exceeded")] |}).
Proof.
  split.
  - exact (proj1 (@generate_initial_response_apologizes unit down_store
                    plain_prompts (lit "population") 5 quiet timeout_error
                    eq_refl) tt eq_refl).
  - exact (proj2 (@generate_initial_response_apologizes unit down_model
                    plain_prompts (lit "population") 5 quiet timeout_error
                    eq_refl) _ tt tt eq_refl eq_refl).
Defined.

(** X16.  A failure of the translator does not start the fallback: when
    the vector store raises an [Exception] on the first retrieval,
    [get_response] returns the apology, the store is asked once, the model
    never, and the log ends with TERMINATED. *)
Theorem get_response_translator_failure (X : Type) (C : collaborators X)
  (P : prompts) (user_input : str) (k : nat) (st : state X) (e : exn)
  (w : X) :
  similarity_search C user_input k (world st) = (Raise e, w) ->
  is_Exception e = true ->
  get_response C P user_input k st =
  (Ok apology,
   {| world := w;
      trace := trace st ++
        [EvLog INFO (lit "Function get_response...");
         EvLog INFO (lit "Function generate_initial_response.");
         EvSearch user_input k;
         EvLog ERROR (lit "Error generating response...");
         EvPrint (lit "Error generating response: " ++ exn_str e);
         EvLog CRITICAL (lit "TERMINATED")] |}).
Proof.
  intros Hs He.
  erewrite get_response_after_apology
    by (apply generate_initial_response_no_context; [exact Hs|exact He]).
  unfold logged. cbn [world trace]. now rewrite <- !app_assoc.
Qed.

Lemma get_response_translator_failure_witness :
  get_response down_store plain_prompts (lit "population") 5 quiet =
  (Ok apology,
   {| world := tt;
      trace :=
        [EvLog INFO (lit "Function get_response...");
         EvLog INFO (lit "Function generate_initial_response.");
         EvSearch (lit "population") 5;
         EvLog ERROR (lit "Error generating response...");
         EvPrint (lit "Error generating response: deadline exceeded");
         EvLog CRITICAL (lit "TERMINATED")] |}).
Proof.
  exact (@get_response_translator_failure unit down_store plain_prompts
           (lit "population") 5 quiet timeout_error tt eq_refl eq_refl).
Defined.

(** X17.  When the translator refuses and the model then raises an
    [Exception] on the fallback call, [get_response] returns the apology
    of the fallback, not its own: the failure is handled inside
    [trigger_fallback_logic], which prints the message of the exception. *)
Theorem get_response_fallback_failure (X : Type) (C : collaborators X)
  (P : prompts) (user_input : str) (k : nat) (st st1 : state X)
  (response : str) (results : list str) (e : exn) (w2 w3 : X) :
  generate_initial_response C P user_input k
    (logged st [EvLog INFO (lit "Function get_response...")])
  = (Ok response, st1) ->
  contains sentinel response = true ->
  similarity_search C user_input k (world st1) = (Ok results, w2) ->
  llm_invoke C
    (second_prompt P user_input (join [newline] results)
       (HumanMessage user_input)) w2 = (Raise e, w3) ->
  is_Exception e = true ->
  get_response C P user_input k st =
  (Ok fallback_apology,
   {| world := w3;
      trace := trace st1 ++
        [EvLog INFO (lit "Fallback triggered");
         EvSearch user_input k;
         EvLog INFO (lit "Fallback Logic triggered.");
         EvInvoke (second_prompt P user_input (join [newline] results)
                     (HumanMessage user_input));
         EvPrint (lit "Error triggering fallback logic: " ++ exn_str e);
         EvLog ERROR (lit "Error triggering fallback logic.")] |}).
Proof.
  intros Hg Hc Hs Hm He. unfold get_response. unfold logger_info at 1.
  rewrite try_emit. erewrite try_bind_ok by exact Hg.
  rewrite Hc. unfold logger_info at 1. rewrite try_emit, try_call.
  cbn [world trace logged]. rewrite Hs.
  rewrite try_transparent
    by (intros e' st'; apply trigger_fallback_logic_raises).
  erewrite trigger_fallback_logic_no_answer by (cbn [world]; eassumption).
  cbn [world trace]. now rewrite <- !app_assoc.
Qed.

Lemma get_response_fallback_failure_witness :
  fst (get_response refuses_then_fails plain_prompts (lit "Who won?") 5 fresh)
  = Ok fallback_apology.
Proof.
  rewrite (@get_response_fallback_failure nat refuses_then_fails
             plain_prompts (lit "Who won?") 5 fresh _ refusal
             [lit "demographics(State, Unemployment)"] timeout_error 1 2
             eq_refl eq_refl eq_refl eq_refl eq_refl).
  reflexivity.
Defined.

End ResponseExtras.

(** ** The submit handler of the page *)

Module PageFacts.
Import ReFacts SanitizerFacts FailureFacts.

Lemma contains_chars (p s : str) (c : ascii) :
  contains p s = true -> In c p -> In c s.
Proof.
  induction s as [|a s IH]; intros H Hc.
  - cbn [contains] in H. rewrite orb_false_r in H.
    apply startswith_inv in H as [t E]. destruct p; [easy|discriminate].
  - cbn [contains] in H. apply orb_true_iff in H as [H|H].
    + apply startswith_inv in H as [t ->]. apply in_or_app. now left.
    + right. now apply IH.
Qed.

(** A text on one line does not hold the literal of the page. *)
Lemma single_line_no_literal (s : str) :
  single_line s = true -> contains sentinel_literal s = false.
Proof.
  intros H. destruct (contains sentinel_literal s) eqn:E; [|reflexivity].
  assert (Hin : In newline s).
  { apply (contains_chars _ _ _ E). unfold sentinel_literal.
    apply in_or_app. right. now left. }
  unfold single_line in H. rewrite forallb_forall in H.
  specialize (H newline Hin). now rewrite Ascii.eqb_refl in H.
Qed.

Section WithCollaborators.

Variable X : Type.
Variable C : collaborators X.
Variable P : prompts.

Lemma succeeds_render (w : widget) : succeeds (render (X := X) w).
Proof. intros st. eexists. eexists. reflexivity. Qed.

(** The handler once the translator has answered with no literal in the
    answer: the sanitized answer goes to the warehouse. *)
Lemma on_submit_query (u response : str) (st st1 : state (session X)) :
  (length u =? 0) = false ->
  generate_initial_response (paged C) P u 5 st = (Ok response, st1) ->
  contains sentinel_literal response = false ->
  on_submit C P u st =
  try_except
    (data <- get_data (paged C) (refine_str response) ;;
     match data with
     | PyFrame d =>
         if negb (empty d) then
           r <- summarize_and_unpack (paged C) P d u ;;
           let (summary_text, chart) := r in
           shown <- lift (truth summary_text) ;;
           if (shown : bool) then
             render (StWrite (PyStr (lit "Data Summary:"))) ;;
             render (StExpander (lit "Click to view the Data Summary")
                       [StWrite summary_text]) ;;
             match chart with
             | PyNone => ret tt
             | _ => render (StAltairChart chart)
             end
           else
             render (StWrite (PyStr (lit "No relevant data found.")))
         else ret tt
     | _ => ret tt
     end)
    except_Exception
    (fun e => render (StError (lit "An error occurred: " ++ exn_str e)))
    (logged st1 [EvLog INFO (lit "Refining Resonse...")]).
Proof.
  intros Hu Hg Hc. unfold on_submit. rewrite Hu. cbn [negb].
  erewrite try_bind_ok by exact Hg. rewrite Hc.
  erewrite try_bind_ok by apply refine_response_str.
  reflexivity.
Qed.

(** [get_data] returns or lets a non-[Exception] out; what it records
    starts with its log line and the query. *)
Lemma get_data_trace (reg : str) (st : state X) :
  exists evs,
    trace (snd (get_data C reg st)) =
    trace st ++ [EvLog INFO (lit "Hitting BigQuery..."); EvQuery reg] ++ evs.
Proof.
  unfold get_data, logger_info, logger_critical.
  rewrite try_emit, try_call. cbn [world trace logged].
  destruct (execute_query C reg (world st)) as [[v|e] w].
  - exists []. unfold try_except, ret. cbn. now rewrite <- app_assoc.
  - unfold except_Exception. destruct (is_Exception e).
    + io_step. eexists. unfold logged. cbn [snd world trace].
      rewrite <- !app_assoc. reflexivity.
    + exists []. cbn. now rewrite <- app_assoc.
Qed.

Lemma emits_render (Q : event -> Prop) (w : widget) :
  emits Q (render (X := X) w).
Proof. intros st. exists []. cbn. now rewrite app_nil_r. Qed.

Lemma data_handle_emits_any (data : DataFrame) (u f : str) (r : nat) :
  emits (fun _ : event => True) (data_handle C P data u f r).
Proof.
  unfold data_handle.
  destruct (100 <? len data); [|destruct (len data <=? 100)];
    unfold large_data, short_data; emits_auto.
Qed.

End WithCollaborators.

Section Page.

Variable X : Type.
Variable C : collaborators X.
Variable P : prompts.

(** What the handler does with the answer of the warehouse. *)
Lemma on_submit_trace (u response : str) (st st1 : state (session X)) :
  (length u =? 0) = false ->
  generate_initial_response (paged C) P u 5 st = (Ok response, st1) ->
  contains sentinel_literal response = false ->
  exists evs,
    trace (snd (on_submit C P u st)) =
    trace st1 ++
      [EvLog INFO (lit "Refining Resonse..."); EvLog INFO (lit "Hitting BigQuery...");
       EvQuery (refine_str response)] ++ evs.
Proof.
  intros Hu Hg Hc. rewrite (@on_submit_query X C P u response st st1 Hu Hg Hc).
  match goal with
  | |- context [try_except (bind ?m ?k) ?c ?h ?s] =>
      assert (Hk : forall a, emits (fun _ : event => True) (k a));
      [|assert (Hh : forall e, emits (fun _ : event => True) (h e));
        [|set (K := k) in *; set (H := h) in *; set (S := s) in *]]
  end.
  - intros [| | | |d| | |]; try apply emits_ret.
    destruct (negb (empty d)); [|apply emits_ret].
    unfold summarize_and_unpack.
    apply emits_bind.
    + apply emits_bind; [apply data_handle_emits_any|intros v; apply emits_lift].
    + intros [summary_text chart].
      apply emits_bind; [apply emits_lift|intros [|]].
      * apply emits_bind; [apply emits_render|intros _].
        apply emits_bind; [apply emits_render|intros _].
        destruct chart; first [apply emits_ret|apply emits_render].
      * apply emits_render.
  - intros e. apply emits_render.
  - destruct (get_data_trace (paged C) (refine_str response) S) as (evs & E).
    unfold try_except, bind.
    destruct (get_data (paged C) (refine_str response) S) as [[a|e] st2];
      cbn [snd] in E.
    + destruct (Hk a st2) as (evs' & E' & _).
      destruct (K a st2) as [[r|e] st3]; cbn [snd] in E'.
      * exists (evs ++ evs'). cbn [snd]. rewrite E', E. unfold S, logged.
        cbn [trace]. now rewrite <- !app_assoc.
      * destruct (except_Exception e).
        -- destruct (Hh e st3) as (evs2 & E2 & _).
           exists (evs ++ evs' ++ evs2). rewrite E2, E', E. unfold S, logged.
           cbn [trace]. now rewrite <- !app_assoc.
        -- exists (evs ++ evs'). cbn [snd]. rewrite E', E. unfold S, logged.
           cbn [trace]. now rewrite <- !app_assoc.
    + destruct (except_Exception e).
      * destruct (Hh e st2) as (evs2 & E2 & _).
        exists (evs ++ evs2). rewrite E2, E. unfold S, logged.
        cbn [trace]. now rewrite <- !app_assoc.
      * exists evs. cbn [snd]. rewrite E. unfold S, logged.
        cbn [trace]. now rewrite <- !app_assoc.
Qed.

End Page.
End PageFacts.

Module PageExtras.
Import PageFacts FailureFacts RouterEvents.

(** X18.  The submit handler lets no exception of class [Exception] out,
    whatever the vector store, the model, the warehouse and [exec] do.
    With an empty query nothing is called and the page asks for a
    query. *)
Theorem on_submit_contains_failures (X : Type) (C : collaborators X)
  (P : prompts) (user_query : str) (st : state (session X)) :
  contained (on_submit C P user_query)
  /\ on_submit C P [] st =
     (Ok tt, drawn st [StWrite (PyStr (lit "Please enter a query."))]).
Proof.
  split; [|reflexivity].
  unfold on_submit. destruct (negb (length user_query =? 0)).
  - apply try_contained. intros e. apply succeeds_render.
  - intros st0 e st'. discriminate.
Qed.

(** X19.  An answer of the translator that stands on one line never
    starts the fallback of the page, even when it is the refusal itself:
    the literal the page looks for holds a line break.  The answer is
    sanitized and sent to the warehouse as a query. *)
Theorem on_submit_one_line_answer_is_queried (X : Type) (C : collaborators X)
  (P : prompts) (user_query response : str) (st st1 : state (session X)) :
  (length user_query =? 0) = false ->
  generate_initial_response (paged C) P user_query 5 st = (Ok response, st1) ->
  single_line response = true ->
  contains sentinel_literal response = false
  /\ exists evs,
       trace (snd (on_submit C P user_query st)) =
       trace st1 ++
         [EvLog INFO (lit "Refining Resonse...");
          EvLog INFO (lit "Hitting BigQuery...");
          EvQuery (refine_str response)] ++ evs.
Proof.
  intros Hu Hg Hs.
  pose proof (single_line_no_literal response Hs) as Hc.
  split; [exact Hc|]. now apply on_submit_trace.
Qed.

Lemma on_submit_one_line_answer_is_queried_witness :
  contains sentinel sentinel = true
  /\ exists evs,
       trace (snd (on_submit (serving PyNone sentinel prose (fun ns => Ok ns))
                     plain_prompts (lit "Who won?") (blank tt))) =
       [EvLog INFO (lit "Function generate_initial_response.");
        EvSearch (lit "Who won?") 5;
        EvInvoke (first_prompt plain_prompts (lit "Who won?")
                    [lit "demographics(State, TotalPop)"]);
        EvLog INFO sentinel]
       ++ [EvLog INFO (lit "Refining Resonse...");
           EvLog INFO (lit "Hitting BigQuery...");
           EvQuery sentinel] ++ evs.
Proof.
  split; [reflexivity|].
  exact (proj2 (@on_submit_one_line_answer_is_queried unit
                  (serving PyNone sentinel prose (fun ns => Ok ns)) plain_prompts
                  (lit "Who won?") sentinel (blank tt) _ eq_refl eq_refl eq_refl)).
Defined.

(** X20.  For a table of 1 to 100 rows the page never shows the summary:
    [data_handle] returns three values on the short path, the handler
    unpacks two, and what the user sees is the message of the
    [ValueError], after the model has been called. *)
Theorem on_submit_small_table_shows_error (X : Type) (C : collaborators X)
  (P : prompts) (user_query response : str) (d : DataFrame) (v : pyval)
  (st st1 st2 st3 : state (session X)) :
  (length user_query =? 0) = false ->
  generate_initial_response (paged C) P user_query 5 st = (Ok response, st1) ->
  contains sentinel_literal response = false ->
  get_data (paged C) (refine_str response)
    (logged st1 [EvLog INFO (lit "Refining Resonse...")])
  = (Ok (PyFrame d), st2) ->
  empty d = false ->
  len d <= 100 ->
  data_handle (paged C) P d user_query (lit "data.json") 10 st2 = (Ok v, st3) ->
  on_submit C P user_query st =
  (Ok tt,
   drawn st3
     [StError (lit "An error occurred: too many values to unpack (expected 2)")]).
Proof.
  intros Hu Hg Hc Hq He Hlen Hd.
  rewrite (@on_submit_query X C P user_query response st st1 Hu Hg Hc).
  erewrite try_bind_ok by exact Hq. cbv beta iota. rewrite He. cbn [negb].
  pose proof (data_handle_returns _ _ _ _ _ _ _ Hd) as Hv.
  replace (len d <=? 100) with true in Hv
    by (symmetry; apply Nat.leb_le; exact Hlen).
  destruct Hv as (t & c & ->).
  unfold summarize_and_unpack, try_except, bind. rewrite Hd. reflexivity.
Qed.

Lemma on_submit_small_table_shows_error_witness :
  fst (on_submit (serving (PyFrame (ones 3)) count_query prose
                    (fun ns => Ok ns))
         plain_prompts (lit "How many?") (blank tt))
  = Ok tt
  /\ page (world (snd (on_submit (serving (PyFrame (ones 3)) count_query prose
                                    (fun ns => Ok ns))
                         plain_prompts (lit "How many?") (blank tt))))
     = [StError (lit "An error occurred: too many values to unpack (expected 2)")].
Proof.
  pose (C := serving (PyFrame (ones 3)) count_query prose (fun ns => Ok ns)).
  pose (st1 := snd (generate_initial_response (paged C) plain_prompts
                      (lit "How many?") 5 (blank tt))).
  pose (st2 := snd (get_data (paged C) count_query
                      (logged st1 [EvLog INFO (lit "Refining Resonse...")]))).
  pose (st3 := snd (data_handle (paged C) plain_prompts (ones 3)
                      (lit "How many?") (lit "data.json") 10 st2)).
  pose proof (@on_submit_small_table_shows_error unit C
             plain_prompts (lit "How many?") count_query (ones 3)
             (PyTuple [PyInt 3; PyStr prose; PyNone]) (blank tt)
             st1 st2 st3 eq_refl eq_refl eq_refl eq_refl eq_refl
             (proj1 (Nat.leb_le 3 100) eq_refl) eq_refl) as E.
  subst st3 st2 st1 C. rewrite E. split; reflexivity.
Defined.



(** X21.  When the warehouse gives no table, or a table without a row or
    without a column, the page stays as it was: no summary, no message
    that no data was found, and the model is not asked to summarize.  The
    failure of a query, which [get_data] turns into [None], ends this
    way. *)
Theorem on_submit_no_table_shows_nothing (X : Type) (C : collaborators X)
  (P : prompts) (user_query response : str) (data : pyval)
  (st st1 st2 : state (session X)) :
  (length user_query =? 0) = false ->
  generate_initial_response (paged C) P user_query 5 st = (Ok response, st1) ->
  contains sentinel_literal response = false ->
  get_data (paged C) (refine_str response)
    (logged st1 [EvLog INFO (lit "Refining Resonse...")])
  = (Ok data, st2) ->
  no_table data = true ->
  on_submit C P user_query st = (Ok tt, st2).
Proof.
  intros Hu Hg Hc Hq Hn.
  rewrite (@on_submit_query X C P user_query response st st1 Hu Hg Hc).
  erewrite try_bind_ok by exact Hq. cbv beta.
  destruct data as [| | | |d| | |]; try reflexivity.
  cbn [no_table] in Hn. rewrite Hn. reflexivity.
Qed.

Lemma on_submit_no_table_shows_nothing_witness :
  fst (on_submit down_warehouse plain_prompts (lit "How many?") (blank tt))
  = Ok tt
  /\ page (world (snd (on_submit down_warehouse plain_prompts
                         (lit "How many?") (blank tt))))
     = [].
Proof.
  pose (st1 := snd (generate_initial_response (paged down_warehouse)
                      plain_prompts (lit "How many?") 5 (blank tt))).
  pose (st2 := snd (get_data (paged down_warehouse) prose
                      (logged st1 [EvLog INFO (lit "Refining Resonse...")]))).
  pose proof (@on_submit_no_table_shows_nothing unit down_warehouse
                plain_prompts (lit "How many?") prose PyNone (blank tt)
                st1 st2 eq_refl eq_refl eq_refl eq_refl eq_refl) as E.
  subst st2 st1. rewrite E. split; reflexivity.
Defined.



(** X22.  For a table of more than 100 rows with a column the page shows
    what [data_handle] returned: the heading and the summary in an
    expander, then the chart when there is one; a summary that came back
    empty is replaced by the message that no data was found, and the
    chart is then not shown. *)
Theorem on_submit_large_table_shows_summary (X : Type) (C : collaborators X)
  (P : prompts) (user_query response : str) (d : DataFrame) (v : pyval)
  (st st1 st2 st3 : state (session X)) :
  (length user_query =? 0) = false ->
  generate_initial_response (paged C) P user_query 5 st = (Ok response, st1) ->
  contains sentinel_literal response = false ->
  get_data (paged C) (refine_str response)
    (logged st1 [EvLog INFO (lit "Refining Resonse...")])
  = (Ok (PyFrame d), st2) ->
  empty d = false ->
  100 < len d ->
  data_handle (paged C) P d user_query (lit "data.json") 10 st2 = (Ok v, st3) ->
  exists s chart,
    v = PyTuple [PyStr s; chart]
    /\ on_submit C P user_query st = (Ok tt, drawn st3 (summary_widgets s chart)).
Proof.
  intros Hu Hg Hc Hq He Hlen Hd.
  pose proof (data_handle_returns _ _ _ _ _ _ _ Hd) as Hv.
  replace (len d <=? 100) with false in Hv
    by (symmetry; apply Nat.leb_gt; exact Hlen).
  destruct Hv as (s & chart & ->). exists s, chart. split; [reflexivity|].
  rewrite (@on_submit_query X C P user_query response st st1 Hu Hg Hc).
  erewrite try_bind_ok by exact Hq. cbv beta iota. rewrite He. cbn [negb].
  unfold summarize_and_unpack, try_except, bind. rewrite Hd.
  unfold lift, unpack2, truth, summary_widgets.
  destruct (length s =? 0); cbn [negb]; [reflexivity|].
  destruct chart; unfold render, ret, drawn; cbn [world trace outside page];
    rewrite <- ?app_assoc; reflexivity.
Qed.

Lemma on_submit_large_table_shows_summary_witness :
  fst (on_submit (serving (PyFrame (ones 101)) count_query summary_chart draws)
         plain_prompts (lit "How many?") (blank tt))
  = Ok tt
  /\ page (world (snd (on_submit (serving (PyFrame (ones 101)) count_query
                                    summary_chart draws)
                         plain_prompts (lit "How many?") (blank tt))))
     = [StWrite (PyStr (lit "Data Summary:"));
        StExpander (lit "Click to view the Data Summary")
          [StWrite (PyStr (lit "Income by state."))];
        StAltairChart (PyObject "Chart" 1)].
Proof.
  pose (C := serving (PyFrame (ones 101)) count_query summary_chart draws).
  pose (st1 := snd (generate_initial_response (paged C) plain_prompts
                      (lit "How many?") 5 (blank tt))).
  pose (st2 := snd (get_data (paged C) count_query
                      (logged st1 [EvLog INFO (lit "Refining Resonse...")]))).
  pose (st3 := snd (data_handle (paged C) plain_prompts (ones 101)
                      (lit "How many?") (lit "data.json") 10 st2)).
  destruct (@on_submit_large_table_shows_summary unit C
              plain_prompts (lit "How many?") count_query (ones 101)
              (PyTuple [PyStr (lit "Income by state."); PyObject "Chart" 1])
              (blank tt) st1 st2 st3 eq_refl eq_refl eq_refl eq_refl eq_refl
              (le_n 101) eq_refl)
    as (s & chart & Hv & E).
  injection Hv as <- <-. subst st3 st2 st1 C. rewrite E.
  split; reflexivity.
Defined.



(** X23.  The fallback of the page differs from that of [get_response]:
    when the answer holds the two-line literal, the schema context is not
    fetched again, the fallback prompt is built with an empty context, and
    the page shows the trimmed text the model then returns. *)
Theorem on_submit_fallback_without_context (X : Type) (C : collaborators X)
  (P : prompts) (user_query response raw : str) (st st1 : state (session X))
  (w : X) :
  (length user_query =? 0) = false ->
  generate_initial_response (paged C) P user_query 5 st = (Ok response, st1) ->
  contains sentinel_literal response = true ->
  llm_invoke C (second_prompt P user_query [] (HumanMessage user_query))
    (outside (world st1)) = (Ok raw, w) ->
  on_submit C P user_query st =
  (Ok tt,
   {| world := {| outside := w;
                  page := page (world st1) ++ [StWrite (PyStr (strip raw))] |};
      trace := trace st1 ++
        [EvLog INFO (lit "Fallback Logic triggered.");
         EvInvoke (second_prompt P user_query [] (HumanMessage user_query));
         EvLog INFO (lit "Improved Prompts Generated.");
         EvLog CRITICAL (lit "TERMINATED")] |}).
Proof.
  intros Hu Hg Hc Hm. unfold on_submit. rewrite Hu. cbn [negb].
  erewrite try_bind_ok by exact Hg. rewrite Hc.
  erewrite try_bind_ok.
  2:{ apply ResponseFacts.trigger_fallback_logic_answer.
      cbn [llm_invoke paged]. unfold on_page. rewrite Hm. reflexivity. }
  reflexivity.
Qed.

Lemma on_submit_fallback_without_context_witness :
  on_submit coach plain_prompts (lit "Who won?") (blank 0) =
  (Ok tt,
   {| world := {| outside := 2; page := [StWrite (PyStr suggestion)] |};
      trace :=
        [EvLog INFO (lit "Function generate_initial_response.");
         EvSearch (lit "Who won?") 5;
         EvInvoke (first_prompt plain_prompts (lit "Who won?")
                     [lit "demographics(State, Unemployment)"]);
         EvLog INFO sentinel_literal;
         EvLog INFO (lit "Fallback Logic triggered.");
         EvInvoke (second_prompt plain_prompts (lit "Who won?") []
                     (HumanMessage (lit "Who won?")));
         EvLog INFO (lit "Improved Prompts Generated.");
         EvLog CRITICAL (lit "TERMINATED")] |}).
Proof.
  exact (@on_submit_fallback_without_context nat coach plain_prompts
           (lit "Who won?") sentinel_literal suggestion (blank 0)
           (snd (generate_initial_response (paged coach) plain_prompts
                   (lit "Who won?") 5 (blank 0))) 2
           eq_refl eq_refl eq_refl eq_refl).
Defined.



End PageExtras.

(** ** The warehouse manager *)

Module BigQueryFacts.
Import BigQuery ReFacts StripFacts.

(** [lower] leaves the blanks alone. *)
Lemma lower_char_space (c : ascii) : isspace c = true -> lower_char c = c.
Proof.
  destruct c as [[] [] [] [] [] [] [] []]; vm_compute; congruence.
Qed.

Lemma lower_app (s t : str) : lower (s ++ t) = lower s ++ lower t.
Proof. apply map_app. Qed.

Lemma lstrip_blanks (ws s : str) :
  forallb isspace ws = true -> lstrip (ws ++ s) = lstrip s.
Proof.
  induction ws as [|a ws IH]; intros H; [reflexivity|].
  cbn [forallb] in H. apply andb_true_iff in H as [Ha H].
  cbn [app lstrip]. rewrite Ha. now apply IH.
Qed.

(** Trimming keeps a word that opens and closes with a character that is
    no blank, whatever comes before it among blanks and after it. *)
Lemma strip_keeps_word (ws rest : str) (a z : ascii) (mid : str) :
  forallb isspace ws = true -> isspace a = false -> isspace z = false ->
  exists rest', strip (ws ++ (a :: mid ++ [z]) ++ rest)
                = (a :: mid ++ [z]) ++ rest'.
Proof.
  intros Hws Ha Hz. unfold strip. rewrite lstrip_blanks by exact Hws.
  cbn [app lstrip]. rewrite Ha. unfold rstrip.
  change (a :: (mid ++ [z]) ++ rest) with ((a :: mid ++ [z]) ++ rest).
  rewrite rev_app_distr.
  assert (H : forall l k, (exists c k', k = c :: k' /\ isspace c = false) ->
                          exists l', lstrip (l ++ k) = l' ++ k).
  { induction l as [|b l IH]; intros k Hk.
    - exists []. destruct Hk as (c & k' & -> & Hc). cbn. now rewrite Hc.
    - cbn [app lstrip]. destruct (isspace b).
      + now apply IH.
      + now exists (b :: l). }
  destruct (H (rev rest) (rev (a :: mid ++ [z]))) as (l' & E).
  { exists z, (rev (a :: mid)).
    change (a :: mid ++ [z]) with ((a :: mid) ++ [z]).
    now rewrite rev_app_distr. }
  rewrite E, rev_app_distr, rev_involutive. now exists (rev l').
Qed.

(** A word that lowers to a keyword has no blank at either end. *)
Lemma lowered_no_space (c k : ascii) :
  lower_char c = k -> isspace k = false -> isspace c = false.
Proof.
  intros E Hk. destruct (isspace c) eqn:Hc; [|reflexivity].
  rewrite (lower_char_space c Hc) in E. congruence.
Qed.

Lemma keyword_detected (ws kw rest : str) :
  forallb isspace ws = true ->
  lower kw = lit "create" \/ lower kw = lit "alter" ->
  startswith_any [lit "create"; lit "alter"]
    (lower (strip (ws ++ kw ++ rest))) = true.
Proof.
  intros Hws [E|E].
  - destruct kw as [|a [|b [|c [|d [|e [|z [|]]]]]]]; try discriminate.
    pose proof E as E'. injection E as Ea _ _ _ _ Ez.
    destruct (strip_keeps_word ws rest a z [b; c; d; e] Hws) as (r & H).
    + now apply (lowered_no_space a Ea).
    + now apply (lowered_no_space z Ez).
    + change ((a :: [b; c; d; e] ++ [z]) ++ rest)
        with ([a; b; c; d; e; z] ++ rest) in H.
      rewrite H. change (a :: [b; c; d; e] ++ [z]) with [a; b; c; d; e; z].
      rewrite lower_app. unfold startswith_any. cbn [existsb].
      rewrite E'. now rewrite startswith_app.
  - destruct kw as [|a [|b [|c [|d [|z [|]]]]]]; try discriminate.
    pose proof E as E'. injection E as Ea _ _ _ Ez.
    destruct (strip_keeps_word ws rest a z [b; c; d] Hws) as (r & H).
    + now apply (lowered_no_space a Ea).
    + now apply (lowered_no_space z Ez).
    + change ((a :: [b; c; d] ++ [z]) ++ rest)
        with ([a; b; c; d; z] ++ rest) in H.
      rewrite H. change (a :: [b; c; d] ++ [z]) with [a; b; c; d; z].
      rewrite lower_app. unfold startswith_any. cbn [existsb].
      rewrite E', startswith_app. apply orb_true_r.
Qed.

End BigQueryFacts.

Module BigQueryExtras.
Import BigQuerySamples BigQueryFacts.

(** X24.  [execute_query] takes a statement for DDL when, leading blanks
    apart, it opens with [create] or [alter] in any letter case.  For
    such a statement the destination table is not put into the job
    configuration, the job runs with a fresh configuration, and the call
    still returns [None]. *)
Theorem execute_query_ddl_ignores_destination (X : Type)
  (self : BigQuery.BigQueryManager X) (ws kw rest : str) (c : ascii)
  (t : str) (w : X) :
  forallb isspace ws = true ->
  BigQuery.lower kw = lit "create" \/ BigQuery.lower kw = lit "alter" ->
  BigQuery.execute_query self (ws ++ kw ++ rest) (Some (c :: t)) w =
  match BigQuery.submit (BigQuery.client self) (ws ++ kw ++ rest)
          BigQuery.fresh_config w with
  | (Ok _, w1) => (Ok PyNone, w1)
  | (Raise e, w1) => (Raise e, w1)
  end.
Proof.
  intros Hws Hkw. unfold BigQuery.execute_query.
  rewrite (keyword_detected ws kw rest Hws Hkw). cbn [negb].
  now destruct (BigQuery.submit (BigQuery.client self) (ws ++ kw ++ rest)
                  BigQuery.fresh_config w) as [[r|e] w1].
Qed.

Lemma execute_query_ddl_ignores_destination_witness :
  BigQuery.execute_query census
    ((newline :: lit "  ") ++ lit "Create" ++ lit " TABLE t AS SELECT 1")
    (Some (lit "out")) tt
  = (Ok PyNone, tt).
Proof.
  exact (@execute_query_ddl_ignores_destination unit census
           (newline :: lit "  ") (lit "Create") (lit " TABLE t AS SELECT 1")
           "o"%char (lit "ut") tt eq_refl (or_introl eq_refl)).
Defined.

(** X25.  With the manager as warehouse, [get_data] submits the query
    with a fresh job configuration, without a destination, and the table
    it returns is the one [to_dataframe] made of the rows of the finished
    job.  An [Exception] raised at any of the three steps (starting the
    job, waiting for its rows, building the table) is logged with its
    message and becomes [None]; any other exception reaches the caller.
    Nothing after the failing step is called. *)
Theorem get_data_with_manager_outcomes (X : Type) (C : collaborators X)
  (self : BigQuery.BigQueryManager X) (reg : str) (st : state X) :
  get_data (with_manager C self) reg st =
  match BigQuery.Client.query (BigQuery.client self) reg
          BigQuery.fresh_config (world st) with
  | (Raise e, w1) => query_failed reg st e w1
  | (Ok query_job, w1) =>
      match BigQuery.Client.result (BigQuery.client self) query_job w1 with
      | (Raise e, w2) => query_failed reg st e w2
      | (Ok job_rows, w2) =>
          match BigQuery.Client.to_dataframe (BigQuery.client self)
                  job_rows w2 with
          | (Raise e, w3) => query_failed reg st e w3
          | (Ok df, w3) =>
              (Ok (PyFrame df),
               {| world := w3;
                  trace := trace st ++
                    [EvLog INFO (lit "Hitting BigQuery...");
                     EvQuery reg] |})
          end
      end
  end.
Proof.
  assert (Hfail : forall e w,
            (if except_Exception e
             then
               (emit (EvLog ERROR (lit "SQL Query Problem: " ++ exn_str e)) ;;
                logger_critical "TERMINATED" ;;
                ret PyNone)
                 {| world := w;
                    trace := (trace st ++ [EvLog INFO (lit "Hitting BigQuery...")])
                               ++ [EvQuery reg] |}
             else
               (Raise e,
                {| world := w;
                   trace := (trace st ++ [EvLog INFO (lit "Hitting BigQuery...")])
                              ++ [EvQuery reg] |}))
            = query_failed reg st e w).
  { intros e w. unfold query_failed, except_Exception, logger_critical.
    destruct (is_Exception e).
    - io_step. unfold logged. cbn [world trace]. now rewrite <- !app_assoc.
    - now rewrite <- app_assoc. }
  unfold get_data, logger_info.
  rewrite try_emit, try_call. cbn [execute_query with_manager world trace logged].
  unfold BigQuery.execute_query, BigQuery.submit.
  destruct (BigQuery.Client.query (BigQuery.client self) reg
              BigQuery.fresh_config (world st)) as [[query_job|e] w1];
    [|apply Hfail].
  destruct (BigQuery.Client.result (BigQuery.client self) query_job w1)
    as [[job_rows|e] w2]; [|apply Hfail].
  destruct (BigQuery.Client.to_dataframe (BigQuery.client self) job_rows w2)
    as [[df|e] w3]; [|apply Hfail].
  unfold try_except, ret. cbn. now rewrite <- app_assoc.
Qed.

End BigQueryExtras.
